(** * sftpgo-manager: tenant provisioning, authentication hook and CSV ingestion

    A shallow embedding of the Go sources: the registry ([DB] and its
    methods), the SFTPGo admin client ([SFTPGoClient]), the HTTP handlers
    ([handlers.go]) and the upload worker ([worker.go]).  Go strings are byte strings ([string]),
    integers and instants are [Z], Go's [(value, error)] results are [Result],
    a [map[string]any] decoded from JSON is a [gmap string JSON], and the
    mutable state the methods share (the SQLite tables, the client's token
    cache) together with everything the outside world answers (the clock,
    storage faults, the entropy source, HTTP replies, the object store) is a
    [World] threaded through a small state monad. *)

From Stdlib Require Import ZArith String Ascii List Bool Lia DecimalString Sorted.
From Stdlib Require Import Decimal DecimalPos.
From stdpp Require Import base option list strings gmap.

Local Open Scope Z_scope.

(** ** Go values *)

Definition error := string.

Inductive Result (A : Type) : Type :=
| Ok (a : A)
| Err (e : error).
Arguments Ok {A} a.
Arguments Err {A} e.

(** [fmt.Errorf(ctx + ": %w", err)]. *)
Definition wrap (ctx : string) (e : error) : error := ctx +:+ ": " +:+ e.

(** The double-quote byte, for texts such as [{"error":"..."}]. *)
Definition dq : string := String (ascii_of_nat 34) EmptyString.

(** [%d] of an integer. *)
Definition fmt_d (z : Z) : string := NilZero.string_of_int (Z.to_int z).

(** A value handed to or read by [encoding/json]: the [any] of a
    [map[string]any], with [time.Time] kept as an instant. *)
#[local] Unset Elimination Schemes.
Inductive JSON : Type :=
| JNull
| JBool (b : bool)
| JNum (n : Z)
| JStr (s : string)
| JTime (t : Z)
| JArr (items : list JSON)
| JObj (fields : list (string * JSON)).
#[local] Set Elimination Schemes.

(** ** The Go standard library: package [strings], ASCII paths

    [strings.TrimSpace], [strings.Fields] and [strings.ToLower] each have a
    byte-wise path for ASCII input and hand input with a byte of 0x80 or more
    to a Unicode routine ([TrimFunc], [TrimRightFunc], [FieldsFunc],
    [Map] with [unicode.IsSpace] / [unicode.ToLower]).  The byte-wise paths are
    written out here; the Unicode routines are fields of [Runtime] below. *)

Definition byte (c : ascii) : Z := Z.of_N (N_of_ascii c).

(** [utf8.RuneSelf]: bytes below it are single-byte runes. *)
Definition RuneSelf : Z := 128.

(** The table [asciiSpace]: ['\t', '\n', '\v', '\f', '\r', ' ']. *)
Definition asciiSpace (c : ascii) : bool :=
  let b := byte c in ((9 <=? b) && (b <=? 13)) || (b =? 32).

Fixpoint isASCII (s : string) : bool :=
  match s with
  | EmptyString => true
  | String c s' => (byte c <? RuneSelf) && isASCII s'
  end.

Definition isEmpty (s : string) : bool :=
  match s with EmptyString => true | String _ _ => false end.

Fixpoint rev_onto (s : string) (acc : string) : string :=
  match s with
  | EmptyString => acc
  | String c s' => rev_onto s' (String c acc)
  end.

Definition strrev (s : string) : string := rev_onto s EmptyString.

(** [strings.HasPrefix] and [strings.HasSuffix]. *)
Fixpoint HasPrefix (s prefix : string) : bool :=
  match prefix, s with
  | EmptyString, _ => true
  | String p prefix', String c s' => (byte p =? byte c) && HasPrefix s' prefix'
  | String _ _, EmptyString => false
  end.

Definition HasSuffix (s suffix : string) : bool :=
  HasPrefix (strrev s) (strrev suffix).

Fixpoint drop_bytes (n : nat) (s : string) : string :=
  match n, s with
  | O, _ => s
  | S n', String _ s' => drop_bytes n' s'
  | S _, EmptyString => EmptyString
  end.

(** [strings.TrimPrefix]. *)
Definition TrimPrefix (s prefix : string) : string :=
  if HasPrefix s prefix then drop_bytes (String.length prefix) s else s.

(** [strings.Split(s, sep)[0]] for a one-byte separator: the bytes before the
    first separator (all of [s] when there is none). *)
Fixpoint Split_first (s : string) (sep : ascii) : string :=
  match s with
  | EmptyString => EmptyString
  | String c s' =>
      if byte c =? byte sep then EmptyString else String c (Split_first s' sep)
  end.

(** Lower-casing of one ASCII byte: ['A'..'Z'] move by ['a' - 'A']. *)
Definition lowerByte (c : ascii) : ascii :=
  let b := byte c in
  if (65 <=? b) && (b <=? 90) then ascii_of_N (Z.to_N (b + 32)) else c.

Fixpoint lowerASCII (s : string) : string :=
  match s with
  | EmptyString => EmptyString
  | String c s' => String (lowerByte c) (lowerASCII s')
  end.

(** The ASCII path of [strings.Fields]: [cur] holds the bytes since
    [fieldStart]. *)
Fixpoint fieldsASCII (cur : string) (s : string) : list string :=
  match s with
  | EmptyString => if isEmpty cur then [] else [strrev cur]
  | String c s' =>
      if asciiSpace c
      then (if isEmpty cur then fieldsASCII EmptyString s'
            else strrev cur :: fieldsASCII EmptyString s')
      else fieldsASCII (String c cur) s'
  end.

(** Upper-case hexadecimal is never produced: [hex.EncodeToString] uses
    [0123456789abcdef]. *)
Definition hexDigit (n : Z) : ascii :=
  if n <? 10 then ascii_of_N (Z.to_N (48 + n)) else ascii_of_N (Z.to_N (87 + n)).

Fixpoint hex_EncodeToString (b : list Z) : string :=
  match b with
  | [] => EmptyString
  | x :: b' =>
      String (hexDigit (Z.shiftr (Z.land x 255) 4))
        (String (hexDigit (Z.land x 15)) (hex_EncodeToString b'))
  end.

(** ** What the repository takes from outside

    Library routines whose tables are not part of the repository.  Every
    theorem below holds for any choice of them. *)
Class Runtime : Type := {
  (** Go's [float64]. *)
  float64 : Type;
  (** [strconv.ParseFloat(s, 64)]; [Err] when [s] is not a number. *)
  strconv_ParseFloat : string -> Result float64;
  (** [strings.TrimFunc(s, unicode.IsSpace)]. *)
  TrimFunc_IsSpace : string -> string;
  (** [strings.TrimRightFunc(s, unicode.IsSpace)]. *)
  TrimRightFunc_IsSpace : string -> string;
  (** [strings.FieldsFunc(s, unicode.IsSpace)]. *)
  FieldsFunc_IsSpace : string -> list string;
  (** [strings.Map(unicode.ToLower, s)]. *)
  Map_ToLower : string -> string;
  (** [strconv.Quote], the [%q] verb. *)
  strconv_Quote : string -> string;
  (** [filepath.Join] of two elements. *)
  filepath_Join : string -> string -> string;
  (** The error of [http.NewRequest(method, url, body)], if any. *)
  http_NewRequest_error : string -> string -> option error;
  (** [json.NewDecoder(body).Decode] into
      [struct { AccessToken string; ExpiresAt time.Time }]. *)
  json_Decode_token : string -> Result (string * Z)
}.

Section Program.
Context `{RT : Runtime}.

(** [strings.TrimSpace]: the second loop, scanning [s[start:]] from its end
    ([r] is that slice reversed). *)
Fixpoint trimEnd (r : string) : string :=
  match r with
  | EmptyString => EmptyString
  | String c r' =>
      if RuneSelf <=? byte c then TrimRightFunc_IsSpace (strrev r)
      else if asciiSpace c then trimEnd r'
      else strrev r
  end.

(** [strings.TrimSpace]: the first loop, then the second. *)
Fixpoint TrimSpace (s : string) : string :=
  match s with
  | EmptyString => EmptyString
  | String c s' =>
      if RuneSelf <=? byte c then TrimFunc_IsSpace s
      else if asciiSpace c then TrimSpace s'
      else trimEnd (strrev s)
  end.

(** [strings.Fields]. *)
Definition Fields (s : string) : list string :=
  if isASCII s then fieldsASCII EmptyString s else FieldsFunc_IsSpace s.

(** [strings.ToLower]. *)
Definition ToLower (s : string) : string :=
  if isASCII s then lowerASCII s else Map_ToLower s.

(** ** Data model *)

(** Instants are nanoseconds since the Unix epoch. *)
Definition Second : Z := 1000000000.

Record Tenant : Type := mkTenant {
  t_ID : Z;
  t_TenantID : string;
  t_Username : string;
  t_Password : string;
  t_PublicKey : string;
  t_HomeDir : string;
  t_CreatedAt : Z
}.

(** Go's [Record]. *)
Record RecordRow : Type := mkRecord {
  r_ID : Z;
  r_TenantID : string;
  r_RecordKey : string;
  r_Title : string;
  r_Description : string;
  r_Category : string;
  r_Value : float64;
  r_UpdatedAt : Z
}.

(** The tables [tenants] and [records] behind [DB.conn], in insertion order. *)
Record DB : Type := mkDB {
  tenants : list Tenant;
  records : list RecordRow
}.

Record Config : Type := mkConfig {
  SFTPGoURL : string;
  AdminUser : string;
  AdminPass : string;
  ListenAddr : string;
  DataDir : string;
  S3Bucket : string;
  S3Region : string;
  S3Endpoint : string;
  S3AccessKey : string;
  S3SecretKey : string;
  S3UseSSL : bool
}.

Record S3Config : Type := mkS3Config {
  s3_Bucket : string;
  s3_Region : string;
  s3_Endpoint : string;
  s3_AccessKey : string;
  s3_SecretKey : string
}.

Record SFTPGoClient : Type := mkClient {
  baseURL : string;
  adminUser : string;
  adminPass : string;
  token : string;
  tokenExp : Z
}.

Record HttpRequest : Type := mkRequest {
  rq_Method : string;
  rq_URL : string;
  rq_BasicAuth : option (string * string);
  rq_Header : list (string * string);
  rq_Body : option JSON
}.

Record HttpResponse : Type := mkResponse {
  StatusCode : Z;
  Body : string
}.

(** One [csv.Reader] step over an object: a parsed record, or the error the
    reader stops with (a syntax error, a failed read of the stream). *)
Inductive CsvRead : Type :=
| CsvRecord (fields : list string)
| CsvError (e : error).

(** ** The world

    The state the methods mutate ([db], [sftpgo]) and what the environment
    answers during a run: the clock, one entry of [faults] per SQL statement
    ([Some e]: the storage engine refuses it with [e]), the bytes
    [crypto/rand] delivers, one entry of [replies] per HTTP round trip, the
    objects of the store by (bucket, key).  [sent] lists the HTTP requests
    made so far. *)
Record World : Type := mkWorld {
  db : DB;
  sftpgo : SFTPGoClient;
  now : Z;
  faults : list (option error);
  entropy : list Z;
  replies : list (Result HttpResponse);
  sent : list HttpRequest;
  objects : gmap (string * string) (Result (list CsvRead))
}.

Definition set_db (d : DB) (w : World) : World :=
  mkWorld d (sftpgo w) (now w) (faults w) (entropy w) (replies w) (sent w) (objects w).
Definition set_sftpgo (c : SFTPGoClient) (w : World) : World :=
  mkWorld (db w) c (now w) (faults w) (entropy w) (replies w) (sent w) (objects w).
Definition set_now (t : Z) (w : World) : World :=
  mkWorld (db w) (sftpgo w) t (faults w) (entropy w) (replies w) (sent w) (objects w).
Definition set_faults (f : list (option error)) (w : World) : World :=
  mkWorld (db w) (sftpgo w) (now w) f (entropy w) (replies w) (sent w) (objects w).
Definition set_entropy (e : list Z) (w : World) : World :=
  mkWorld (db w) (sftpgo w) (now w) (faults w) e (replies w) (sent w) (objects w).
Definition set_net (r : list (Result HttpResponse)) (s : list HttpRequest) (w : World) : World :=
  mkWorld (db w) (sftpgo w) (now w) (faults w) (entropy w) r s (objects w).

(** ** The state monad *)

Definition M (A : Type) : Type := World -> A * World.

Definition ret {A : Type} (a : A) : M A := fun w => (a, w).

Definition bind {A B : Type} (m : M A) (k : A -> M B) : M B :=
  fun w => let (a, w') := m w in k a w'.

Notation "x <- m ;; k" := (bind m (fun x => k))
  (at level 100, m at next level, right associativity).

(** [time.Now()]. *)
Definition time_Now : M Z := fun w => (now w, w).

(** SQLite's [CURRENT_TIMESTAMP]: the clock, to the second. *)
Definition CURRENT_TIMESTAMP (w : World) : Z := (now w / Second) * Second.

(** [rand.Read(b)] for [len(b) = n]. *)
Definition rand_Read (n : nat) : M (Result (list Z)) := fun w =>
  if (n <=? length (entropy w))%nat
  then (Ok (take n (entropy w)), set_entropy (drop n (entropy w)) w)
  else (Err "crypto/rand: entropy source unavailable", w).

(** [http.DefaultClient.Do(req)]: the request goes out, the next reply (or a
    transport error) comes back. *)
Definition http_Do (req : HttpRequest) : M (Result HttpResponse) := fun w =>
  match replies w with
  | r :: rest => (r, set_net rest (sent w ++ [req]) w)
  | [] => (Err "connection refused", set_net [] (sent w ++ [req]) w)
  end.

(** [minio.Client.GetObject]: a missing key shows as an error of the first
    read of the stream. *)
Definition minio_GetObject (bucket key : string) : M (Result (list CsvRead)) := fun w =>
  match objects w !! (bucket, key) with
  | Some o => (o, w)
  | None => (Ok [CsvError "The specified key does not exist."], w)
  end.

(** [db.conn.Exec] / [db.conn.QueryRow(...).Scan]: one statement, run on the
    tables unless the storage engine refuses it. *)
Definition conn_Exec {A : Type} (stmt : Z -> DB -> Result A * DB) : M (Result A) := fun w =>
  match faults w with
  | Some e :: rest => (Err e, set_faults rest w)
  | _ =>
      let (r, d) := stmt (CURRENT_TIMESTAMP w) (db w) in
      (r, set_db d (set_faults (tail (faults w)) w))
  end.

(** ** The registry ([DB], SQLite schema of [NewDB]) *)

Definition sql_ErrNoRows : error := "sql: no rows in result set".

(** The driver's text for a violated [UNIQUE] constraint. *)
Definition sqlite_unique (column : string) : error :=
  "constraint failed: UNIQUE constraint failed: " +:+ column.

(** The rowid SQLite gives a new row of an [INTEGER PRIMARY KEY] table: one
    more than the largest in use. *)
Definition next_rowid {A : Type} (id : A -> Z) (rows : list A) : Z :=
  1 + foldr Z.max 0 (map id rows).

(** [INSERT INTO tenants (tenant_id, username, password, public_key, home_dir)
    VALUES (?, ?, ?, ?, ?)] under [tenant_id TEXT UNIQUE], [username TEXT
    UNIQUE]; yields [LastInsertId]. *)
Definition sql_insert_tenant (tenantID username password publicKey homeDir : string)
    (ts : Z) (d : DB) : Result Z * DB :=
  if existsb (fun t => String.eqb (t_TenantID t) tenantID) (tenants d)
  then (Err (sqlite_unique "tenants.tenant_id"), d)
  else if existsb (fun t => String.eqb (t_Username t) username) (tenants d)
  then (Err (sqlite_unique "tenants.username"), d)
  else
    let id := next_rowid t_ID (tenants d) in
    (Ok id,
     mkDB (tenants d ++ [mkTenant id tenantID username password publicKey homeDir ts])
          (records d)).

(** [SELECT ... FROM tenants WHERE username = ?], scanned into one row. *)
Definition sql_select_tenant_by_username (username : string)
    (ts : Z) (d : DB) : Result Tenant * DB :=
  match find (fun t => String.eqb (t_Username t) username) (tenants d) with
  | Some t => (Ok t, d)
  | None => (Err sql_ErrNoRows, d)
  end.

(** [SELECT ... FROM tenants WHERE id = ?]. *)
Definition sql_select_tenant (id : Z) (ts : Z) (d : DB) : Result Tenant * DB :=
  match find (fun t => t_ID t =? id) (tenants d) with
  | Some t => (Ok t, d)
  | None => (Err sql_ErrNoRows, d)
  end.

(** [SELECT username FROM tenants WHERE id = ?]. *)
Definition sql_select_username (id : Z) (ts : Z) (d : DB) : Result string * DB :=
  match find (fun t => t_ID t =? id) (tenants d) with
  | Some t => (Ok (t_Username t), d)
  | None => (Err sql_ErrNoRows, d)
  end.

(** [DELETE FROM tenants WHERE id = ?]. *)
Definition sql_delete_tenant (id : Z) (ts : Z) (d : DB) : Result unit * DB :=
  (Ok tt, mkDB (filter (fun t => t_ID t ≠ id) (tenants d)) (records d)).

(** [UPDATE tenants SET public_key = ? WHERE id = ?]. *)
Definition sql_update_public_key (id : Z) (publicKey : string)
    (ts : Z) (d : DB) : Result unit * DB :=
  (Ok tt,
   mkDB (map (fun t =>
                if t_ID t =? id
                then mkTenant (t_ID t) (t_TenantID t) (t_Username t) (t_Password t)
                              publicKey (t_HomeDir t) (t_CreatedAt t)
                else t) (tenants d))
        (records d)).

(** The conflict target of the upsert: [UNIQUE(tenant_id, record_key)]. *)
Definition same_key (tenantID recordKey : string) (r : RecordRow) : bool :=
  String.eqb (r_TenantID r) tenantID && String.eqb (r_RecordKey r) recordKey.

(** [INSERT INTO records (...) VALUES (?, ?, ?, ?, ?, ?, CURRENT_TIMESTAMP)
    ON CONFLICT(tenant_id, record_key) DO UPDATE SET title=excluded.title,
    description=excluded.description, category=excluded.category,
    value=excluded.value, updated_at=CURRENT_TIMESTAMP]. *)
Definition sql_upsert_record (tenantID recordKey title description category : string)
    (value : float64) (ts : Z) (d : DB) : Result unit * DB :=
  if existsb (same_key tenantID recordKey) (records d)
  then
    (Ok tt,
     mkDB (tenants d)
          (map (fun r =>
                  if same_key tenantID recordKey r
                  then mkRecord (r_ID r) (r_TenantID r) (r_RecordKey r)
                                title description category value ts
                  else r) (records d)))
  else
    (Ok tt,
     mkDB (tenants d)
          (records d ++ [mkRecord (next_rowid r_ID (records d)) tenantID recordKey
                                  title description category value ts])).

(** [DB.CreateTenant].  The driver's [LastInsertId] does not fail. *)
Definition DB_CreateTenant (tenantID username password publicKey homeDir : string)
    : M (Result Tenant) :=
  res <- conn_Exec (sql_insert_tenant tenantID username password publicKey homeDir) ;;
  match res with
  | Err err => ret (Err (wrap "insert tenant" err))
  | Ok id =>
      t <- time_Now ;;
      ret (Ok (mkTenant id tenantID username password publicKey homeDir t))
  end.

(** [DB.GetTenant]. *)
Definition DB_GetTenant (id : Z) : M (Result Tenant) :=
  res <- conn_Exec (sql_select_tenant id) ;;
  match res with
  | Err err => ret (Err (wrap ("get tenant " +:+ fmt_d id) err))
  | Ok t => ret (Ok t)
  end.

(** [DB.GetTenantByUsername]. *)
Definition DB_GetTenantByUsername (username : string) : M (Result Tenant) :=
  res <- conn_Exec (sql_select_tenant_by_username username) ;;
  match res with
  | Err err =>
      ret (Err (wrap ("get tenant by username " +:+ strconv_Quote username) err))
  | Ok t => ret (Ok t)
  end.

(** [DB.UpdateTenantPublicKey]. *)
Definition DB_UpdateTenantPublicKey (id : Z) (publicKey : string) : M (option error) :=
  res <- conn_Exec (sql_update_public_key id publicKey) ;;
  match res with
  | Err err => ret (Some (wrap ("update public key for tenant " +:+ fmt_d id) err))
  | Ok _ => ret None
  end.

(** [DB.DeleteTenant]: two statements. *)
Definition DB_DeleteTenant (id : Z) : M (Result string) :=
  res <- conn_Exec (sql_select_username id) ;;
  match res with
  | Err err => ret (Err (wrap ("find tenant " +:+ fmt_d id) err))
  | Ok username =>
      res <- conn_Exec (sql_delete_tenant id) ;;
      match res with
      | Err err => ret (Err (wrap ("delete tenant " +:+ fmt_d id) err))
      | Ok _ => ret (Ok username)
      end
  end.

(** [DB.UpsertRecord]. *)
Definition DB_UpsertRecord (tenantID recordKey title description category : string)
    (value : float64) : M (option error) :=
  res <- conn_Exec (sql_upsert_record tenantID recordKey title description category value) ;;
  match res with
  | Err err => ret (Some (wrap "upsert record" err))
  | Ok _ => ret None
  end.

(** ** The external server's client ([SFTPGoClient])

    The mutex [c.mu] makes [getToken] one atomic step; a run of it is a
    function of the world it starts in. *)

Definition StatusOK : Z := 200.
Definition StatusCreated : Z := 201.
Definition StatusBadRequest : Z := 400.
Definition StatusForbidden : Z := 403.
Definition StatusNotFound : Z := 404.
Definition StatusMethodNotAllowed : Z := 405.
Definition StatusInternalServerError : Z := 500.
Definition StatusBadGateway : Z := 502.

(** The request [getToken] builds: [GET baseURL/api/v2/token] with basic
    authentication. *)
Definition token_request (c : SFTPGoClient) : HttpRequest :=
  mkRequest "GET" (baseURL c +:+ "/api/v2/token")
            (Some (adminUser c, adminPass c)) [] None.

(** [SFTPGoClient.getToken]. *)
Definition SFTPGoClient_getToken : M (Result string) := fun w =>
  let c := sftpgo w in
  if negb (isEmpty (token c)) && (now w <? tokenExp c)
  then (Ok (token c), w)
  else
    match http_NewRequest_error "GET" (baseURL c +:+ "/api/v2/token") with
    | Some err => (Err (wrap "build token request" err), w)
    | None =>
        (resp <- http_Do (token_request c) ;;
         match resp with
         | Err err => ret (Err (wrap "token request" err))
         | Ok resp =>
             if negb (StatusCode resp =? StatusOK)
             then ret (Err ("token request failed (" +:+ fmt_d (StatusCode resp)
                              +:+ "): " +:+ Body resp))
             else
               match json_Decode_token (Body resp) with
               | Err err => ret (Err (wrap "decode token" err))
               | Ok (AccessToken, ExpiresAt) =>
                   fun w' =>
                     let c' := mkClient (baseURL c) (adminUser c) (adminPass c)
                                        AccessToken (ExpiresAt + (-30) * Second) in
                     (Ok (token c'), set_sftpgo c' w')
               end
         end) w
    end.

(** [SFTPGoClient.doAuth]. *)
Definition SFTPGoClient_doAuth (req : HttpRequest) : M (Result HttpResponse) :=
  tok <- SFTPGoClient_getToken ;;
  match tok with
  | Err err => ret (Err err)
  | Ok tok =>
      http_Do (mkRequest (rq_Method req) (rq_URL req) (rq_BasicAuth req)
                 (rq_Header req ++ [("Authorization", "Bearer " +:+ tok);
                                    ("Content-Type", "application/json")])
                 (rq_Body req))
  end.

Definition JStrs (l : list string) : JSON := JArr (map JStr l).

(** The [filesystem] entry of a user: provider 1 (S3) under the tenant's
    prefix. *)
Definition filesystem (bucket region endpoint accessKey secretKey tenantID : string)
    : JSON :=
  JObj [("provider", JNum 1);
        ("s3config",
         JObj [("bucket", JStr bucket);
               ("region", JStr region);
               ("endpoint", JStr endpoint);
               ("access_key", JStr accessKey);
               ("access_secret",
                JObj [("status", JStr "Plain"); ("payload", JStr secretKey)]);
               ("key_prefix", JStr (tenantID +:+ "/"));
               ("force_path_style", JBool true);
               ("skip_tls_verify", JBool true)])].

Definition permissions : JSON := JObj [("/", JStrs ["*"])].

(** [SFTPGoClient.CreateUser]; [json.Marshal] of this payload does not fail. *)
Definition SFTPGoClient_CreateUser (username password homeDir : string)
    (publicKeys : list string) (s3 : option S3Config) (tenantID : string)
    : M (option error) := fun w =>
  let payload :=
    [("username", JStr username);
     ("password", JStr password);
     ("status", JNum 1);
     ("home_dir", JStr homeDir);
     ("permissions", permissions)]
    ++ (if (0 <? Z.of_nat (length publicKeys))
        then [("public_keys", JStrs publicKeys)] else [])
    ++ (match s3 with
        | Some s3 =>
            [("filesystem",
              filesystem (s3_Bucket s3) (s3_Region s3) (s3_Endpoint s3)
                         (s3_AccessKey s3) (s3_SecretKey s3) tenantID)]
        | None => []
        end) in
  let url := baseURL (sftpgo w) +:+ "/api/v2/users" in
  match http_NewRequest_error "POST" url with
  | Some err => (Some (wrap "build create user request" err), w)
  | None =>
      (resp <- SFTPGoClient_doAuth (mkRequest "POST" url None [] (Some (JObj payload))) ;;
       match resp with
       | Err err => ret (Some err)
       | Ok resp =>
           if negb (StatusCode resp =? StatusCreated)
           then ret (Some ("sftpgo create user (" +:+ fmt_d (StatusCode resp)
                             +:+ "): " +:+ Body resp))
           else ret None
       end) w
  end.

(** [SFTPGoClient.DeleteUser]. *)
Definition SFTPGoClient_DeleteUser (username : string) : M (option error) := fun w =>
  let url := baseURL (sftpgo w) +:+ "/api/v2/users/" +:+ username in
  match http_NewRequest_error "DELETE" url with
  | Some err => (Some (wrap "build delete user request" err), w)
  | None =>
      (resp <- SFTPGoClient_doAuth (mkRequest "DELETE" url None [] None) ;;
       match resp with
       | Err err => ret (Some err)
       | Ok resp =>
           if negb (StatusCode resp =? StatusOK)
           then ret (Some ("sftpgo delete user (" +:+ fmt_d (StatusCode resp)
                             +:+ "): " +:+ Body resp))
           else ret None
       end) w
  end.

(** ** HTTP handlers ([Handlers])

    A handler gets the request's method (and path where it reads one) and what
    [json.NewDecoder(r.Body).Decode(&req)] yields for its request struct; it
    answers through [http.Error] or [writeJSON] / [writeError].  A [Response]
    records the call that answered: [HttpError text code] is
    [http.Error(w, text, code)] (net/http writes [text] and a line end as
    plain text), [JSONResponse status v] is [v] encoded under [status]. *)

Inductive Response : Type :=
| HttpError (text : string) (code : Z)
| JSONResponse (status : Z) (v : JSON).

Definition writeJSON (status : Z) (v : JSON) : Response := JSONResponse status v.

Definition writeError (status : Z) (err : error) : Response :=
  JSONResponse status (JObj [("error", JStr err)]).

(** The texts [{"error":"..."}] and [{"username":""}] passed to [http.Error]. *)
Definition error_text (msg : string) : string :=
  "{" +:+ dq +:+ "error" +:+ dq +:+ ":" +:+ dq +:+ msg +:+ dq +:+ "}".

Definition empty_username_text : string :=
  "{" +:+ dq +:+ "username" +:+ dq +:+ ":" +:+ dq +:+ dq +:+ "}".

(** [Tenant] as [encoding/json] writes it ([public_key] has [omitempty]). *)
Definition Tenant_json (t : Tenant) : JSON :=
  JObj ([("id", JNum (t_ID t));
         ("tenant_id", JStr (t_TenantID t));
         ("username", JStr (t_Username t));
         ("password", JStr (t_Password t))]
        ++ (if isEmpty (t_PublicKey t) then [] else [("public_key", JStr (t_PublicKey t))])
        ++ [("home_dir", JStr (t_HomeDir t));
            ("created_at", JTime (t_CreatedAt t))]).

Fixpoint decimal (s : string) (acc : Z) : option Z :=
  match s with
  | EmptyString => Some acc
  | String c s' =>
      let b := byte c in
      if (48 <=? b) && (b <=? 57) then decimal s' (10 * acc + (b - 48)) else None
  end.

(** [strconv.ParseInt(s, 10, 64)]. *)
Definition strconv_ParseInt (s : string) : Result Z :=
  let fail (why : string) :=
    Err ("strconv.ParseInt: parsing " +:+ strconv_Quote s +:+ ": " +:+ why) in
  match s with
  | EmptyString => fail "invalid syntax"
  | String c s' =>
      let neg := byte c =? 45 in
      let digits := if (byte c =? 43) || neg then s' else s in
      if isEmpty digits then fail "invalid syntax"
      else
        match decimal digits 0 with
        | None => fail "invalid syntax"
        | Some un =>
            let n := if neg then - un else un in
            if (- 2 ^ 63 <=? n) && (n <=? 2 ^ 63 - 1) then Ok n
            else fail "value out of range"
        end
  end.

(** [parseID]. *)
Definition parseID (path prefix : string) : Result Z :=
  let s := TrimPrefix path prefix in
  let s := Split_first s "/"%char in
  strconv_ParseInt s.

Record CreateTenantRequest : Type := mkCreateTenantRequest {
  c_Username : string;
  c_Password : string;
  c_PublicKey : string
}.

(** [CreateTenant], lines 78-92: the password (16 random bytes in hex when the
    request has none) and the tenant token (16 random bytes in hex); [Err] is
    the error the handler answers with status 500. *)
Definition newCredentials (password : string) : M (Result (string * string)) :=
  pw <- (if isEmpty password
         then (b <- rand_Read 16 ;;
               match b with
               | Err err => ret (Err (wrap "generate password" err))
               | Ok b => ret (Ok (hex_EncodeToString b))
               end)
         else ret (Ok password)) ;;
  match pw with
  | Err err => ret (Err err)
  | Ok password =>
      tidBytes <- rand_Read 16 ;;
      match tidBytes with
      | Err err => ret (Err (wrap "generate tenant_id" err))
      | Ok tidBytes => ret (Ok (password, hex_EncodeToString tidBytes))
      end
  end.

Definition pubKeys_of (publicKey : string) : list string :=
  if isEmpty publicKey then [] else [publicKey].

Definition s3Cfg_of (cfg : Config) : option S3Config :=
  if isEmpty (S3Endpoint cfg) then None
  else Some (mkS3Config (S3Bucket cfg) (S3Region cfg) (S3Endpoint cfg)
                        (S3AccessKey cfg) (S3SecretKey cfg)).

(** [Handlers.CreateTenant]. *)
Definition Handlers_CreateTenant (cfg : Config) (method : string)
    (body : Result CreateTenantRequest) : M Response :=
  if negb (String.eqb method "POST")
  then ret (HttpError (error_text "method not allowed") StatusMethodNotAllowed)
  else
    match body with
    | Err _ => ret (HttpError (error_text "username is required") StatusBadRequest)
    | Ok req =>
        if isEmpty (c_Username req)
        then ret (HttpError (error_text "username is required") StatusBadRequest)
        else
          cred <- newCredentials (c_Password req) ;;
          match cred with
          | Err err => ret (writeError StatusInternalServerError err)
          | Ok (password, tenantID) =>
              let homeDir := filepath_Join (DataDir cfg) tenantID in
              let pubKeys := pubKeys_of (c_PublicKey req) in
              let s3Cfg := s3Cfg_of cfg in
              err <- SFTPGoClient_CreateUser (c_Username req) password homeDir
                       pubKeys s3Cfg tenantID ;;
              match err with
              | Some err => ret (writeError StatusBadGateway err)
              | None =>
                  res <- DB_CreateTenant tenantID (c_Username req) password
                           (c_PublicKey req) homeDir ;;
                  match res with
                  | Err err => ret (writeError StatusInternalServerError err)
                  | Ok tenant =>
                      ret (writeJSON StatusCreated
                             (JObj [("tenant", Tenant_json tenant);
                                    ("password", JStr password);
                                    ("tenant_id", JStr tenantID)]))
                  end
              end
          end
    end.

(** [Handlers.DeleteTenant]. *)
Definition Handlers_DeleteTenant (method path : string) : M Response :=
  if negb (String.eqb method "DELETE")
  then ret (HttpError (error_text "method not allowed") StatusMethodNotAllowed)
  else
    match parseID path "/api/tenants/" with
    | Err _ => ret (HttpError (error_text "invalid id") StatusBadRequest)
    | Ok id =>
        res <- DB_DeleteTenant id ;;
        match res with
        | Err _ => ret (HttpError (error_text "tenant not found") StatusNotFound)
        | Ok username =>
            err <- SFTPGoClient_DeleteUser username ;;
            match err with
            | Some err =>
                ret (writeError StatusBadGateway
                       (wrap "deleted from db but sftpgo failed" err))
            | None => ret (writeJSON StatusOK (JObj [("status", JStr "deleted")]))
            end
        end
    end.

Record AuthRequest : Type := mkAuthRequest {
  a_Username : string;
  a_Password : string;
  a_PublicKey : string;
  a_Protocol : string;
  a_IP : string
}.

(** The user the authentication hook answers with. *)
Definition sftpgoUser (cfg : Config) (tenant : Tenant) : JSON :=
  JObj ([("status", JNum 1);
         ("username", JStr (t_Username tenant));
         ("home_dir", JStr (t_HomeDir tenant));
         ("permissions", permissions)]
        ++ (if isEmpty (t_Password tenant) then []
            else [("password", JStr (t_Password tenant))])
        ++ (if isEmpty (t_PublicKey tenant) then []
            else [("public_keys", JStrs [t_PublicKey tenant])])
        ++ (if isEmpty (S3Endpoint cfg) then []
            else [("filesystem",
                   filesystem (S3Bucket cfg) (S3Region cfg) (S3Endpoint cfg)
                              (S3AccessKey cfg) (S3SecretKey cfg) (t_TenantID tenant))])).

(** [Handlers.ExternalAuthHook]. *)
Definition Handlers_ExternalAuthHook (cfg : Config) (method : string)
    (body : Result AuthRequest) : M Response :=
  if negb (String.eqb method "POST")
  then ret (HttpError (error_text "method not allowed") StatusMethodNotAllowed)
  else
    match body with
    | Err _ => ret (HttpError empty_username_text StatusOK)
    | Ok req =>
        res <- DB_GetTenantByUsername (a_Username req) ;;
        match res with
        | Err _ => ret (HttpError EmptyString StatusForbidden)
        | Ok tenant =>
            let authenticated := false in
            let authenticated :=
              if negb (isEmpty (a_PublicKey req)) && negb (isEmpty (t_PublicKey tenant))
              then
                let reqParts := Fields (TrimSpace (a_PublicKey req)) in
                let storedParts := Fields (TrimSpace (t_PublicKey tenant)) in
                if (2 <=? length reqParts)%nat && (2 <=? length storedParts)%nat
                   && String.eqb (nth 1 reqParts EmptyString) (nth 1 storedParts EmptyString)
                then true else authenticated
              else authenticated in
            let authenticated :=
              if negb authenticated && negb (isEmpty (a_Password req))
                 && negb (isEmpty (t_Password tenant))
              then (if String.eqb (a_Password req) (t_Password tenant)
                    then true else authenticated)
              else authenticated in
            if negb authenticated
            then ret (HttpError EmptyString StatusForbidden)
            else ret (writeJSON StatusOK (sftpgoUser cfg tenant))
        end
    end.

(** ** The ingestion worker ([Worker]) *)

(** How a call of [ProcessUploadEvent] ends: at one of its early [return]s,
    after the row loop (with the [count] it logs), or in the run-time panic of
    an index out of range. *)
Inductive Exit : Type :=
| Returned
| Processed (count : Z)
| Panicked.

(** [reader.Read()] once [FieldsPerRecord] is set (by the header): a record
    of another length is [csv.ErrFieldCount]. *)
Definition csv_Read (fieldsPerRecord : nat) (rd : CsvRead) : Result (list string) :=
  match rd with
  | CsvError err => Err err
  | CsvRecord row =>
      if (length row =? fieldsPerRecord)%nat then Ok row
      else Err "wrong number of fields"
  end.

(** [for i, h := range header { colIndex[strings.TrimSpace(strings.ToLower(h))] = i }],
    from index [i] on. *)
Fixpoint build_colIndex (header : list string) (i : nat) (colIndex : gmap string nat)
    : gmap string nat :=
  match header with
  | [] => colIndex
  | h :: header' =>
      build_colIndex header' (S i) (<[TrimSpace (ToLower h) := i]> colIndex)
  end.

Definition has_column (colIndex : gmap string nat) (name : string) : bool :=
  match colIndex !! name with Some _ => true | None => false end.

Definition required_columns : list string := ["key"; "title"; "value"].

(** The cells one row is read into, trimmed: key, title, description,
    category and the text of value; [None] when an index is out of range. *)
Definition row_cells (colIndex : gmap string nat) (row : list string)
    : option (string * string * string * string * string) :=
  recordKey ← TrimSpace <$> row !! (colIndex !!! "key");
  title ← TrimSpace <$> row !! (colIndex !!! "title");
  description ← match colIndex !! "description" with
                 | Some idx => TrimSpace <$> row !! idx
                 | None => Some EmptyString
                 end;
  category ← match colIndex !! "category" with
              | Some idx => TrimSpace <$> row !! idx
              | None => Some EmptyString
              end;
  valueText ← TrimSpace <$> row !! (colIndex !!! "value");
  Some (recordKey, title, description, category, valueText).

(** The row loop of [ProcessUploadEvent] (lines 93-128) over what is left of
    the stream. *)
Fixpoint processRows (colIndex : gmap string nat) (fieldsPerRecord : nat)
    (tenantID : string) (stream : list CsvRead) (count : Z) : M Exit :=
  match stream with
  | [] => ret (Processed count)
  | rd :: rest =>
      match csv_Read fieldsPerRecord rd with
      | Err _ => ret Returned
      | Ok row =>
          match row_cells colIndex row with
          | None => ret Panicked
          | Some (recordKey, title, description, category, valueText) =>
              match strconv_ParseFloat valueText with
              | Err _ => processRows colIndex fieldsPerRecord tenantID rest count
              | Ok value =>
                  err <- DB_UpsertRecord tenantID recordKey title description
                           category value ;;
                  match err with
                  | Some _ => processRows colIndex fieldsPerRecord tenantID rest count
                  | None => processRows colIndex fieldsPerRecord tenantID rest (count + 1)
                  end
              end
          end
      end
  end.

(** [event[name].(string)] with the comma-ok form. *)
Definition event_string (event : gmap string JSON) (name : string) : string :=
  match event !! name with
  | Some (JStr s) => s
  | _ => EmptyString
  end.

(** [Worker.ProcessUploadEvent] for a worker on [bucket]. *)
Definition Worker_ProcessUploadEvent (bucket : string) (event : gmap string JSON)
    : M Exit :=
  let username := event_string event "username" in
  let virtualPath := event_string event "virtual_path" in
  if isEmpty username || isEmpty virtualPath then ret Returned
  else if negb (HasSuffix (ToLower virtualPath) ".csv") then ret Returned
  else
    res <- DB_GetTenantByUsername username ;;
    match res with
    | Err _ => ret Returned
    | Ok tenant =>
        let objectKey := t_TenantID tenant +:+ "/" +:+ TrimPrefix virtualPath "/" in
        obj <- minio_GetObject bucket objectKey ;;
        match obj with
        | Err _ => ret Returned
        | Ok stream =>
            match stream with
            | [] => ret Returned
            | CsvError _ :: _ => ret Returned
            | CsvRecord header :: rows =>
                let colIndex := build_colIndex header 0 ∅ in
                if negb (forallb (has_column colIndex) required_columns)
                then ret Returned
                else processRows colIndex (length header) (t_TenantID tenant) rows 0
            end
        end
    end.

End Program.

(** * The rest of the program

    The functions of the same files that the sections above do not need: the
    remaining registry queries, client calls and handlers, the dispatch of
    [main] and the configuration. *)

(** What [json.Decoder.Decode] stores into an [any]: [nil], [bool],
    [float64], [string], [[]any] or [map[string]any]. *)
#[local] Unset Elimination Schemes.
Inductive AnyValue (float : Type) : Type :=
| AnyNil
| AnyBool (b : bool)
| AnyFloat (f : float)
| AnyString (s : string)
| AnyArray (items : list (AnyValue float))
| AnyObject (fields : list (string * AnyValue float)).
#[local] Set Elimination Schemes.
Arguments AnyNil {float}.
Arguments AnyBool {float} b.
Arguments AnyFloat {float} f.
Arguments AnyString {float} s.
Arguments AnyArray {float} items.
Arguments AnyObject {float} fields.

(** Library routines the remaining functions take from outside. *)
Class UserRuntime `{RT : Runtime} : Type := {
  (** [json.NewDecoder(body).Decode] into a [map[string]any]. *)
  json_Decode_map : string -> Result (gmap string (AnyValue float64));
  (** The [float64] of an integer constant. *)
  float64_of_Z : Z -> float64;
  (** [==] on [float64]. *)
  float64_eqb : float64 -> float64 -> bool
}.

Section Surface.
Context `{RT : Runtime} `{UR : !UserRuntime}.

Notation "x <- m ;; k" := (bind m (fun x => k))
  (at level 100, m at next level, right associativity).

(** ** Package [strings]: [TrimSuffix] *)

Fixpoint take_bytes (n : nat) (s : string) : string :=
  match n, s with
  | S n', String c s' => String c (take_bytes n' s')
  | _, _ => EmptyString
  end.

(** [strings.TrimSuffix]. *)
Definition TrimSuffix (s suffix : string) : string :=
  if HasSuffix s suffix
  then take_bytes (String.length s - String.length suffix) s
  else s.

(** ** Slices

    A slice variable is [nil] ([None]) until the first [append]. *)
Definition Slice (A : Type) : Type := option (list A).

Definition slice_append {A : Type} (s : Slice A) (x : A) : Slice A :=
  Some (default [] s ++ [x]).

(** [var xs []T; for rows.Next() { ...; xs = append(xs, x) }]. *)
Definition collect {A : Type} (rows : list A) : Slice A :=
  fold_left slice_append rows None.

(** ** The registry: listing *)

(** [ORDER BY id]. *)
Fixpoint insert_by {A : Type} (key : A -> Z) (x : A) (l : list A) : list A :=
  match l with
  | [] => [x]
  | y :: l' => if key x <=? key y then x :: l else y :: insert_by key x l'
  end.

Definition ORDER_BY {A : Type} (key : A -> Z) (l : list A) : list A :=
  foldr (insert_by key) [] l.

(** [SELECT ... FROM tenants ORDER BY id]. *)
Definition sql_select_tenants (ts : Z) (d : DB) : Result (list Tenant) * DB :=
  (Ok (ORDER_BY t_ID (tenants d)), d).

(** [SELECT ... FROM records WHERE tenant_id = ? ORDER BY id]. *)
Definition sql_select_records (tenantID : string) (ts : Z) (d : DB)
    : Result (list RecordRow) * DB :=
  (Ok (ORDER_BY r_ID (List.filter (fun r => String.eqb (r_TenantID r) tenantID)
                        (records d))), d).

(** [DB.ListTenants].  A refused query fails at [Query]; the rows of an
    accepted one scan and [rows.Err()] is [nil]. *)
Definition DB_ListTenants : M (Result (Slice Tenant)) :=
  res <- conn_Exec sql_select_tenants ;;
  match res with
  | Err err => ret (Err (wrap "list tenants" err))
  | Ok rows => ret (Ok (collect rows))
  end.

(** [DB.ListRecords], likewise. *)
Definition DB_ListRecords (tenantID : string) : M (Result (Slice RecordRow)) :=
  res <- conn_Exec (sql_select_records tenantID) ;;
  match res with
  | Err err => ret (Err (wrap "list records" err))
  | Ok rows => ret (Ok (collect rows))
  end.

(** ** The registry: API keys

    The table [api_keys] is independent of [tenants] and [records]; it is
    passed to and returned by the methods that use it. *)
Record APIKey : Type := mkAPIKey {
  k_ID : Z;
  k_Key : string;
  k_Label : string;
  k_CreatedAt : Z
}.

(** [db.conn.Exec] / [QueryRow] on [api_keys]: as [conn_Exec]. *)
Definition conn_Exec_keys {A : Type}
    (stmt : Z -> list APIKey -> Result A * list APIKey) (keys : list APIKey)
    : M (Result A * list APIKey) := fun w =>
  match faults w with
  | Some e :: rest => ((Err e, keys), set_faults rest w)
  | _ => (stmt (CURRENT_TIMESTAMP w) keys, set_faults (tail (faults w)) w)
  end.

(** [INSERT INTO api_keys (key, label) VALUES (?, ?)] under [key TEXT UNIQUE]. *)
Definition sql_insert_api_key (key label : string) (ts : Z) (keys : list APIKey)
    : Result Z * list APIKey :=
  if existsb (fun k => String.eqb (k_Key k) key) keys
  then (Err (sqlite_unique "api_keys.key"), keys)
  else
    let id := next_rowid k_ID keys in
    (Ok id, keys ++ [mkAPIKey id key label ts]).

(** [SELECT id FROM api_keys WHERE key = ?]. *)
Definition sql_select_api_key (key : string) (ts : Z) (keys : list APIKey)
    : Result Z * list APIKey :=
  match find (fun k => String.eqb (k_Key k) key) keys with
  | Some k => (Ok (k_ID k), keys)
  | None => (Err sql_ErrNoRows, keys)
  end.

(** [DB.CreateAPIKey].  The driver's [LastInsertId] does not fail. *)
Definition DB_CreateAPIKey (label : string) (keys : list APIKey)
    : M (Result APIKey * list APIKey) :=
  b <- rand_Read 32 ;;
  match b with
  | Err err => ret (Err (wrap "generate key" err), keys)
  | Ok b =>
      let key := hex_EncodeToString b in
      res <- conn_Exec_keys (sql_insert_api_key key label) keys ;;
      match res with
      | (Err err, keys') => ret (Err (wrap "insert api key" err), keys')
      | (Ok id, keys') =>
          t <- time_Now ;;
          ret (Ok (mkAPIKey id key label t), keys')
      end
  end.

(** [DB.ValidateAPIKey]. *)
Definition DB_ValidateAPIKey (key : string) (keys : list APIKey) : M (option error) :=
  res <- conn_Exec_keys (sql_select_api_key key) keys ;;
  match res with
  | (Err err, _) => ret (Some (wrap "invalid api key" err))
  | (Ok _, _) => ret None
  end.

(** ** The external server's client: the remaining calls *)

(** [SFTPGoClient.GetUser]. *)
Definition SFTPGoClient_GetUser (username : string)
    : M (Result (gmap string (AnyValue float64))) := fun w =>
  let url := baseURL (sftpgo w) +:+ "/api/v2/users/" +:+ username in
  match http_NewRequest_error "GET" url with
  | Some err => (Err (wrap "build get user request" err), w)
  | None =>
      (resp <- SFTPGoClient_doAuth (mkRequest "GET" url None [] None) ;;
       match resp with
       | Err err => ret (Err err)
       | Ok resp =>
           if StatusCode resp =? StatusNotFound
           then ret (Err "user not found in sftpgo")
           else if negb (StatusCode resp =? StatusOK)
           then ret (Err ("sftpgo get user (" +:+ fmt_d (StatusCode resp)
                            +:+ "): " +:+ Body resp))
           else
             match json_Decode_map (Body resp) with
             | Err err => ret (Err (wrap "decode sftpgo user" err))
             | Ok result => ret (Ok result)
             end
       end) w
  end.

(** [SFTPGoClient.UpdateUserPublicKeys]; [json.Marshal] of this payload does
    not fail. *)
Definition SFTPGoClient_UpdateUserPublicKeys (username : string) (keys : list string)
    : M (option error) := fun w =>
  let payload := [("public_keys", JStrs keys)] in
  let url := baseURL (sftpgo w) +:+ "/api/v2/users/" +:+ username in
  match http_NewRequest_error "PUT" url with
  | Some err => (Some (wrap "build update keys request" err), w)
  | None =>
      (resp <- SFTPGoClient_doAuth (mkRequest "PUT" url None [] (Some (JObj payload))) ;;
       match resp with
       | Err err => ret (Some err)
       | Ok resp =>
           if negb (StatusCode resp =? StatusOK)
           then ret (Some ("sftpgo update user keys (" +:+ fmt_d (StatusCode resp)
                             +:+ "): " +:+ Body resp))
           else ret None
       end) w
  end.

(** ** The remaining handlers *)

(** A slice as [encoding/json] writes it: [nil] is [null]. *)
Definition Slice_json {A : Type} (f : A -> JSON) (s : Slice A) : JSON :=
  match s with
  | None => JNull
  | Some l => JArr (map f l)
  end.

(** [APIKey] as [encoding/json] writes it. *)
Definition APIKey_json (k : APIKey) : JSON :=
  JObj [("id", JNum (k_ID k));
        ("key", JStr (k_Key k));
        ("label", JStr (k_Label k));
        ("created_at", JTime (k_CreatedAt k))].

(** [Handlers.CreateAPIKey]: [Label] is the field of [req] after the body was
    decoded into it; the handler ignores the error of the decoding. *)
Definition Handlers_CreateAPIKey (method : string) (Label : string)
    (keys : list APIKey) : M (Response * list APIKey) :=
  if negb (String.eqb method "POST")
  then ret (HttpError (error_text "method not allowed") StatusMethodNotAllowed, keys)
  else
    res <- DB_CreateAPIKey Label keys ;;
    match res with
    | (Err err, keys') => ret (writeError StatusInternalServerError err, keys')
    | (Ok key, keys') => ret (writeJSON StatusCreated (APIKey_json key), keys')
    end.

(** [Handlers.ListTenants]. *)
Definition Handlers_ListTenants (method : string) : M Response :=
  if negb (String.eqb method "GET")
  then ret (HttpError (error_text "method not allowed") StatusMethodNotAllowed)
  else
    res <- DB_ListTenants ;;
    match res with
    | Err err => ret (writeError StatusInternalServerError err)
    | Ok tenants =>
        let tenants := match tenants with None => Some [] | Some _ => tenants end in
        ret (writeJSON StatusOK (Slice_json Tenant_json tenants))
    end.

(** [Handlers.GetTenant]. *)
Definition Handlers_GetTenant (method path : string) : M Response :=
  if negb (String.eqb method "GET")
  then ret (HttpError (error_text "method not allowed") StatusMethodNotAllowed)
  else
    match parseID path "/api/tenants/" with
    | Err _ => ret (HttpError (error_text "invalid id") StatusBadRequest)
    | Ok id =>
        res <- DB_GetTenant id ;;
        match res with
        | Err _ => ret (HttpError (error_text "tenant not found") StatusNotFound)
        | Ok tenant => ret (writeJSON StatusOK (Tenant_json tenant))
        end
    end.

(** [Handlers.ValidateTenant]. *)
Definition Handlers_ValidateTenant (method path : string) : M Response :=
  if negb (String.eqb method "POST")
  then ret (HttpError (error_text "method not allowed") StatusMethodNotAllowed)
  else
    let path := TrimSuffix path "/validate" in
    match parseID path "/api/tenants/" with
    | Err _ => ret (HttpError (error_text "invalid id") StatusBadRequest)
    | Ok id =>
        res <- DB_GetTenant id ;;
        match res with
        | Err _ => ret (HttpError (error_text "tenant not found") StatusNotFound)
        | Ok tenant =>
            user <- SFTPGoClient_GetUser (t_Username tenant) ;;
            match user with
            | Err err =>
                ret (writeJSON StatusOK
                       (JObj [("valid", JBool false); ("reason", JStr err)]))
            | Ok sftpgoUser =>
                let status := match sftpgoUser !! "status" with
                              | Some (AnyFloat f) => f
                              | _ => float64_of_Z 0
                              end in
                ret (writeJSON StatusOK
                       (JObj [("valid", JBool (float64_eqb status (float64_of_Z 1)));
                              ("username", JStr (t_Username tenant))]))
            end
        end
    end.

Record UpdateKeysRequest : Type := mkUpdateKeysRequest {
  u_PublicKey : string
}.

(** [Handlers.UpdateTenantKeys]. *)
Definition Handlers_UpdateTenantKeys (method path : string)
    (body : Result UpdateKeysRequest) : M Response :=
  if negb (String.eqb method "PUT")
  then ret (HttpError (error_text "method not allowed") StatusMethodNotAllowed)
  else
    let path := TrimSuffix path "/keys" in
    match parseID path "/api/tenants/" with
    | Err _ => ret (HttpError (error_text "invalid id") StatusBadRequest)
    | Ok id =>
        match body with
        | Err _ => ret (HttpError (error_text "public_key is required") StatusBadRequest)
        | Ok req =>
            if isEmpty (u_PublicKey req)
            then ret (HttpError (error_text "public_key is required") StatusBadRequest)
            else
              res <- DB_GetTenant id ;;
              match res with
              | Err _ => ret (HttpError (error_text "tenant not found") StatusNotFound)
              | Ok tenant =>
                  err <- DB_UpdateTenantPublicKey id (u_PublicKey req) ;;
                  match err with
                  | Some err => ret (writeError StatusInternalServerError err)
                  | None =>
                      err <- SFTPGoClient_UpdateUserPublicKeys (t_Username tenant)
                               [u_PublicKey req] ;;
                      match err with
                      | Some err =>
                          ret (writeError StatusBadGateway
                                 (wrap "db updated but sftpgo failed" err))
                      | None =>
                          ret (writeJSON StatusOK (JObj [("status", JStr "updated")]))
                      end
                  end
              end
        end
    end.

(** What a handler that writes records answers with: [writeJSON] of a slice
    of [Record] (whose [value] is a [float64]), or any other answer. *)
Inductive Reply : Type :=
| Answered (r : Response)
| Records (status : Z) (records : Slice RecordRow).

(** [Handlers.ListTenantRecords]. *)
Definition Handlers_ListTenantRecords (method path : string) : M Reply :=
  if negb (String.eqb method "GET")
  then ret (Answered (HttpError (error_text "method not allowed") StatusMethodNotAllowed))
  else
    let path := TrimSuffix path "/records" in
    match parseID path "/api/tenants/" with
    | Err _ => ret (Answered (HttpError (error_text "invalid id") StatusBadRequest))
    | Ok id =>
        res <- DB_GetTenant id ;;
        match res with
        | Err _ =>
            ret (Answered (HttpError (error_text "tenant not found") StatusNotFound))
        | Ok tenant =>
            res <- DB_ListRecords (t_TenantID tenant) ;;
            match res with
            | Err err => ret (Answered (writeError StatusInternalServerError err))
            | Ok records =>
                let records := match records with None => Some [] | Some _ => records end in
                ret (Records StatusOK records)
            end
        end
    end.

(** ** The dispatch of [main] *)

(** A request to the tenants routes: its method and path, and what its body
    decodes to for the two handlers that read one. *)
Record Request : Type := mkIncoming {
  in_Method : string;
  in_Path : string;
  in_CreateTenant : Result CreateTenantRequest;
  in_UpdateKeys : Result UpdateKeysRequest
}.

(** The handler of [/api/tenants] (inside [AuthMiddleware]). *)
Definition serve_tenants (cfg : Config) (r : Request) : M Reply :=
  if String.eqb (in_Method r) "POST"
  then resp <- Handlers_CreateTenant cfg (in_Method r) (in_CreateTenant r) ;;
       ret (Answered resp)
  else resp <- Handlers_ListTenants (in_Method r) ;;
       ret (Answered resp).

(** The handler of [/api/tenants/] (inside [AuthMiddleware]). *)
Definition serve_tenant (r : Request) : M Reply :=
  if HasSuffix (in_Path r) "/records"
  then Handlers_ListTenantRecords (in_Method r) (in_Path r)
  else if HasSuffix (in_Path r) "/validate"
  then resp <- Handlers_ValidateTenant (in_Method r) (in_Path r) ;;
       ret (Answered resp)
  else if HasSuffix (in_Path r) "/keys"
  then resp <- Handlers_UpdateTenantKeys (in_Method r) (in_Path r) (in_UpdateKeys r) ;;
       ret (Answered resp)
  else if String.eqb (in_Method r) "GET"
  then resp <- Handlers_GetTenant (in_Method r) (in_Path r) ;;
       ret (Answered resp)
  else if String.eqb (in_Method r) "DELETE"
  then resp <- Handlers_DeleteTenant (in_Method r) (in_Path r) ;;
       ret (Answered resp)
  else ret (Answered (HttpError (error_text "method not allowed")
                        StatusMethodNotAllowed)).

(** ** Configuration *)

(** [os.Getenv]: the value, empty when the variable is not set. *)
Definition os_Getenv (env : gmap string string) (key : string) : string :=
  default EmptyString (env !! key).

(** [envOr]. *)
Definition envOr (env : gmap string string) (key fallback : string) : string :=
  let v := os_Getenv env key in
  if negb (isEmpty v) then v else fallback.

(** [LoadConfig]. *)
Definition LoadConfig (env : gmap string string) : Config :=
  mkConfig (envOr env "SFTPGO_URL" "http://localhost:8080")
           (envOr env "SFTPGO_ADMIN_USER" "admin")
           (envOr env "SFTPGO_ADMIN_PASS" "admin")
           (envOr env "LISTEN_ADDR" ":9090")
           (envOr env "DATA_DIR" "/srv/sftpgo/data")
           (envOr env "S3_BUCKET" "sftpgo")
           (envOr env "S3_REGION" "us-east-1")
           (envOr env "S3_ENDPOINT" EmptyString)
           (envOr env "S3_ACCESS_KEY" EmptyString)
           (envOr env "S3_SECRET_KEY" EmptyString)
           (String.eqb (os_Getenv env "S3_USE_SSL") "true").

End Surface.

(** ** A runtime for concrete runs

    Decimal integers as numbers, ASCII text only, and one token reply. *)

Definition sample_token_body : string :=
  "{" +:+ dq +:+ "access_token" +:+ dq +:+ ":" +:+ dq +:+ "cached-token" +:+ dq +:+ ","
  +:+ dq +:+ "expires_at" +:+ dq +:+ ":" +:+ dq +:+ "2099-01-01T00:00:00Z" +:+ dq +:+ "}".

Definition sample_ParseFloat (s : string) : Result Z :=
  match s with
  | EmptyString => Err "invalid syntax"
  | String c s' =>
      let neg := byte c =? 45 in
      let digits := if (byte c =? 43) || neg then s' else s in
      if isEmpty digits then Err "invalid syntax"
      else match decimal digits 0 with
           | Some n => Ok (if neg then - n else n)
           | None => Err "invalid syntax"
           end
  end.

#[local] Instance sample_runtime : Runtime := {|
  float64 := Z;
  strconv_ParseFloat := sample_ParseFloat;
  TrimFunc_IsSpace := fun s => s;
  TrimRightFunc_IsSpace := fun s => s;
  FieldsFunc_IsSpace := fun s => [s];
  Map_ToLower := fun s => s;
  strconv_Quote := fun s => dq +:+ s +:+ dq;
  filepath_Join := fun dir name => dir +:+ "/" +:+ name;
  http_NewRequest_error := fun _ _ => None;
  json_Decode_token := fun body =>
    if String.eqb body sample_token_body
    then Ok ("cached-token", 4070908800 * Second)
    else Err "invalid character"
|}.

#[local] Instance sample_user_runtime : UserRuntime := {|
  json_Decode_map := fun body =>
    if String.eqb body "{}" then Ok ∅ else Err "invalid character";
  float64_of_Z := fun z => z;
  float64_eqb := Z.eqb
|}.

Definition sample_config : Config :=
  mkConfig "http://localhost:8080" "admin" "admin" ":9090" "/srv/sftpgo/data"
           "sftpgo" "us-east-1" EmptyString EmptyString EmptyString false.

Definition sample_client : SFTPGoClient :=
  mkClient "http://localhost:8080" "admin" "admin" EmptyString 0.

(** An empty registry at instant 0 with nothing scheduled. *)
Definition empty_world : World :=
  mkWorld (mkDB [] []) sample_client 0 [] [] [] [] ∅.

Definition world_with (ts : list Tenant) : World :=
  set_db (mkDB ts []) empty_world.

Definition acme : Tenant :=
  mkTenant 1 "tid1" "acme" "secret123" EmptyString "/data/tid1" 0.

Definition keyed : Tenant :=
  mkTenant 1 "tid1" "keyed" EmptyString
           "ssh-ed25519 AAAAC3NzaC1lZDI1NTE5AAAAITestKey user@host" "/data/tid1" 0.

Definition bare : Tenant :=
  mkTenant 1 "tid1" "bare" EmptyString EmptyString "/data/tid1" 0.

(** * Properties

    The predicates the theorems below are stated with: the specification's
    conditions on the authentication hook, the schema's uniqueness
    constraints, histories of registry calls, and the token cache's
    condition. *)

Section Properties.
Context `{RT : Runtime}.

(** The specification's words: the second whitespace-separated field of a key (the
    base64 material), as the handler splits it. *)
Definition key_material (publicKey : string) : option string :=
  Fields (TrimSpace publicKey) !! 1%nat.

(** Both sides supply a key, both keys have a second field, and the second
    fields are equal. *)
Definition public_key_matches (req : AuthRequest) (tenant : Tenant) : Prop :=
  a_PublicKey req <> EmptyString /\ t_PublicKey tenant <> EmptyString /\
  exists k, key_material (a_PublicKey req) = Some k
            /\ key_material (t_PublicKey tenant) = Some k.

(** Both passwords are non-empty and equal. *)
Definition password_matches (req : AuthRequest) (tenant : Tenant) : Prop :=
  a_Password req <> EmptyString /\ t_Password tenant <> EmptyString /\
  a_Password req = t_Password tenant.

(** The failing requests of the specification: the body does not decode, the
    username is unknown, or neither credential matches. *)
Definition hook_request_fails (body : Result AuthRequest) (w : World) : Prop :=
  match body with
  | Err _ => True
  | Ok req =>
      match fst (DB_GetTenantByUsername (a_Username req) w) with
      | Err _ => True
      | Ok tenant => ~ public_key_matches req tenant /\ ~ password_matches req tenant
      end
  end.

(** The handler's two conditions (lines 286-298) as booleans. *)
Definition key_check (req : AuthRequest) (tenant : Tenant) : bool :=
  negb (isEmpty (a_PublicKey req)) && negb (isEmpty (t_PublicKey tenant))
  && ((2 <=? length (Fields (TrimSpace (a_PublicKey req))))%nat
      && (2 <=? length (Fields (TrimSpace (t_PublicKey tenant))))%nat
      && String.eqb (nth 1 (Fields (TrimSpace (a_PublicKey req))) EmptyString)
                    (nth 1 (Fields (TrimSpace (t_PublicKey tenant))) EmptyString)).

Definition password_check (req : AuthRequest) (tenant : Tenant) : bool :=
  negb (isEmpty (a_Password req)) && negb (isEmpty (t_Password tenant))
  && String.eqb (a_Password req) (t_Password tenant).

(** The schema's [tenant_id TEXT UNIQUE] and [username TEXT UNIQUE]. *)
Definition tenants_unique (d : DB) : Prop :=
  NoDup (t_Username <$> tenants d) /\ NoDup (t_TenantID <$> tenants d).

(** The schema's [UNIQUE(tenant_id, record_key)]. *)
Definition records_unique (d : DB) : Prop :=
  NoDup ((fun r => (r_TenantID r, r_RecordKey r)) <$> records d).

(** What happens to the registry over time: calls of the [DB] methods that
    write, and the world moving on (the clock, the fault schedule). *)
Inductive RegistryCall : Type :=
| CallCreateTenant (tenantID username password publicKey homeDir : string)
| CallUpdateTenantPublicKey (id : Z) (publicKey : string)
| CallDeleteTenant (id : Z)
| CallUpsertRecord (tenantID recordKey title description category : string)
                   (value : float64)
| Elapse (t : Z) (f : list (option error)).

Definition run_call (c : RegistryCall) (w : World) : World :=
  match c with
  | CallCreateTenant tenantID username password publicKey homeDir =>
      snd (DB_CreateTenant tenantID username password publicKey homeDir w)
  | CallUpdateTenantPublicKey id publicKey =>
      snd (DB_UpdateTenantPublicKey id publicKey w)
  | CallDeleteTenant id => snd (DB_DeleteTenant id w)
  | CallUpsertRecord tenantID recordKey title description category value =>
      snd (DB_UpsertRecord tenantID recordKey title description category value w)
  | Elapse t f => set_faults f (set_now t w)
  end.

Definition run_calls (cs : list RegistryCall) (w : World) : World :=
  fold_left (fun w c => run_call c w) cs w.

Definition registry_ok (d : DB) : Prop := tenants_unique d /\ records_unique d.

(** A token is cached and the clock is before its stored threshold. *)
Definition token_cached (w : World) : Prop :=
  token (sftpgo w) <> EmptyString /\ now w < tokenExp (sftpgo w).

Definition token_url (w : World) : string := baseURL (sftpgo w) +:+ "/api/v2/token".

(** A header cell as the worker indexes it: lower-cased, then trimmed. *)
Definition column_name (h : string) : string := TrimSpace (ToLower h).

(** The leading white space of an ASCII string dropped. *)
Fixpoint dropSpaces (s : string) : string :=
  match s with
  | EmptyString => EmptyString
  | String c s' => if asciiSpace c then dropSpaces s' else s
  end.

Fixpoint allSpaces (s : string) : bool :=
  match s with
  | EmptyString => true
  | String c s' => asciiSpace c && allSpaces s'
  end.

(** A byte of [0123456789abcdef]. *)
Definition isHex (c : ascii) : bool :=
  let b := byte c in ((48 <=? b) && (b <=? 57)) || ((97 <=? b) && (b <=? 102)).

Fixpoint allHex (s : string) : bool :=
  match s with
  | EmptyString => true
  | String c s' => isHex c && allHex s'
  end.

(** [UPDATE tenants SET public_key = ?] on one row. *)
Definition with_public_key (publicKey : string) (t : Tenant) : Tenant :=
  mkTenant (t_ID t) (t_TenantID t) (t_Username t) (t_Password t) publicKey
           (t_HomeDir t) (t_CreatedAt t).

(** The storage engine refuses no statement. *)
Definition storage_works (w : World) : Prop :=
  Forall (fun f => f = None) (faults w).

(** In ascending order of [key]. *)
Definition ascending {A : Type} (key : A -> Z) (l : list A) : Prop :=
  StronglySorted (fun a b => key a <= key b) l.

(** The rows of one tenant token, as [ListRecords] selects them. *)
Definition records_of (tenantID : string) (d : DB) : list RecordRow :=
  List.filter (fun r => String.eqb (r_TenantID r) tenantID) (records d).

(** No byte of [s] is the separator [sep]. *)
Fixpoint free_of (sep : ascii) (s : string) : bool :=
  match s with
  | EmptyString => true
  | String c s' => negb (byte c =? byte sep) && free_of sep s'
  end.

(** The request [doAuth] sends for [req] under the bearer token [tok]. *)
Definition authorized (tok : string) (req : HttpRequest) : HttpRequest :=
  mkRequest (rq_Method req) (rq_URL req) (rq_BasicAuth req)
            (rq_Header req ++ [("Authorization", "Bearer " +:+ tok);
                               ("Content-Type", "application/json")])
            (rq_Body req).




End Properties.

(** ** Sample requests, histories and worlds *)

Definition acme_login : AuthRequest :=
  mkAuthRequest "acme" "secret123" EmptyString "SSH" "127.0.0.1".

Definition bare_login : AuthRequest :=
  mkAuthRequest "bare" EmptyString "ssh-ed25519 AAAAC3NzaC1lZDI1NTE5AAAAITestKey"
                "SSH" "127.0.0.1".

Definition two_creates : list RegistryCall :=
  [CallCreateTenant "tid1" "acme" "secret123" EmptyString "/data/tid1";
   Elapse (3 * Second) [];
   CallCreateTenant "tid2" "acme" "other" EmptyString "/data/tid2"].

Definition first_upsert : World :=
  snd (DB_UpsertRecord (RT := sample_runtime)
         "tid1" "REC-001" "Original" "desc" "cat" 10 empty_world).

Definition second_upsert : World :=
  snd (DB_UpsertRecord (RT := sample_runtime)
         "tid1" "REC-001" "Updated" "new desc" "new-cat" 99
         (set_now (5 * Second) first_upsert)).

Definition token_reply : Result HttpResponse := Ok (mkResponse StatusOK sample_token_body).

(** Nothing cached; the token endpoint is about to answer. *)
Definition token_world : World :=
  mkWorld (mkDB [] []) sample_client 0 [] [] [token_reply] [] ∅.

Definition sixteen : list Z := [0; 1; 2; 3; 4; 5; 6; 7; 8; 9; 10; 11; 12; 13; 14; 15].

Definition acme_request : CreateTenantRequest :=
  mkCreateTenantRequest "acme" "secret123" EmptyString.

(** The token endpoint refuses the administrator's credentials. *)
Definition refused_world : World :=
  mkWorld (mkDB [] []) sample_client 0 [] sixteen
          [Ok (mkResponse 401 "unauthorized")] [] ∅.

(** The registry has [acme]; the external server does not and accepts the
    create. *)
Definition orphan_world : World :=
  mkWorld (mkDB [acme] []) sample_client 0 [] sixteen
          [token_reply; Ok (mkResponse StatusCreated EmptyString)] [] ∅.

(** The external server answers the delete with 500. *)
Definition stuck_world : World :=
  mkWorld (mkDB [acme] []) sample_client 0 [] []
          [token_reply; Ok (mkResponse 500 "boom")] [] ∅.

Definition upload_event (path : string) : gmap string JSON :=
  {[ "action" := JStr "upload"; "username" := JStr "acme";
     "virtual_path" := JStr path ]}.

(** [acme]'s prefix holds a file without the [value] column and a file with
    one row whose value is not a number. *)
Definition upload_world : World :=
  mkWorld (mkDB [acme] []) sample_client 0 [] [] [] []
    {[ ("sftpgo", "tid1/missing.csv") :=
         Ok [CsvRecord ["key"; "title"]; CsvRecord ["REC-001"; "First"]];
       ("sftpgo", "tid1/data.csv") :=
         Ok [CsvRecord ["Key"; " Title "; "description"; "category"; "VALUE"];
             CsvRecord ["REC-001"; "First"; "d1"; "c1"; "10"];
             CsvRecord ["REC-002"; "Second"; "d2"; "c2"; "abc"];
             CsvRecord ["REC-003"; "Third"; "d3"; "c3"; " 30 "]] ]}.


(** An empty registry, entropy for a password and a tenant token, and an
    external server that hands out a token and accepts the create. *)
Definition fresh_world : World :=
  mkWorld (mkDB [] []) sample_client (5 * Second + 7) [] (sixteen ++ sixteen)
          [token_reply; Ok (mkResponse StatusCreated EmptyString)] [] ∅.

Definition acme_only : CreateTenantRequest :=
  mkCreateTenantRequest "acme" EmptyString EmptyString.

Definition padded_key : string := "  ssh-ed25519 AAAAC3Nz user@host ".

(** A second tenant, and records of both. *)
Definition globex : Tenant :=
  mkTenant 2 "tid2" "globex" "hunter2" EmptyString "/data/tid2" 0.

Definition shared_world : World :=
  mkWorld (mkDB [acme; globex]
                [mkRecord 1 "tid1" "REC-001" "First" "d1" "c1" 10 0;
                 mkRecord 2 "tid2" "REC-001" "Theirs" "d" "c" 7 0;
                 mkRecord 3 "tid1" "REC-002" "Second" "d2" "c2" 20 0])
          sample_client 0 [] [] [] [] ∅.

Definition new_key : UpdateKeysRequest :=
  mkUpdateKeysRequest "ssh-ed25519 AAAAC3NzNEW admin@laptop".

(** The registry has [acme]; the external server accepts the key update. *)
Definition rotate_world : World :=
  mkWorld (mkDB [acme] []) sample_client 0 [] []
          [token_reply; Ok (mkResponse StatusOK EmptyString)] [] ∅.

(** A token is cached until instant 100 s; the external server does not know
    the user. *)
Definition cached_world : World :=
  mkWorld (mkDB [acme] []) 
          (mkClient "http://localhost:8080" "admin" "admin" "cached-token" (100 * Second))
          0 [] [] [Ok (mkResponse StatusNotFound EmptyString)] [] ∅.



(** * Package [strings] on ASCII input *)

Section Strings.
Context `{RT : Runtime}.

Lemma append_cons (c : ascii) (a b : string) : String c a +:+ b = String c (a +:+ b).
Proof. reflexivity. Qed.

Lemma append_nil_l (s : string) : EmptyString +:+ s = s.
Proof. reflexivity. Qed.

Lemma append_nil_r (s : string) : s +:+ EmptyString = s.
Proof. induction s as [|c s IH]; [reflexivity | now rewrite append_cons, IH]. Qed.

Lemma append_assoc (a b c : string) : (a +:+ b) +:+ c = a +:+ (b +:+ c).
Proof. induction a as [|x a IH]; [reflexivity | now rewrite !append_cons, IH]. Qed.

Lemma rev_onto_append (s acc : string) : rev_onto s acc = strrev s +:+ acc.
Proof.
  unfold strrev. revert acc. induction s as [|c s IH]; intros acc; cbn; [reflexivity|].
  rewrite (IH (String c acc)), (IH (String c EmptyString)), append_assoc. reflexivity.
Qed.

Lemma strrev_cons (c : ascii) (s : string) :
  strrev (String c s) = strrev s +:+ String c EmptyString.
Proof. unfold strrev at 1. cbn. apply rev_onto_append. Qed.

Lemma strrev_append (a b : string) : strrev (a +:+ b) = strrev b +:+ strrev a.
Proof.
  induction a as [|x a IH].
  - now rewrite append_nil_l, append_nil_r.
  - rewrite append_cons, !strrev_cons, IH, append_assoc. reflexivity.
Qed.

Lemma strrev_involutive (s : string) : strrev (strrev s) = s.
Proof.
  induction s as [|c s IH]; [reflexivity|].
  rewrite strrev_cons, strrev_append, IH. reflexivity.
Qed.

Lemma isASCII_append (a b : string) : isASCII (a +:+ b) = isASCII a && isASCII b.
Proof.
  induction a as [|x a IH]; [reflexivity|].
  rewrite append_cons. cbn. now rewrite IH, andb_assoc.
Qed.

Lemma isASCII_strrev (s : string) : isASCII (strrev s) = isASCII s.
Proof.
  induction s as [|c s IH]; [reflexivity|].
  rewrite strrev_cons, isASCII_append, IH. cbn. rewrite andb_true_r. apply andb_comm.
Qed.

Lemma allSpaces_append (a b : string) : allSpaces (a +:+ b) = allSpaces a && allSpaces b.
Proof.
  induction a as [|x a IH]; [reflexivity|].
  rewrite append_cons. cbn. now rewrite IH, andb_assoc.
Qed.

Lemma allSpaces_strrev (s : string) : allSpaces (strrev s) = allSpaces s.
Proof.
  induction s as [|c s IH]; [reflexivity|].
  rewrite strrev_cons, allSpaces_append, IH. cbn. rewrite andb_true_r. apply andb_comm.
Qed.

Lemma dropSpaces_split (s : string) :
  exists sp, s = sp +:+ dropSpaces s /\ allSpaces sp = true.
Proof.
  induction s as [|c s (sp & Hs & Hsp)]; [now exists EmptyString|]. cbn.
  destruct (asciiSpace c) eqn:Ec.
  - exists (String c sp). rewrite append_cons. cbn. rewrite Ec, Hsp.
    split; [congruence | reflexivity].
  - now exists EmptyString.
Qed.

Lemma isASCII_dropSpaces (s : string) : isASCII s = true -> isASCII (dropSpaces s) = true.
Proof.
  induction s as [|c s IH]; [reflexivity|]. cbn. intros H.
  apply andb_true_iff in H as [Hc Hs].
  destruct (asciiSpace c); [now apply IH | cbn; now rewrite Hc, Hs].
Qed.

Lemma trimEnd_ASCII (r : string) :
  isASCII r = true -> trimEnd r = strrev (dropSpaces r).
Proof.
  induction r as [|c r IH]; [reflexivity|]. cbn. intros H.
  apply andb_true_iff in H as [Hc Hr]. unfold RuneSelf in *.
  destruct (128 <=? byte c) eqn:E; [lia|].
  destruct (asciiSpace c); [now apply IH | reflexivity].
Qed.

(** On ASCII input [TrimSpace] drops the white space at both ends. *)
Lemma TrimSpace_ASCII (s : string) :
  isASCII s = true ->
  TrimSpace s = strrev (dropSpaces (strrev (dropSpaces s))).
Proof.
  induction s as [|c s IH]; [reflexivity|]. intros H. cbn [TrimSpace dropSpaces].
  cbn in H. pose proof H as H'. apply andb_true_iff in H' as [Hc Hs]. unfold RuneSelf in *.
  destruct (128 <=? byte c) eqn:E; [lia|].
  destruct (asciiSpace c); [now apply IH|].
  apply trimEnd_ASCII. rewrite isASCII_strrev. exact H.
Qed.

Lemma fieldsASCII_spaces (cur sp : string) :
  allSpaces sp = true ->
  fieldsASCII cur sp = fieldsASCII cur EmptyString.
Proof.
  revert cur. induction sp as [|c sp IH]; intros cur H; [reflexivity|].
  cbn in H. apply andb_true_iff in H as [Hc Hsp]. cbn. rewrite Hc.
  rewrite (IH EmptyString Hsp). cbn. now destruct (isEmpty cur).
Qed.

Lemma fieldsASCII_leading (sp s : string) :
  allSpaces sp = true ->
  fieldsASCII EmptyString (sp +:+ s) = fieldsASCII EmptyString s.
Proof.
  induction sp as [|c sp IH]; intros H; [reflexivity|].
  cbn in H. apply andb_true_iff in H as [Hc Hsp].
  rewrite append_cons. cbn. rewrite Hc. now apply IH.
Qed.

Lemma fieldsASCII_trailing (cur s sp : string) :
  allSpaces sp = true ->
  fieldsASCII cur (s +:+ sp) = fieldsASCII cur s.
Proof.
  intros H. revert cur. induction s as [|c s IH]; intros cur.
  - now apply fieldsASCII_spaces.
  - rewrite append_cons. cbn. rewrite !IH. reflexivity.
Qed.

(** X3: the handler's [strings.Fields(strings.TrimSpace(key))] are the fields of
    the key itself: splitting on white space ignores the white space at both
    ends. *)
Theorem Fields_TrimSpace (s : string) :
  isASCII s = true -> Fields (TrimSpace s) = Fields s.
Proof.
  intros H. rewrite (TrimSpace_ASCII s H). unfold Fields. rewrite H.
  rewrite isASCII_strrev, isASCII_dropSpaces
    by (rewrite isASCII_strrev; now apply isASCII_dropSpaces).
  destruct (dropSpaces_split s) as (sp & Hs & Hsp).
  destruct (dropSpaces_split (strrev (dropSpaces s))) as (sp' & Hs' & Hsp').
  rewrite Hs at 2. rewrite (fieldsASCII_leading sp _ Hsp).
  rewrite <- (strrev_involutive (dropSpaces s)) at 2.
  rewrite Hs' at 2. rewrite strrev_append.
  rewrite fieldsASCII_trailing by (now rewrite allSpaces_strrev).
  reflexivity.
Qed.

End Strings.

(** * The authentication hook *)

Section AuthHook.
Context `{RT : Runtime}.

Lemma isEmpty_true (s : string) : isEmpty s = true <-> s = EmptyString.
Proof. destruct s; simpl; split; congruence. Qed.

Lemma isEmpty_false (s : string) : isEmpty s = false <-> s <> EmptyString.
Proof. destruct s; simpl; split; congruence. Qed.

Lemma second_field_check (l1 l2 : list string) :
  (2 <=? length l1)%nat && (2 <=? length l2)%nat
    && String.eqb (nth 1 l1 EmptyString) (nth 1 l2 EmptyString) = true
  <-> exists k, l1 !! 1%nat = Some k /\ l2 !! 1%nat = Some k.
Proof.
  destruct l1 as [|a1 [|b1 l1]], l2 as [|a2 [|b2 l2]]; simpl;
    try (split; [discriminate | intros (k & H1 & H2); discriminate]).
  rewrite String.eqb_eq. split.
  - intros ->. eauto.
  - intros (k & H1 & H2). congruence.
Qed.

Lemma key_check_spec (req : AuthRequest) (tenant : Tenant) :
  key_check req tenant = true <-> public_key_matches req tenant.
Proof.
  unfold key_check, public_key_matches, key_material.
  rewrite !andb_true_iff, !negb_true_iff, !isEmpty_false.
  rewrite <- !andb_true_iff, second_field_check. tauto.
Qed.

Lemma password_check_spec (req : AuthRequest) (tenant : Tenant) :
  password_check req tenant = true <-> password_matches req tenant.
Proof.
  unfold password_check, password_matches.
  rewrite !andb_true_iff, !negb_true_iff, !isEmpty_false, String.eqb_eq. tauto.
Qed.

Lemma ExternalAuthHook_run (cfg : Config) (req : AuthRequest) (w : World) :
  Handlers_ExternalAuthHook cfg "POST" (Ok req) w =
  match DB_GetTenantByUsername (a_Username req) w with
  | (Err _, w1) => (HttpError EmptyString StatusForbidden, w1)
  | (Ok tenant, w1) =>
      if key_check req tenant || password_check req tenant
      then (writeJSON StatusOK (sftpgoUser cfg tenant), w1)
      else (HttpError EmptyString StatusForbidden, w1)
  end.
Proof.
  unfold Handlers_ExternalAuthHook. rewrite String.eqb_refl. cbn [negb].
  unfold bind, ret.
  destruct (DB_GetTenantByUsername (a_Username req) w) as [[tenant|e] w1]; [|reflexivity].
  unfold key_check, password_check.
  destruct ((2 <=? length (Fields (TrimSpace (a_PublicKey req))))%nat
            && (2 <=? length (Fields (TrimSpace (t_PublicKey tenant))))%nat
            && String.eqb (nth 1 (Fields (TrimSpace (a_PublicKey req))) EmptyString)
                 (nth 1 (Fields (TrimSpace (t_PublicKey tenant))) EmptyString)),
    (String.eqb (a_Password req) (t_Password tenant)),
    (isEmpty (a_PublicKey req)), (isEmpty (t_PublicKey tenant)),
    (isEmpty (a_Password req)), (isEmpty (t_Password tenant)); reflexivity.
Qed.


(** C1: for a hook request whose username resolves to a tenant, the handler
    answers with the user descriptor (status 200) exactly when the public keys
    match on their second field, or they do not and the passwords are both
    non-empty and equal; otherwise it answers 403. *)
Theorem C1_authenticates_exactly_when
    (cfg : Config) (req : AuthRequest) (tenant : Tenant) (w w1 : World) :
  DB_GetTenantByUsername (a_Username req) w = (Ok tenant, w1) ->
  (Handlers_ExternalAuthHook cfg "POST" (Ok req) w
     = (writeJSON StatusOK (sftpgoUser cfg tenant), w1)
   <-> public_key_matches req tenant
       \/ (~ public_key_matches req tenant /\ password_matches req tenant))
  /\ (Handlers_ExternalAuthHook cfg "POST" (Ok req) w
        = (writeJSON StatusOK (sftpgoUser cfg tenant), w1)
      \/ Handlers_ExternalAuthHook cfg "POST" (Ok req) w
           = (HttpError EmptyString StatusForbidden, w1)).
Proof.
  intros Hget. rewrite ExternalAuthHook_run, Hget.
  rewrite <- key_check_spec, <- password_check_spec.
  destruct (key_check req tenant), (password_check req tenant); simpl;
    (split; [split; [intros H | intros [H | [H1 H2]]] | ]);
    try discriminate; try reflexivity; auto; try tauto.
  all: try (exfalso; auto; fail).
Qed.

(** C3, as the code has it: a body that does not decode is answered with
    status 200 and the text [{"username":""}]; an unknown username and a
    failed credential check are answered with status 403 and an empty text;
    a JSON answer is always the user descriptor of a tenant whose key or
    password matched. *)
Theorem C3_hook_failures (cfg : Config) (body : Result AuthRequest) (w : World) :
  match body with
  | Err _ =>
      Handlers_ExternalAuthHook cfg "POST" body w
        = (HttpError empty_username_text StatusOK, w)
  | Ok req =>
      match DB_GetTenantByUsername (a_Username req) w with
      | (Err _, w1) =>
          Handlers_ExternalAuthHook cfg "POST" body w
            = (HttpError EmptyString StatusForbidden, w1)
      | (Ok tenant, w1) =>
          (~ public_key_matches req tenant /\ ~ password_matches req tenant
           /\ Handlers_ExternalAuthHook cfg "POST" body w
                = (HttpError EmptyString StatusForbidden, w1))
          \/ ((public_key_matches req tenant \/ password_matches req tenant)
              /\ Handlers_ExternalAuthHook cfg "POST" body w
                   = (writeJSON StatusOK (sftpgoUser cfg tenant), w1))
      end
  end.
Proof.
  destruct body as [req|e]; [|reflexivity].
  rewrite ExternalAuthHook_run.
  destruct (DB_GetTenantByUsername (a_Username req) w) as [[tenant|e] w1];
    [|reflexivity].
  rewrite <- key_check_spec, <- password_check_spec.
  destruct (key_check req tenant), (password_check req tenant); simpl;
    intuition congruence.
Qed.

(** C10: a tenant whose stored password and stored public key are both empty
    is rejected with 403 whatever the request offers: neither an empty
    password nor any key matches. *)
Theorem C10_empty_credentials_rejected
    (cfg : Config) (req : AuthRequest) (tenant : Tenant) (w w1 : World) :
  DB_GetTenantByUsername (a_Username req) w = (Ok tenant, w1) ->
  t_Password tenant = EmptyString ->
  t_PublicKey tenant = EmptyString ->
  Handlers_ExternalAuthHook cfg "POST" (Ok req) w
    = (HttpError EmptyString StatusForbidden, w1)
  /\ ~ password_matches req tenant
  /\ ~ public_key_matches req tenant.
Proof.
  intros Hget Hpw Hpk. rewrite ExternalAuthHook_run, Hget.
  unfold key_check, password_check, password_matches, public_key_matches.
  rewrite Hpw, Hpk. cbn [isEmpty negb].
  rewrite !andb_false_r. cbn [andb orb].
  repeat split; tauto.
Qed.

(** X7: the authentication hook only reads: whatever the request, the registry
    tables, the client's token cache and the list of HTTP requests sent are
    what they were. *)
Theorem ExternalAuthHook_reads_only
    (cfg : Config) (method : string) (body : Result AuthRequest) (w : World) :
  db (snd (Handlers_ExternalAuthHook cfg method body w)) = db w
  /\ sftpgo (snd (Handlers_ExternalAuthHook cfg method body w)) = sftpgo w
  /\ sent (snd (Handlers_ExternalAuthHook cfg method body w)) = sent w.
Proof.
  unfold Handlers_ExternalAuthHook.
  destruct (negb _); [now cbn|].
  destruct body as [req|e]; [|now cbn].
  unfold bind, ret, DB_GetTenantByUsername, bind, ret, conn_Exec.
  destruct (faults w) as [|[e|] rest]; [|now cbn|];
    unfold sql_select_tenant_by_username;
    (destruct (find _ (tenants (db w))) as [tenant|];
     [match goal with |- context [if negb ?b then _ else _] => destruct b end|]);
    cbn; (split; [now destruct (db w) | now split]).
Qed.

End AuthHook.

Lemma C1_witness :
  DB_GetTenantByUsername "acme" (world_with [acme]) = (Ok acme, world_with [acme])
  /\ Handlers_ExternalAuthHook sample_config "POST" (Ok acme_login) (world_with [acme])
       = (writeJSON StatusOK (sftpgoUser sample_config acme), world_with [acme]).
Proof.
  split; [reflexivity|].
  apply (C1_authenticates_exactly_when sample_config acme_login acme
           (world_with [acme]) (world_with [acme]) eq_refl).
  right. split.
  - intros (H & _). apply H. reflexivity.
  - repeat split; discriminate.
Defined.

(** A body that does not decode is answered 200, not 403. *)
Lemma C3_counterexample :
  ~ (forall (RT : Runtime) (cfg : Config) (body : Result AuthRequest) (w : World),
       hook_request_fails body w ->
       fst (Handlers_ExternalAuthHook cfg "POST" body w)
         = HttpError EmptyString StatusForbidden).
Proof.
  intros H.
  specialize (H sample_runtime sample_config (Err "unexpected EOF") empty_world I).
  discriminate H.
Qed.

Lemma C10_witness :
  DB_GetTenantByUsername "bare" (world_with [bare]) = (Ok bare, world_with [bare])
  /\ Handlers_ExternalAuthHook sample_config "POST" (Ok bare_login) (world_with [bare])
       = (HttpError EmptyString StatusForbidden, world_with [bare]).
Proof.
  split; [reflexivity|].
  apply (C10_empty_credentials_rejected sample_config bare_login bare
           (world_with [bare]) (world_with [bare]) eq_refl eq_refl eq_refl).
Defined.

(** * The registry *)

Section Registry.
Context `{RT : Runtime}.

Lemma conn_Exec_result {A : Type} (stmt : Z -> DB -> Result A * DB) (w : World) :
  (exists e, head (faults w) = Some (Some e)
             /\ conn_Exec stmt w = (Err e, set_faults (tail (faults w)) w))
  \/ ((forall e, head (faults w) <> Some (Some e))
      /\ conn_Exec stmt w
         = (fst (stmt (CURRENT_TIMESTAMP w) (db w)),
            set_db (snd (stmt (CURRENT_TIMESTAMP w) (db w)))
                   (set_faults (tail (faults w)) w))).
Proof.
  unfold conn_Exec.
  destruct (faults w) as [|[e|] rest] eqn:Hf; simpl.
  - right. split; [discriminate|]. now destruct (stmt _ _).
  - left. exists e. auto.
  - right. split; [discriminate|]. now destruct (stmt _ _).
Qed.

Lemma conn_Exec_preserves {A : Type} (Inv : DB -> Prop)
    (stmt : Z -> DB -> Result A * DB) (w : World) :
  (forall ts d, Inv d -> Inv (snd (stmt ts d))) ->
  Inv (db w) -> Inv (db (snd (conn_Exec stmt w))).
Proof.
  intros Hstmt Hw.
  destruct (conn_Exec_result stmt w) as [(e & _ & ->) | (_ & ->)]; simpl; auto.
Qed.

Lemma existsb_false_not_elem {A B : Type} (f : A -> B) (p : A -> bool) (b : B) (l : list A) :
  (forall a, f a = b -> p a = true) ->
  existsb p l = false -> b ∉ f <$> l.
Proof.
  intros Hp Hex Hin. apply list_elem_of_fmap in Hin as (a & Ha & Hin).
  assert (existsb p l = true); [|congruence].
  apply existsb_exists. exists a. split; [now apply list_elem_of_In | auto].
Qed.

Lemma NoDup_snoc_fmap {A B : Type} (f : A -> B) (l : list A) (a : A) :
  NoDup (f <$> l) -> f a ∉ f <$> l -> NoDup (f <$> (l ++ [a])).
Proof.
  intros Hl Ha. rewrite fmap_app. apply NoDup_app. split; [auto|]. split.
  - intros x Hx Hx'. apply list_elem_of_singleton in Hx'. now subst.
  - apply NoDup_singleton.
Qed.

Lemma NoDup_fmap_filter {A B : Type} (f : A -> B) (P : A -> Prop)
    `{forall a, Decision (P a)} (l : list A) :
  NoDup (f <$> l) -> NoDup (f <$> filter P l).
Proof.
  induction l as [|a l IH]; [auto|].
  rewrite fmap_cons, NoDup_cons. intros [Ha Hl].
  rewrite filter_cons. destruct (decide (P a)); [|auto].
  rewrite fmap_cons, NoDup_cons. split; [|auto].
  intros Hin. apply Ha. apply list_elem_of_fmap in Hin as (x & Hx & Hin).
  apply list_elem_of_fmap. exists x. split; [auto|].
  apply list_elem_of_filter in Hin. tauto.
Qed.

Lemma fmap_map_same {A B : Type} (f : A -> B) (g : A -> A) (l : list A) :
  (forall a, f (g a) = f a) -> f <$> map g l = f <$> l.
Proof.
  intros H. induction l as [|a l IH]; cbn [map]; [reflexivity|].
  rewrite !fmap_cons, H, IH. reflexivity.
Qed.

Lemma insert_tenant_unique (tenantID username password publicKey homeDir : string)
    (ts : Z) (d : DB) :
  tenants_unique d ->
  tenants_unique (snd (sql_insert_tenant tenantID username password publicKey homeDir ts d)).
Proof.
  intros [Hu Ht]. unfold sql_insert_tenant.
  destruct (existsb _ (tenants d)) eqn:E1; [split; auto|].
  destruct (existsb (fun t => String.eqb (t_Username t) username) (tenants d)) eqn:E2;
    [split; auto|].
  split; simpl; apply NoDup_snoc_fmap; auto; simpl.
  - eapply existsb_false_not_elem; [|exact E2]. intros a Ha; cbn; rewrite Ha; apply String.eqb_refl.
  - eapply existsb_false_not_elem; [|exact E1]. intros a Ha; cbn; rewrite Ha; apply String.eqb_refl.
Qed.

Lemma update_public_key_unique (id : Z) (publicKey : string) (ts : Z) (d : DB) :
  tenants_unique d -> tenants_unique (snd (sql_update_public_key id publicKey ts d)).
Proof.
  intros [Hu Ht]. unfold tenants_unique. simpl.
  rewrite !fmap_map_same; [split; auto | |];
    intros t; destruct (t_ID t =? id); reflexivity.
Qed.

Lemma delete_tenant_unique (id : Z) (ts : Z) (d : DB) :
  tenants_unique d -> tenants_unique (snd (sql_delete_tenant id ts d)).
Proof.
  intros [Hu Ht]. split; simpl; apply NoDup_fmap_filter; auto.
Qed.

Lemma upsert_tenants (tenantID recordKey title description category : string)
    (value : float64) (ts : Z) (d : DB) :
  tenants (snd (sql_upsert_record tenantID recordKey title description category value ts d))
  = tenants d.
Proof. unfold sql_upsert_record. now destruct (existsb _ _). Qed.

Lemma same_key_spec (tenantID recordKey : string) (r : RecordRow) :
  same_key tenantID recordKey r = true
  <-> (r_TenantID r, r_RecordKey r) = (tenantID, recordKey).
Proof.
  unfold same_key. rewrite andb_true_iff, !String.eqb_eq.
  split; [intros [-> ->]; reflexivity | intros [= -> ->]; auto].
Qed.

Lemma upsert_record_unique (tenantID recordKey title description category : string)
    (value : float64) (ts : Z) (d : DB) :
  records_unique d ->
  records_unique
    (snd (sql_upsert_record tenantID recordKey title description category value ts d)).
Proof.
  unfold records_unique, sql_upsert_record. intros Hd.
  destruct (existsb _ (records d)) eqn:E; simpl.
  - rewrite fmap_map_same; [exact Hd|].
    intros r. destruct (same_key tenantID recordKey r) eqn:E'; [|reflexivity].
    simpl. now apply same_key_spec in E'.
  - apply (NoDup_snoc_fmap (fun r => (r_TenantID r, r_RecordKey r))); auto. simpl.
    eapply existsb_false_not_elem; [|exact E].
    intros r Hr. now apply same_key_spec.
Qed.

Lemma insert_tenant_ok (tenantID username password publicKey homeDir : string)
    (ts : Z) (d : DB) :
  registry_ok d ->
  registry_ok (snd (sql_insert_tenant tenantID username password publicKey homeDir ts d)).
Proof.
  intros [Ht Hr]. split; [now apply insert_tenant_unique|].
  unfold sql_insert_tenant. repeat destruct (existsb _ _); exact Hr.
Qed.

Lemma update_public_key_ok (id : Z) (publicKey : string) (ts : Z) (d : DB) :
  registry_ok d -> registry_ok (snd (sql_update_public_key id publicKey ts d)).
Proof. intros [Ht Hr]. split; [now apply update_public_key_unique | exact Hr]. Qed.

Lemma select_username_ok (id : Z) (ts : Z) (d : DB) :
  registry_ok d -> registry_ok (snd (sql_select_username id ts d)).
Proof. unfold sql_select_username. now destruct (find _ _). Qed.

Lemma delete_tenant_ok (id : Z) (ts : Z) (d : DB) :
  registry_ok d -> registry_ok (snd (sql_delete_tenant id ts d)).
Proof. intros [Ht Hr]. split; [now apply delete_tenant_unique | exact Hr]. Qed.

Lemma upsert_record_ok (tenantID recordKey title description category : string)
    (value : float64) (ts : Z) (d : DB) :
  registry_ok d ->
  registry_ok
    (snd (sql_upsert_record tenantID recordKey title description category value ts d)).
Proof.
  intros [Ht Hr]. split; [|now apply upsert_record_unique].
  unfold tenants_unique. now rewrite upsert_tenants.
Qed.

Lemma run_call_ok (c : RegistryCall) (w : World) :
  registry_ok (db w) -> registry_ok (db (run_call c w)).
Proof.
  intros Hw. destruct c; cbn [run_call].
  - unfold DB_CreateTenant, bind, ret, time_Now.
    pose proof (conn_Exec_preserves registry_ok _ w
                  (insert_tenant_ok tenantID username password publicKey homeDir) Hw) as H.
    now destruct (conn_Exec _ w) as [[i|e] w'].
  - unfold DB_UpdateTenantPublicKey, bind, ret.
    pose proof (conn_Exec_preserves registry_ok _ w
                  (update_public_key_ok id publicKey) Hw) as H.
    now destruct (conn_Exec _ w) as [[u|e] w'].
  - unfold DB_DeleteTenant, bind, ret.
    pose proof (conn_Exec_preserves registry_ok _ w (select_username_ok id) Hw) as H.
    destruct (conn_Exec (sql_select_username id) w) as [[u|e] w']; [|exact H].
    pose proof (conn_Exec_preserves registry_ok _ w' (delete_tenant_ok id) H) as H'.
    now destruct (conn_Exec (sql_delete_tenant id) w') as [[u'|e'] w''].
  - unfold DB_UpsertRecord, bind, ret.
    pose proof (conn_Exec_preserves registry_ok _ w
                  (upsert_record_ok tenantID recordKey title description category value)
                  Hw) as H.
    now destruct (conn_Exec _ w) as [[u|e] w'].
  - exact Hw.
Qed.

Lemma run_calls_ok (cs : list RegistryCall) (w : World) :
  registry_ok (db w) -> registry_ok (db (run_calls cs w)).
Proof.
  revert w. induction cs as [|c cs IH]; intros w Hw; simpl; [auto|].
  apply IH, run_call_ok, Hw.
Qed.


Lemma DB_CreateTenant_taken (tenantID username password publicKey homeDir : string)
    (t : Tenant) (w : World) :
  t ∈ tenants (db w) ->
  t_Username t = username \/ t_TenantID t = tenantID ->
  exists e,
    fst (DB_CreateTenant tenantID username password publicKey homeDir w) = Err e
    /\ db (snd (DB_CreateTenant tenantID username password publicKey homeDir w)) = db w.
Proof.
  intros Hin Hsame. unfold DB_CreateTenant, bind, ret.
  destruct (conn_Exec_result
              (sql_insert_tenant tenantID username password publicKey homeDir) w)
    as [(e & _ & ->) | (_ & ->)]; [eexists; split; reflexivity|].
  unfold sql_insert_tenant.
  assert (existsb (fun t => String.eqb (t_TenantID t) tenantID) (tenants (db w))
          || existsb (fun t => String.eqb (t_Username t) username) (tenants (db w))
          = true) as Hex.
  { apply list_elem_of_In in Hin. apply orb_true_iff.
    destruct Hsame as [<- | <-]; [right | left]; apply existsb_exists;
      exists t; (split; [exact Hin | apply String.eqb_refl]). }
  destruct (existsb _ (tenants (db w))); [|simpl in Hex; rewrite Hex];
    cbn; (eexists; split; [reflexivity | now destruct (db w)]).
Qed.

(** C5: after any sequence of registry calls on an empty registry no two
    tenants share a username or a tenant token, and creating a tenant whose
    username or tenant token an existing tenant has fails and leaves the
    registry as it was. *)
Theorem C5_unique_tenants (cs : list RegistryCall) (w : World) :
  db w = mkDB [] [] ->
  tenants_unique (db (run_calls cs w))
  /\ forall (tenantID username password publicKey homeDir : string) (t : Tenant),
       t ∈ tenants (db (run_calls cs w)) ->
       t_Username t = username \/ t_TenantID t = tenantID ->
       exists e,
         fst (DB_CreateTenant tenantID username password publicKey homeDir
                (run_calls cs w)) = Err e
         /\ db (snd (DB_CreateTenant tenantID username password publicKey homeDir
                       (run_calls cs w))) = db (run_calls cs w).
Proof.
  intros Hw. split.
  - apply run_calls_ok. rewrite Hw. repeat split; constructor.
  - intros. eapply DB_CreateTenant_taken; eauto.
Qed.

Lemma no_match_filter (tenantID recordKey : string) (l : list RecordRow) :
  (tenantID, recordKey) ∉ (fun r => (r_TenantID r, r_RecordKey r)) <$> l ->
  List.filter (same_key tenantID recordKey) l = []
  /\ existsb (same_key tenantID recordKey) l = false.
Proof.
  induction l as [|a l IH]; [auto|].
  rewrite fmap_cons, not_elem_of_cons. intros [Ha Hl]. cbn.
  destruct (same_key tenantID recordKey a) eqn:E.
  - apply same_key_spec in E. congruence.
  - now apply IH.
Qed.

Lemma map_no_match (tenantID recordKey : string) (f : RecordRow -> RecordRow)
    (l : list RecordRow) :
  existsb (same_key tenantID recordKey) l = false ->
  map (fun r => if same_key tenantID recordKey r then f r else r) l = l.
Proof.
  induction l as [|a l IH]; [reflexivity|]. cbn.
  destruct (same_key tenantID recordKey a); [discriminate|].
  intros H. now rewrite IH.
Qed.

Lemma existsb_false_filter (tenantID recordKey : string) (l : list RecordRow) :
  existsb (same_key tenantID recordKey) l = false ->
  List.filter (same_key tenantID recordKey) l = [].
Proof.
  induction l as [|a l IH]; [reflexivity|]. cbn.
  destruct (same_key tenantID recordKey a); [discriminate | exact IH].
Qed.

Lemma overwrite_one (tenantID recordKey : string) (f : RecordRow -> RecordRow)
    (l : list RecordRow) :
  (forall r, same_key tenantID recordKey (f r) = same_key tenantID recordKey r) ->
  NoDup ((fun r => (r_TenantID r, r_RecordKey r)) <$> l) ->
  existsb (same_key tenantID recordKey) l = true ->
  exists r0,
    List.filter (same_key tenantID recordKey) l = [r0]
    /\ List.filter (same_key tenantID recordKey)
         (map (fun r => if same_key tenantID recordKey r then f r else r) l) = [f r0].
Proof.
  intros Hf. induction l as [|a l IH]; [discriminate|].
  rewrite fmap_cons, NoDup_cons. intros [Ha Hl]. cbn.
  destruct (same_key tenantID recordKey a) eqn:E.
  - intros _. pose proof E as E'. apply same_key_spec in E'. rewrite E' in Ha.
    destruct (no_match_filter tenantID recordKey l Ha) as [Hnone Hex].
    rewrite map_no_match by exact Hex. cbn. rewrite Hf, E, Hnone. eauto.
  - cbn. rewrite E. intros Hex. exact (IH Hl Hex).
Qed.

(** After the upsert statement the table holds exactly one row for the key;
    it carries the statement's values and timestamp; where the key had a row
    before, that row is overwritten in place: same id, same number of rows. *)
Lemma upsert_record_row (tenantID recordKey title description category : string)
    (value : float64) (ts : Z) (d : DB) :
  records_unique d ->
  exists r,
    List.filter (same_key tenantID recordKey)
      (records (snd (sql_upsert_record tenantID recordKey title description category
                       value ts d))) = [r]
    /\ r_Title r = title /\ r_Description r = description
    /\ r_Category r = category /\ r_Value r = value /\ r_UpdatedAt r = ts
    /\ forall r0, List.filter (same_key tenantID recordKey) (records d) = [r0] ->
         r_ID r = r_ID r0
         /\ length (records (snd (sql_upsert_record tenantID recordKey title description
                                    category value ts d))) = length (records d).
Proof.
  unfold records_unique, sql_upsert_record. intros Hd.
  destruct (existsb (same_key tenantID recordKey) (records d)) eqn:Hex; cbn.
  - destruct (overwrite_one tenantID recordKey
                (fun r => mkRecord (r_ID r) (r_TenantID r) (r_RecordKey r)
                            title description category value ts)
                (records d)) as (r0 & H0 & H1); auto.
    eexists. split; [exact H1|]. cbn. do 5 (split; [reflexivity|]).
    intros r1 H. rewrite H0 in H. injection H as <-.
    split; [reflexivity | apply length_map].
  - rewrite List.filter_app, (existsb_false_filter _ _ _ Hex). cbn.
    unfold same_key at 1. cbn. rewrite !String.eqb_refl. cbn.
    eexists. split; [reflexivity|]. cbn. do 5 (split; [reflexivity|]).
    intros r0 H. discriminate H.
Qed.

Lemma DB_UpsertRecord_done (tenantID recordKey title description category : string)
    (value : float64) (w w1 : World) :
  DB_UpsertRecord tenantID recordKey title description category value w = (None, w1) ->
  db w1 = snd (sql_upsert_record tenantID recordKey title description category value
                 (CURRENT_TIMESTAMP w) (db w)).
Proof.
  unfold DB_UpsertRecord, bind, ret.
  destruct (conn_Exec_result
              (sql_upsert_record tenantID recordKey title description category value) w)
    as [(e & _ & ->) | (_ & ->)]; [discriminate|].
  destruct (fst _); [|discriminate]. now intros [= <-].
Qed.

Lemma CURRENT_TIMESTAMP_mono (w w' : World) :
  now w <= now w' -> CURRENT_TIMESTAMP w <= CURRENT_TIMESTAMP w'.
Proof.
  intros H. unfold CURRENT_TIMESTAMP, Second.
  apply Z.mul_le_mono_nonneg_r; [lia|]. apply Z.div_le_mono; lia.
Qed.

(** C4: upserting the same (tenant token, record key) twice leaves exactly
    one record for the pair; it has the second call's title, description,
    category and value, its timestamp is the second call's
    [CURRENT_TIMESTAMP] (not earlier than the first call's when the clock did
    not run backwards), and it is the first call's row overwritten: same id,
    same number of rows. *)
Theorem C4_upsert_overwrites
    (tenantID recordKey title1 description1 category1 : string) (value1 : float64)
    (title2 description2 category2 : string) (value2 : float64)
    (w w1 w1' w2 : World) :
  records_unique (db w) ->
  DB_UpsertRecord tenantID recordKey title1 description1 category1 value1 w
    = (None, w1) ->
  db w1' = db w1 ->
  DB_UpsertRecord tenantID recordKey title2 description2 category2 value2 w1'
    = (None, w2) ->
  exists r1 r2,
    List.filter (same_key tenantID recordKey) (records (db w1)) = [r1]
    /\ List.filter (same_key tenantID recordKey) (records (db w2)) = [r2]
    /\ r_Title r2 = title2 /\ r_Description r2 = description2
    /\ r_Category r2 = category2 /\ r_Value r2 = value2
    /\ r_UpdatedAt r2 = CURRENT_TIMESTAMP w1'
    /\ r_ID r2 = r_ID r1
    /\ length (records (db w2)) = length (records (db w1))
    /\ (now w <= now w1' -> r_UpdatedAt r1 <= r_UpdatedAt r2).
Proof.
  intros Hw H1 Hdb H2.
  apply DB_UpsertRecord_done in H1, H2.
  destruct (upsert_record_row tenantID recordKey title1 description1 category1 value1
              (CURRENT_TIMESTAMP w) (db w) Hw) as (r1 & Hr1 & _ & _ & _ & _ & Ht1 & _).
  rewrite <- H1 in Hr1.
  assert (records_unique (db w1')) as Hw1.
  { rewrite Hdb, H1. now apply upsert_record_unique. }
  destruct (upsert_record_row tenantID recordKey title2 description2 category2 value2
              (CURRENT_TIMESTAMP w1') (db w1') Hw1)
    as (r2 & Hr2 & Q1 & Q2 & Q3 & Q4 & Q5 & Q6).
  rewrite <- H2 in Hr2, Q6. rewrite Hdb in Q6.
  destruct (Q6 r1 Hr1) as [Hid Hlen].
  exists r1, r2. repeat split; auto.
  intros Hnow. rewrite Ht1, Q5. now apply CURRENT_TIMESTAMP_mono.
Qed.

Lemma next_rowid_above {A : Type} (id : A -> Z) (rows : list A) (a : A) :
  In a rows -> id a < next_rowid id rows.
Proof.
  unfold next_rowid. induction rows as [|x rows IH]; cbn; [tauto|].
  intros [<-|H]; [lia | specialize (IH H); lia].
Qed.

Lemma find_snoc_fresh {A : Type} (f : A -> bool) (l : list A) (a : A) :
  (forall x, In x l -> f x = false) -> f a = true -> find f (l ++ [a]) = Some a.
Proof.
  intros Hl Ha. induction l as [|x l IH]; cbn; [now rewrite Ha|].
  rewrite (Hl x (or_introl eq_refl)). apply IH. intros y Hy. apply Hl. now right.
Qed.

Lemma existsb_false_In {A : Type} (f : A -> bool) (l : list A) :
  existsb f l = false -> forall x, In x l -> f x = false.
Proof.
  induction l as [|y l IH]; cbn; [tauto|].
  intros H x [<-|Hx]; apply orb_false_iff in H as [H1 H2]; auto.
Qed.

Lemma DB_CreateTenant_row (tenantID username password publicKey homeDir : string)
    (t : Tenant) (w w1 : World) :
  DB_CreateTenant tenantID username password publicKey homeDir w = (Ok t, w1) ->
  existsb (fun x => String.eqb (t_Username x) username) (tenants (db w)) = false
  /\ t_ID t = next_rowid t_ID (tenants (db w))
  /\ tenants (db w1)
     = tenants (db w)
         ++ [mkTenant (t_ID t) tenantID username password publicKey homeDir
                      (CURRENT_TIMESTAMP w)].
Proof.
  unfold DB_CreateTenant, bind, ret, time_Now.
  destruct (conn_Exec_result
              (sql_insert_tenant tenantID username password publicKey homeDir) w)
    as [(e & _ & ->) | (_ & ->)]; [discriminate|].
  unfold sql_insert_tenant.
  destruct (existsb _ (tenants (db w))); [discriminate|].
  destruct (existsb _ (tenants (db w))); [discriminate|].
  cbn. intros [= <- <-]. repeat split; reflexivity.
Qed.

(** X4: a tenant that was created is found again, by username and by id, with the
    tenant token, username and home directory it was created with. *)
Theorem created_tenant_found
    (tenantID username password publicKey homeDir : string) (t : Tenant)
    (w w1 w2 : World) :
  DB_CreateTenant tenantID username password publicKey homeDir w = (Ok t, w1) ->
  db w2 = db w1 ->
  (forall e, head (faults w2) <> Some (Some e)) ->
  exists row,
    fst (DB_GetTenantByUsername username w2) = Ok row
    /\ fst (DB_GetTenant (t_ID t) w2) = Ok row
    /\ t_ID row = t_ID t
    /\ t_TenantID row = tenantID /\ t_TenantID t = tenantID
    /\ t_Username row = username /\ t_Username t = username
    /\ t_HomeDir row = homeDir /\ t_HomeDir t = homeDir.
Proof.
  intros Hc Hdb Hf.
  assert (t_TenantID t = tenantID /\ t_Username t = username /\ t_HomeDir t = homeDir)
    as (Ht1 & Ht2 & Ht3).
  { revert Hc. unfold DB_CreateTenant, bind, ret, time_Now.
    destruct (conn_Exec _ w) as [[id|e] w']; [|discriminate].
    intros [= <- _]. repeat split; reflexivity. }
  apply DB_CreateTenant_row in Hc. destruct Hc as (Hfresh & Hid & Hrows).
  exists (mkTenant (t_ID t) tenantID username password publicKey homeDir
                   (CURRENT_TIMESTAMP w)).
  split; [|split; [|repeat split; assumption]].
  - unfold DB_GetTenantByUsername, bind, ret.
    destruct (conn_Exec_result (sql_select_tenant_by_username username) w2)
      as [(e & He & _) | (_ & ->)]; [now apply Hf in He|].
    unfold sql_select_tenant_by_username. rewrite Hdb, Hrows.
    rewrite find_snoc_fresh; [reflexivity| |cbn; apply String.eqb_refl].
    now apply existsb_false_In.
  - unfold DB_GetTenant, bind, ret.
    destruct (conn_Exec_result (sql_select_tenant (t_ID t)) w2)
      as [(e & He & _) | (_ & ->)]; [now apply Hf in He|].
    unfold sql_select_tenant. rewrite Hdb, Hrows.
    rewrite find_snoc_fresh; [reflexivity| |cbn; apply Z.eqb_refl].
    intros x Hx. apply Z.eqb_neq. rewrite Hid.
    pose proof (next_rowid_above t_ID _ x Hx). lia.
Qed.

End Registry.

Lemma C5_witness :
  db empty_world = mkDB [] []
  /\ tenants_unique (db (run_calls two_creates empty_world)).
Proof.
  split; [reflexivity|].
  apply (C5_unique_tenants two_creates empty_world eq_refl).
Defined.

Lemma C4_witness :
  records_unique (db empty_world)
  /\ exists r1 r2,
       List.filter (same_key "tid1" "REC-001") (records (db first_upsert)) = [r1]
       /\ List.filter (same_key "tid1" "REC-001") (records (db second_upsert)) = [r2]
       /\ r_Title r2 = "Updated" /\ r_Description r2 = "new desc"
       /\ r_Category r2 = "new-cat" /\ r_Value r2 = (99 : Z)
       /\ r_UpdatedAt r2 = CURRENT_TIMESTAMP (set_now (5 * Second) first_upsert)
       /\ r_ID r2 = r_ID r1
       /\ length (records (db second_upsert)) = length (records (db first_upsert))
       /\ (now empty_world <= now (set_now (5 * Second) first_upsert)
           -> r_UpdatedAt r1 <= r_UpdatedAt r2).
Proof.
  split; [constructor|].
  apply (C4_upsert_overwrites (RT := sample_runtime)
           "tid1" "REC-001" "Original" "desc" "cat" 10
           "Updated" "new desc" "new-cat" 99
           empty_world first_upsert (set_now (5 * Second) first_upsert) second_upsert);
    [constructor | reflexivity | reflexivity | reflexivity].
Defined.

(** * The external server's client *)

Section Client.
Context `{RT : Runtime}.

Lemma token_cached_spec (w : World) :
  negb (isEmpty (token (sftpgo w))) && (now w <? tokenExp (sftpgo w)) = true
  <-> token_cached w.
Proof.
  unfold token_cached.
  rewrite andb_true_iff, negb_true_iff, isEmpty_false, Z.ltb_lt. tauto.
Qed.

Lemma getToken_cached (w : World) :
  token_cached w -> SFTPGoClient_getToken w = (Ok (token (sftpgo w)), w).
Proof.
  intros H. apply token_cached_spec in H. unfold SFTPGoClient_getToken.
  now rewrite H.
Qed.

Lemma getToken_fresh (w : World) :
  ~ token_cached w ->
  http_NewRequest_error "GET" (token_url w) = None ->
  SFTPGoClient_getToken w =
  match replies w with
  | Ok resp :: rest =>
      if negb (StatusCode resp =? StatusOK)
      then (Err ("token request failed (" +:+ fmt_d (StatusCode resp)
                   +:+ "): " +:+ Body resp),
            set_net rest (sent w ++ [token_request (sftpgo w)]) w)
      else
        match json_Decode_token (Body resp) with
        | Err err => (Err (wrap "decode token" err),
                      set_net rest (sent w ++ [token_request (sftpgo w)]) w)
        | Ok (tok, exp) =>
            (Ok tok,
             set_sftpgo (mkClient (baseURL (sftpgo w)) (adminUser (sftpgo w))
                                  (adminPass (sftpgo w)) tok (exp + (-30) * Second))
                        (set_net rest (sent w ++ [token_request (sftpgo w)]) w))
        end
  | Err err :: rest =>
      (Err (wrap "token request" err),
       set_net rest (sent w ++ [token_request (sftpgo w)]) w)
  | [] => (Err (wrap "token request" "connection refused"),
           set_net [] (sent w ++ [token_request (sftpgo w)]) w)
  end.
Proof.
  intros Hc Hurl. unfold SFTPGoClient_getToken.
  destruct (negb _ && _) eqn:E; [apply token_cached_spec in E; tauto|].
  unfold token_url in Hurl. rewrite Hurl. unfold bind, http_Do, ret.
  destruct (replies w) as [|[resp|err] rest]; try reflexivity.
  destruct (negb (StatusCode resp =? StatusOK)); [reflexivity|].
  now destruct (json_Decode_token (Body resp)) as [[tok exp]|err].
Qed.

(** C9: with a token cached and the clock before the stored threshold,
    [getToken] returns the cached token and leaves the world as it is (no
    request goes out).  Otherwise, the URL being well-formed, exactly one token
    request goes out; when it is answered 200 with a body that decodes to
    (token, expiry), that token is returned and cached with the threshold
    [expiry - 30 s], so that from then on it counts as cached exactly while
    the clock is earlier than 30 seconds before the reported expiry. *)
Theorem C9_token_cache (w : World) :
  (token_cached w -> SFTPGoClient_getToken w = (Ok (token (sftpgo w)), w))
  /\ (~ token_cached w ->
      http_NewRequest_error "GET" (token_url w) = None ->
      sent (snd (SFTPGoClient_getToken w)) = sent w ++ [token_request (sftpgo w)]
      /\ forall (body tok : string) (exp : Z) (rest : list (Result HttpResponse)),
           replies w = Ok (mkResponse StatusOK body) :: rest ->
           json_Decode_token body = Ok (tok, exp) ->
           fst (SFTPGoClient_getToken w) = Ok tok
           /\ token (sftpgo (snd (SFTPGoClient_getToken w))) = tok
           /\ tokenExp (sftpgo (snd (SFTPGoClient_getToken w))) = exp - 30 * Second
           /\ forall w' : World,
                sftpgo w' = sftpgo (snd (SFTPGoClient_getToken w)) ->
                tok <> EmptyString ->
                (token_cached w' <-> now w' < exp - 30 * Second)).
Proof.
  split; [apply getToken_cached|].
  intros Hc Hurl. rewrite (getToken_fresh w Hc Hurl). split.
  - destruct (replies w) as [|[resp|err] rest]; try reflexivity.
    destruct (negb (StatusCode resp =? StatusOK)); [reflexivity|].
    now destruct (json_Decode_token (Body resp)) as [[tok exp]|err].
  - intros body tok exp rest -> Hdec. cbn. rewrite Hdec. cbn.
    split; [reflexivity|]. split; [reflexivity|]. split; [lia|].
    intros w' Hw' Htok. unfold token_cached. rewrite Hw'. cbn.
    split; [intros [_ H]; lia | intros H; split; [exact Htok | lia]].
Qed.

End Client.

(** * Provisioning *)

Section Provisioning.
Context `{RT : Runtime}.

Lemma http_Do_db (req : HttpRequest) (w : World) : db (snd (http_Do req w)) = db w.
Proof. unfold http_Do. now destruct (replies w). Qed.

Lemma getToken_db (w : World) : db (snd (SFTPGoClient_getToken w)) = db w.
Proof.
  unfold SFTPGoClient_getToken, bind, ret, http_Do.
  destruct (negb _ && _); [reflexivity|].
  destruct (http_NewRequest_error _ _); [reflexivity|].
  destruct (replies w) as [|[resp|err] rest]; cbn; try reflexivity.
  destruct (negb (StatusCode resp =? StatusOK)); [reflexivity|].
  now destruct (json_Decode_token (Body resp)) as [[tok exp]|err].
Qed.

Lemma doAuth_db (req : HttpRequest) (w : World) :
  db (snd (SFTPGoClient_doAuth req w)) = db w.
Proof.
  unfold SFTPGoClient_doAuth, bind, ret.
  pose proof (getToken_db w) as H.
  destruct (SFTPGoClient_getToken w) as [[tok|err] w1]; cbn in *; [|exact H].
  now rewrite http_Do_db.
Qed.

Lemma CreateUser_db (username password homeDir : string) (publicKeys : list string)
    (s3 : option S3Config) (tenantID : string) (w : World) :
  db (snd (SFTPGoClient_CreateUser username password homeDir publicKeys s3 tenantID w))
  = db w.
Proof.
  unfold SFTPGoClient_CreateUser, bind, ret.
  destruct (http_NewRequest_error _ _); [reflexivity|].
  match goal with |- context [SFTPGoClient_doAuth ?r w] =>
    pose proof (doAuth_db r w) as H;
    destruct (SFTPGoClient_doAuth r w) as [[resp|err] w1] end; cbn in *; [|exact H].
  now destruct (negb _).
Qed.

Lemma DeleteUser_db (username : string) (w : World) :
  db (snd (SFTPGoClient_DeleteUser username w)) = db w.
Proof.
  unfold SFTPGoClient_DeleteUser, bind, ret.
  destruct (http_NewRequest_error _ _); [reflexivity|].
  match goal with |- context [SFTPGoClient_doAuth ?r w] =>
    pose proof (doAuth_db r w) as H;
    destruct (SFTPGoClient_doAuth r w) as [[resp|err] w1] end; cbn in *; [|exact H].
  now destruct (negb _).
Qed.

Lemma rand_Read_db (n : nat) (w : World) : db (snd (rand_Read n w)) = db w.
Proof. unfold rand_Read. now destruct (_ <=? _)%nat. Qed.

Lemma newCredentials_db (password : string) (w : World) :
  db (snd (newCredentials password w)) = db w.
Proof.
  unfold newCredentials, bind, ret.
  destruct (isEmpty password).
  - pose proof (rand_Read_db 16 w) as H1.
    destruct (rand_Read 16 w) as [[b|e] w1]; cbn in *; [|exact H1].
    pose proof (rand_Read_db 16 w1) as H2.
    destruct (rand_Read 16 w1) as [[b2|e2] w2]; cbn in *; congruence.
  - pose proof (rand_Read_db 16 w) as H1.
    now destruct (rand_Read 16 w) as [[b|e] w1].
Qed.

(** [CreateTenant] from line 94 on, for a request that passed validation and
    got its credentials. *)
Lemma CreateTenant_run (cfg : Config) (req : CreateTenantRequest) (w w1 : World)
    (password tenantID : string) :
  c_Username req <> EmptyString ->
  newCredentials (c_Password req) w = (Ok (password, tenantID), w1) ->
  Handlers_CreateTenant cfg "POST" (Ok req) w =
  let homeDir := filepath_Join (DataDir cfg) tenantID in
  match SFTPGoClient_CreateUser (c_Username req) password homeDir
          (pubKeys_of (c_PublicKey req)) (s3Cfg_of cfg) tenantID w1 with
  | (Some err, w2) => (writeError StatusBadGateway err, w2)
  | (None, w2) =>
      match DB_CreateTenant tenantID (c_Username req) password (c_PublicKey req)
              homeDir w2 with
      | (Err err, w3) => (writeError StatusInternalServerError err, w3)
      | (Ok tenant, w3) =>
          (writeJSON StatusCreated
             (JObj [("tenant", Tenant_json tenant);
                    ("password", JStr password);
                    ("tenant_id", JStr tenantID)]), w3)
      end
  end.
Proof.
  intros Hu Hc. unfold Handlers_CreateTenant.
  rewrite String.eqb_refl. cbn [negb].
  apply isEmpty_false in Hu. rewrite Hu.
  unfold bind at 1. rewrite Hc. unfold bind, ret. cbn zeta.
  destruct (SFTPGoClient_CreateUser _ _ _ _ _ _ w1) as [[err|] w2]; [reflexivity|].
  now destruct (DB_CreateTenant _ _ _ _ _ w2) as [[tenant|err] w3].
Qed.

(** C2: when the external create-user call of a tenant-creation request
    fails, the handler answers 502 with that error and the registry tables are
    as they were before the request. *)
Theorem C2_no_row_without_external_user
    (cfg : Config) (req : CreateTenantRequest) (w w1 w2 : World)
    (password tenantID : string) (err : error) :
  c_Username req <> EmptyString ->
  newCredentials (c_Password req) w = (Ok (password, tenantID), w1) ->
  SFTPGoClient_CreateUser (c_Username req) password
    (filepath_Join (DataDir cfg) tenantID) (pubKeys_of (c_PublicKey req))
    (s3Cfg_of cfg) tenantID w1 = (Some err, w2) ->
  Handlers_CreateTenant cfg "POST" (Ok req) w
    = (writeError StatusBadGateway err, w2)
  /\ db w2 = db w.
Proof.
  intros Hu Hc Hcreate. split.
  - rewrite (CreateTenant_run cfg req w w1 password tenantID Hu Hc).
    cbn zeta. now rewrite Hcreate.
  - pose proof (newCredentials_db (c_Password req) w) as H1. rewrite Hc in H1.
    pose proof (CreateUser_db (c_Username req) password
                  (filepath_Join (DataDir cfg) tenantID) (pubKeys_of (c_PublicKey req))
                  (s3Cfg_of cfg) tenantID w1) as H2.
    rewrite Hcreate in H2. cbn in *. congruence.
Qed.

Lemma DB_DeleteTenant_done (id : Z) (username : string) (w w1 : World) :
  DB_DeleteTenant id w = (Ok username, w1) ->
  tenants (db w1) = filter (fun t => t_ID t <> id) (tenants (db w)).
Proof.
  unfold DB_DeleteTenant, bind, ret.
  destruct (conn_Exec_result (sql_select_username id) w)
    as [(e & _ & ->) | (_ & ->)]; [discriminate|].
  unfold sql_select_username at 1 2.
  destruct (find _ (tenants (db w))) as [t|]; cbn [fst snd]; [|discriminate].
  match goal with |- context [conn_Exec (sql_delete_tenant id) ?w0] =>
    destruct (conn_Exec_result (sql_delete_tenant id) w0)
      as [(e & _ & ->) | (_ & ->)] end; [discriminate|].
  cbn. now intros [= _ <-].
Qed.

Lemma DB_CreateTenant_failed (tenantID username password publicKey homeDir : string)
    (err : error) (w w1 : World) :
  DB_CreateTenant tenantID username password publicKey homeDir w = (Err err, w1) ->
  db w1 = db w /\ exists e, err = wrap "insert tenant" e.
Proof.
  unfold DB_CreateTenant, bind, ret, time_Now.
  destruct (conn_Exec_result
              (sql_insert_tenant tenantID username password publicKey homeDir) w)
    as [(e & _ & ->) | (_ & ->)]; [intros [= <- <-]; eauto|].
  unfold sql_insert_tenant.
  repeat destruct (existsb _ _); cbn; intros [= <- <-];
    (split; [now destruct (db w) | eauto]).
Qed.

(** C8, as the code has it.  Deletion: the registry row is removed, the
    external delete fails, and the handler answers 502 with the message
    [deleted from db but sftpgo failed: ...].  Creation: the external create
    succeeded, the registry insert fails, and the handler answers 500 with the
    registry's [insert tenant: ...] error; the registry is unchanged. *)
Theorem C8_split_state_answers :
  (forall (path : string) (id : Z) (username : string) (err : error)
          (w w1 w2 : World),
      parseID path "/api/tenants/" = Ok id ->
      DB_DeleteTenant id w = (Ok username, w1) ->
      SFTPGoClient_DeleteUser username w1 = (Some err, w2) ->
      Handlers_DeleteTenant "DELETE" path w
        = (writeError StatusBadGateway (wrap "deleted from db but sftpgo failed" err),
           w2)
      /\ tenants (db w2) = filter (fun t => t_ID t <> id) (tenants (db w)))
  /\ (forall (cfg : Config) (req : CreateTenantRequest) (password tenantID : string)
             (err : error) (w w1 w2 w3 : World),
         c_Username req <> EmptyString ->
         newCredentials (c_Password req) w = (Ok (password, tenantID), w1) ->
         SFTPGoClient_CreateUser (c_Username req) password
           (filepath_Join (DataDir cfg) tenantID) (pubKeys_of (c_PublicKey req))
           (s3Cfg_of cfg) tenantID w1 = (None, w2) ->
         DB_CreateTenant tenantID (c_Username req) password (c_PublicKey req)
           (filepath_Join (DataDir cfg) tenantID) w2 = (Err err, w3) ->
         Handlers_CreateTenant cfg "POST" (Ok req) w
           = (writeError StatusInternalServerError err, w3)
         /\ db w3 = db w
         /\ exists e, err = wrap "insert tenant" e).
Proof.
  split.
  - intros path id username err w w1 w2 Hid Hdel Hext. split.
    + unfold Handlers_DeleteTenant. rewrite String.eqb_refl. cbn [negb].
      rewrite Hid. unfold bind, ret. now rewrite Hdel, Hext.
    + pose proof (DeleteUser_db username w1) as H. rewrite Hext in H. cbn in H.
      rewrite H. exact (DB_DeleteTenant_done id username w w1 Hdel).
  - intros cfg req password tenantID err w w1 w2 w3 Hu Hc Hext Hdb. split.
    + rewrite (CreateTenant_run cfg req w w1 password tenantID Hu Hc).
      cbn zeta. now rewrite Hext, Hdb.
    + destruct (DB_CreateTenant_failed _ _ _ _ _ _ _ _ Hdb) as [H3 He].
      split; [|exact He].
      pose proof (newCredentials_db (c_Password req) w) as H1. rewrite Hc in H1.
      pose proof (CreateUser_db (c_Username req) password
                    (filepath_Join (DataDir cfg) tenantID)
                    (pubKeys_of (c_PublicKey req)) (s3Cfg_of cfg) tenantID w1) as H2.
      rewrite Hext in H2. cbn in *. congruence.
Qed.

Lemma DB_CreateTenant_done (tenantID username password publicKey homeDir : string)
    (t : Tenant) (w w1 : World) :
  DB_CreateTenant tenantID username password publicKey homeDir w = (Ok t, w1) ->
  t = mkTenant (next_rowid t_ID (tenants (db w))) tenantID username password
               publicKey homeDir (now w)
  /\ db w1 = mkDB (tenants (db w)
                     ++ [mkTenant (t_ID t) tenantID username password publicKey homeDir
                                  (CURRENT_TIMESTAMP w)])
                  (records (db w)).
Proof.
  unfold DB_CreateTenant, bind, ret, time_Now.
  destruct (conn_Exec_result
              (sql_insert_tenant tenantID username password publicKey homeDir) w)
    as [(e & _ & ->) | (_ & ->)]; [discriminate|].
  unfold sql_insert_tenant.
  repeat destruct (existsb _ _); cbn; try discriminate.
  intros [= <- <-]. split; reflexivity.
Qed.

(** X2: a tenant-creation request changes the registry only when it is answered
    201: then exactly one row is appended, holding the request's username and
    public key and the password, tenant token and home directory of the
    answer; every other answer leaves the tables as they were. *)
Theorem CreateTenant_registry_effect
    (cfg : Config) (method : string) (body : Result CreateTenantRequest) (w : World) :
  (exists (req : CreateTenantRequest) (password tenantID : string) (id created now' : Z),
      body = Ok req
      /\ fst (Handlers_CreateTenant cfg method body w)
         = writeJSON StatusCreated
             (JObj [("tenant",
                     Tenant_json (mkTenant id tenantID (c_Username req) password
                                    (c_PublicKey req)
                                    (filepath_Join (DataDir cfg) tenantID) now'));
                    ("password", JStr password);
                    ("tenant_id", JStr tenantID)])
      /\ db (snd (Handlers_CreateTenant cfg method body w))
         = mkDB (tenants (db w)
                   ++ [mkTenant id tenantID (c_Username req) password (c_PublicKey req)
                         (filepath_Join (DataDir cfg) tenantID) created])
                (records (db w)))
  \/ ((forall v, fst (Handlers_CreateTenant cfg method body w)
                 <> writeJSON StatusCreated v)
      /\ db (snd (Handlers_CreateTenant cfg method body w)) = db w).
Proof.
  destruct (String.eqb method "POST") eqn:Em.
  2:{ right. unfold Handlers_CreateTenant. rewrite Em. cbn. split; [discriminate|reflexivity]. }
  apply String.eqb_eq in Em. subst method.
  destruct body as [req|e].
  2:{ right. cbn. split; [discriminate|reflexivity]. }
  destruct (isEmpty (c_Username req)) eqn:Eu.
  { right. unfold Handlers_CreateTenant. rewrite String.eqb_refl, Eu. cbn. split; [discriminate|reflexivity]. }
  apply isEmpty_false in Eu.
  pose proof (newCredentials_db (c_Password req) w) as Hc.
  destruct (newCredentials (c_Password req) w) as [[[password tenantID]|e] w1] eqn:Ec.
  2:{ right.
      assert (Handlers_CreateTenant cfg "POST" (Ok req) w
              = (writeError StatusInternalServerError e, w1)) as ->.
      { unfold Handlers_CreateTenant. rewrite String.eqb_refl.
        apply isEmpty_false in Eu. rewrite Eu. cbn [negb]. unfold bind at 1.
        now rewrite Ec. }
      split; [discriminate | exact Hc]. }
  rewrite (CreateTenant_run cfg req w w1 password tenantID Eu Ec). cbn zeta.
  pose proof (CreateUser_db (c_Username req) password
                (filepath_Join (DataDir cfg) tenantID) (pubKeys_of (c_PublicKey req))
                (s3Cfg_of cfg) tenantID w1) as Hu.
  destruct (SFTPGoClient_CreateUser _ _ _ _ _ _ w1) as [[err|] w2].
  { right. cbn in *. split; [discriminate | congruence]. }
  destruct (DB_CreateTenant _ _ _ _ _ w2) as [[tenant|err] w3] eqn:Ed.
  - left. apply DB_CreateTenant_done in Ed. destruct Ed as [Ht Hd].
    exists req, password, tenantID, (t_ID tenant), (CURRENT_TIMESTAMP w2), (now w2).
    split; [reflexivity|]. cbn [fst snd] in *. split.
    + rewrite Ht. reflexivity.
    + rewrite Hd. congruence.
  - right. apply DB_CreateTenant_failed in Ed. destruct Ed as [Hd _].
    cbn [fst snd] in *. split; [discriminate | congruence].
Qed.

Lemma hexDigit_isHex (n : Z) : 0 <= n < 16 -> isHex (hexDigit n) = true.
Proof.
  intros H. rewrite <- (Z2Nat.id n) by lia.
  assert (Z.to_nat n < 16)%nat as Hk by lia.
  revert Hk. generalize (Z.to_nat n). intros k Hk.
  do 16 (destruct k as [|k]; [reflexivity|]). lia.
Qed.

Lemma hex_EncodeToString_shape (b : list Z) :
  String.length (hex_EncodeToString b) = (2 * length b)%nat
  /\ allHex (hex_EncodeToString b) = true.
Proof.
  induction b as [|x b [IHl IHh]]; [split; reflexivity|]. cbn [hex_EncodeToString].
  split; [cbn; rewrite IHl; cbn; lia|].
  cbn [allHex]. rewrite IHh, !hexDigit_isHex; [reflexivity | |].
  - change 15 with (Z.ones 4). rewrite Z.land_ones by lia.
    apply Z.mod_pos_bound. reflexivity.
  - rewrite Z.shiftr_div_pow2 by lia. change 255 with (Z.ones 8).
    rewrite Z.land_ones by lia.
    pose proof (Z.mod_pos_bound x (2 ^ 8) eq_refl) as Hm.
    change (2 ^ 4) with 16. change (2 ^ 8) with 256 in *.
    split; [apply Z.div_pos; lia | apply Z.div_lt_upper_bound; lia].
Qed.

Lemma rand_Read_length (n : nat) (b : list Z) (w w1 : World) :
  rand_Read n w = (Ok b, w1) -> length b = n.
Proof.
  unfold rand_Read. destruct (n <=? length (entropy w))%nat eqn:E; [|discriminate].
  intros [= <- _]. apply Nat.leb_le in E. rewrite length_take. lia.
Qed.

(** X6: the credentials of a tenant-creation request: the tenant token is 32
    characters of [0-9a-f]; so is the password when the request has none, and
    a password the request supplies is kept. *)
Theorem generated_credentials (requested password tenantID : string) (w w1 : World) :
  newCredentials requested w = (Ok (password, tenantID), w1) ->
  String.length tenantID = 32%nat /\ allHex tenantID = true
  /\ (requested = EmptyString ->
      String.length password = 32%nat /\ allHex password = true)
  /\ (requested <> EmptyString -> password = requested).
Proof.
  unfold newCredentials, bind, ret.
  destruct (isEmpty requested) eqn:Er.
  - destruct (rand_Read 16 w) as [[b|e] w0] eqn:E1; [|discriminate].
    destruct (rand_Read 16 w0) as [[b2|e] w2] eqn:E2; [|discriminate].
    intros [= <- <- _].
    apply rand_Read_length in E1, E2.
    destruct (hex_EncodeToString_shape b) as [L1 H1].
    destruct (hex_EncodeToString_shape b2) as [L2 H2].
    rewrite E1 in L1. rewrite E2 in L2.
    repeat split; try assumption.
    apply isEmpty_true in Er. intros Hne. now elim Hne.
  - destruct (rand_Read 16 w) as [[b|e] w0] eqn:E1; [|discriminate].
    intros [= <- <- _].
    apply rand_Read_length in E1.
    destruct (hex_EncodeToString_shape b) as [L1 H1]. rewrite E1 in L1.
    apply isEmpty_false in Er.
    repeat split; try assumption; try reflexivity; intros; now subst.
Qed.

End Provisioning.

(** * Ingestion *)

Section Ingestion.
Context `{RT : Runtime}.

Lemma build_colIndex_lookup (header : list string) (i : nat)
    (colIndex : gmap string nat) (name : string) :
  is_Some (build_colIndex header i colIndex !! name)
  <-> is_Some (colIndex !! name) \/ name ∈ column_name <$> header.
Proof.
  revert i colIndex. induction header as [|h header IH]; intros i colIndex; cbn.
  - rewrite elem_of_nil. tauto.
  - rewrite IH, elem_of_cons. fold (column_name h).
    destruct (decide (name = column_name h)) as [->|Hne].
    + rewrite lookup_insert_eq. split; [auto | intros _; left; eauto].
    + rewrite lookup_insert_ne by congruence. tauto.
Qed.

Lemma has_column_spec (header : list string) (name : string) :
  has_column (build_colIndex header 0 ∅) name = true
  <-> name ∈ column_name <$> header.
Proof.
  unfold has_column.
  pose proof (build_colIndex_lookup header 0 ∅ name) as H.
  rewrite lookup_empty in H.
  destruct (build_colIndex header 0 ∅ !! name) as [i|].
  - split; [intros _ | reflexivity].
    destruct (proj1 H (mk_is_Some _ _ eq_refl)) as [[x Hx]|Hin]; [discriminate | exact Hin].
  - split; [discriminate|]. intros Hin.
    destruct (proj2 H (or_intror Hin)) as [x Hx]. discriminate.
Qed.

Lemma GetTenantByUsername_frame (username : string) (w : World) :
  db (snd (DB_GetTenantByUsername username w)) = db w
  /\ objects (snd (DB_GetTenantByUsername username w)) = objects w.
Proof.
  unfold DB_GetTenantByUsername, bind, ret.
  destruct (conn_Exec_result (sql_select_tenant_by_username username) w)
    as [(e & _ & ->) | (_ & ->)]; [split; reflexivity|].
  unfold sql_select_tenant_by_username.
  destruct (find _ (tenants (db w))); cbn; (split; [now destruct (db w) | reflexivity]).
Qed.

(** C6: when the uploaded object's header, with every cell lower-cased and
    trimmed, lacks one of [key], [title], [value], the worker returns without
    touching the registry. *)
Theorem C6_missing_column_no_records
    (bucket : string) (event : gmap string JSON) (w w1 : World) (tenant : Tenant)
    (header : list string) (rows : list CsvRead) :
  DB_GetTenantByUsername (event_string event "username") w = (Ok tenant, w1) ->
  objects w !! (bucket,
                t_TenantID tenant +:+ "/"
                  +:+ TrimPrefix (event_string event "virtual_path") "/")
    = Some (Ok (CsvRecord header :: rows)) ->
  (exists name, name ∈ required_columns /\ name ∉ column_name <$> header) ->
  fst (Worker_ProcessUploadEvent bucket event w) = Returned
  /\ db (snd (Worker_ProcessUploadEvent bucket event w)) = db w.
Proof.
  intros Hget Hobj (name & Hreq & Hmiss).
  assert (exists w', Worker_ProcessUploadEvent bucket event w = (Returned, w')
                     /\ db w' = db w) as (w' & -> & Hw'); [|auto].
  unfold Worker_ProcessUploadEvent.
  destruct (isEmpty _ || isEmpty _); [eexists; split; reflexivity|].
  destruct (negb (HasSuffix _ _)); [eexists; split; reflexivity|].
  unfold bind at 1. rewrite Hget.
  destruct (GetTenantByUsername_frame (event_string event "username") w) as [Hdb Hob].
  rewrite Hget in Hdb, Hob. cbn in Hdb, Hob.
  unfold bind, minio_GetObject. rewrite Hob, Hobj.
  assert (forallb (has_column (build_colIndex header 0 ∅)) required_columns = false)
    as Hall.
  { apply not_true_is_false. intros Hall. apply Hmiss.
    rewrite forallb_forall in Hall. apply has_column_spec, Hall.
    now apply list_elem_of_In. }
  rewrite Hall. cbn. eauto.
Qed.


Lemma build_colIndex_bound (header : list string) (i : nat) (colIndex : gmap string nat)
    (n : nat) :
  (i + length header = n)%nat ->
  (forall name idx, colIndex !! name = Some idx -> (idx < n)%nat) ->
  forall name idx, build_colIndex header i colIndex !! name = Some idx -> (idx < n)%nat.
Proof.
  revert i colIndex. induction header as [|h header IH]; intros i colIndex Hn Hm; cbn.
  - exact Hm.
  - apply IH; [cbn in Hn; lia|].
    intros name idx. rewrite lookup_insert_Some.
    intros [[_ <-]|[_ H]]; [cbn in Hn; lia | now apply (Hm name)].
Qed.

Lemma row_cells_in_range (colIndex : gmap string nat) (row : list string) :
  (forall name idx, colIndex !! name = Some idx -> (idx < length row)%nat) ->
  forallb (has_column colIndex) required_columns = true ->
  row_cells colIndex row <> None.
Proof.
  intros Hb Hreq. cbn in Hreq. unfold has_column in Hreq.
  destruct (colIndex !! "key") as [k|] eqn:Ek; [|discriminate Hreq].
  destruct (colIndex !! "title") as [t|] eqn:Et; [|discriminate Hreq].
  destruct (colIndex !! "value") as [v|] eqn:Ev; [|discriminate Hreq].
  unfold row_cells.
  rewrite (lookup_total_correct _ _ _ Ek), (lookup_total_correct _ _ _ Et),
          (lookup_total_correct _ _ _ Ev).
  destruct (lookup_lt_is_Some_2 row k (Hb _ _ Ek)) as [ck ->].
  destruct (lookup_lt_is_Some_2 row t (Hb _ _ Et)) as [ct ->].
  destruct (lookup_lt_is_Some_2 row v (Hb _ _ Ev)) as [cv ->].
  cbn.
  destruct (colIndex !! "description") as [d|] eqn:Ed;
    [destruct (lookup_lt_is_Some_2 row d (Hb _ _ Ed)) as [cd ->]|];
  (destruct (colIndex !! "category") as [c|] eqn:Ec;
    [destruct (lookup_lt_is_Some_2 row c (Hb _ _ Ec)) as [cc ->]|]);
  cbn; discriminate.
Qed.

Lemma processRows_in_range (colIndex : gmap string nat) (fieldsPerRecord : nat)
    (tenantID : string) (stream : list CsvRead) (count : Z) (w : World) :
  (forall name idx, colIndex !! name = Some idx -> (idx < fieldsPerRecord)%nat) ->
  forallb (has_column colIndex) required_columns = true ->
  fst (processRows colIndex fieldsPerRecord tenantID stream count w) <> Panicked.
Proof.
  intros Hb Hreq. revert count w.
  induction stream as [|rd rest IH]; intros count w; cbn; [discriminate|].
  destruct rd as [row|err]; cbn; [|discriminate].
  destruct (length row =? fieldsPerRecord)%nat eqn:El; [|discriminate].
  apply Nat.eqb_eq in El.
  destruct (row_cells colIndex row) as [[[[[recordKey title] description] category] valueText]|] eqn:Ec.
  - destruct (strconv_ParseFloat valueText); [|apply IH].
    unfold bind. destruct (DB_UpsertRecord _ _ _ _ _ _ w) as [[e|] w1]; apply IH.
  - exfalso. revert Ec. apply row_cells_in_range; [|exact Hreq].
    rewrite El. exact Hb.
Qed.

(** X1: the worker's index expressions [row[colIndex[...]]] are always in range:
    whatever the upload event, the registry and the object hold,
    [ProcessUploadEvent] ends at one of its [return]s or after the row loop,
    never in a run-time panic. *)
Theorem ProcessUploadEvent_no_panic
    (bucket : string) (event : gmap string JSON) (w : World) :
  fst (Worker_ProcessUploadEvent bucket event w) = Returned
  \/ exists count, fst (Worker_ProcessUploadEvent bucket event w) = Processed count.
Proof.
  enough (fst (Worker_ProcessUploadEvent bucket event w) <> Panicked) as H
    by (destruct (fst (Worker_ProcessUploadEvent bucket event w)); eauto; now elim H).
  unfold Worker_ProcessUploadEvent.
  destruct (isEmpty _ || isEmpty _); [discriminate|].
  destruct (negb (HasSuffix _ _)); [discriminate|].
  unfold bind.
  destruct (DB_GetTenantByUsername _ w) as [[tenant|e] w1]; [|discriminate].
  destruct (minio_GetObject _ _ w1) as [[stream|e] w2]; [|discriminate].
  destruct stream as [|[header|e] rows]; [discriminate| |discriminate].
  destruct (forallb _ required_columns) eqn:Hreq; [|discriminate]. cbn [negb].
  apply processRows_in_range; [|exact Hreq].
  apply (build_colIndex_bound header 0 ∅); [reflexivity|].
  intros name idx H. rewrite lookup_empty in H. discriminate H.
Qed.

End Ingestion.

(** * The registry's methods, one by one *)

Section Deletion.
Context `{RT : Runtime}.

(** What a statement leaves alone. *)
Lemma conn_Exec_frame {A : Type} (stmt : Z -> DB -> Result A * DB) (w : World) :
  sftpgo (snd (conn_Exec stmt w)) = sftpgo w
  /\ now (snd (conn_Exec stmt w)) = now w
  /\ entropy (snd (conn_Exec stmt w)) = entropy w
  /\ replies (snd (conn_Exec stmt w)) = replies w
  /\ sent (snd (conn_Exec stmt w)) = sent w
  /\ objects (snd (conn_Exec stmt w)) = objects w.
Proof.
  unfold conn_Exec.
  destruct (faults w) as [|[e|] rest]; [| now cbn |];
    destruct (stmt _ _); now cbn.
Qed.

(** A query: the tables stay. *)
Lemma conn_Exec_query {A : Type} (stmt : Z -> DB -> Result A * DB) (w : World) :
  (forall ts d, snd (stmt ts d) = d) ->
  db (snd (conn_Exec stmt w)) = db w.
Proof.
  intros H. apply (conn_Exec_preserves (fun d => d = db w)); [|reflexivity].
  intros ts d ->. apply H.
Qed.

Lemma DB_GetTenant_run (id : Z) (w : World) :
  (exists e, head (faults w) = Some (Some e)
             /\ fst (DB_GetTenant id w) = Err (wrap ("get tenant " +:+ fmt_d id) e))
  \/ ((forall e, head (faults w) <> Some (Some e))
      /\ fst (DB_GetTenant id w)
         = match find (fun t => t_ID t =? id) (tenants (db w)) with
           | Some t => Ok t
           | None => Err (wrap ("get tenant " +:+ fmt_d id) sql_ErrNoRows)
           end).
Proof.
  unfold DB_GetTenant, bind, ret.
  destruct (conn_Exec_result (sql_select_tenant id) w)
    as [(e & He & ->) | (Hf & ->)]; [left; eauto|right].
  split; [exact Hf|]. unfold sql_select_tenant.
  now destruct (find _ (tenants (db w))).
Qed.

Lemma DB_GetTenant_frame (id : Z) (w : World) :
  db (snd (DB_GetTenant id w)) = db w
  /\ sftpgo (snd (DB_GetTenant id w)) = sftpgo w
  /\ sent (snd (DB_GetTenant id w)) = sent w
  /\ replies (snd (DB_GetTenant id w)) = replies w
  /\ now (snd (DB_GetTenant id w)) = now w.
Proof.
  unfold DB_GetTenant, bind, ret.
  pose proof (conn_Exec_frame (sql_select_tenant id) w) as (F1 & F2 & F3 & F4 & F5 & F6).
  pose proof (conn_Exec_query (sql_select_tenant id) w) as Fd.
  destruct (conn_Exec (sql_select_tenant id) w) as [[t|e] w1]; cbn in *;
    (split; [apply Fd; intros ts d; unfold sql_select_tenant;
             now destruct (find _ (tenants d)) | auto]).
Qed.

Lemma find_none_filter_id (id : Z) (l : list Tenant) :
  find (fun t => t_ID t =? id) (filter (fun t => t_ID t <> id) l) = None.
Proof.
  induction l as [|t l IH]; [reflexivity|].
  rewrite filter_cons. destruct (decide (t_ID t <> id)) as [H|H]; [|exact IH].
  cbn. apply Z.eqb_neq in H. now rewrite H.
Qed.

Lemma find_id_none (id : Z) (l : list Tenant) :
  (forall t, In t l -> t_ID t <> id) -> find (fun t => t_ID t =? id) l = None.
Proof.
  induction l as [|t l IH]; [reflexivity|]. intros H. cbn.
  destruct (Z.eqb_spec (t_ID t) id) as [E|_]; [now elim (H t (or_introl eq_refl))|].
  apply IH. intros t' Ht'. apply H. now right.
Qed.

Lemma filter_id_all (id : Z) (l : list Tenant) :
  (forall t, In t l -> t_ID t <> id) -> filter (fun t => t_ID t <> id) l = l.
Proof.
  induction l as [|t l IH]; [reflexivity|]. intros H.
  rewrite filter_cons. destruct (decide (t_ID t <> id)) as [_|E].
  - f_equal. apply IH. intros t' Ht'. apply H. now right.
  - elim E. apply H. now left.
Qed.

(** [DB.DeleteTenant], whatever happens. *)
Lemma DB_DeleteTenant_run (id : Z) (w : World) :
  records (db (snd (DB_DeleteTenant id w))) = records (db w)
  /\ sftpgo (snd (DB_DeleteTenant id w)) = sftpgo w
  /\ sent (snd (DB_DeleteTenant id w)) = sent w
  /\ replies (snd (DB_DeleteTenant id w)) = replies w
  /\ match fst (DB_DeleteTenant id w) with
     | Ok username =>
         (exists t, find (fun t => t_ID t =? id) (tenants (db w)) = Some t
                    /\ t_Username t = username)
         /\ tenants (db (snd (DB_DeleteTenant id w)))
            = filter (fun t => t_ID t <> id) (tenants (db w))
     | Err _ => db (snd (DB_DeleteTenant id w)) = db w
     end.
Proof.
  destruct (DB_DeleteTenant id w) as [r w'] eqn:E. cbn [fst snd].
  revert E. unfold DB_DeleteTenant, bind, ret.
  destruct (conn_Exec_result (sql_select_username id) w)
    as [(e & _ & ->) | (_ & ->)]; [intros [= <- <-]; now cbn|].
  unfold sql_select_username.
  destruct (find _ (tenants (db w))) as [t|] eqn:Ef; cbn [fst snd];
    [|intros [= <- <-]; cbn; repeat split; now destruct (db w)].
  match goal with |- context [conn_Exec (sql_delete_tenant id) ?w0] =>
    destruct (conn_Exec_result (sql_delete_tenant id) w0)
      as [(e & _ & ->) | (_ & ->)] end; intros [= <- <-]; cbn.
  - repeat split; now destruct (db w).
  - repeat split. now exists t.
Qed.


Lemma DB_GetTenantByUsername_run (username : string) (w : World) :
  (exists e, head (faults w) = Some (Some e)
             /\ fst (DB_GetTenantByUsername username w)
                = Err (wrap ("get tenant by username " +:+ strconv_Quote username) e))
  \/ ((forall e, head (faults w) <> Some (Some e))
      /\ fst (DB_GetTenantByUsername username w)
         = match find (fun t => String.eqb (t_Username t) username) (tenants (db w)) with
           | Some t => Ok t
           | None => Err (wrap ("get tenant by username " +:+ strconv_Quote username)
                            sql_ErrNoRows)
           end).
Proof.
  unfold DB_GetTenantByUsername, bind, ret.
  destruct (conn_Exec_result (sql_select_tenant_by_username username) w)
    as [(e & He & ->) | (Hf & ->)]; [left; eauto|right].
  split; [exact Hf|]. unfold sql_select_tenant_by_username.
  now destruct (find _ (tenants (db w))).
Qed.

(** A username without a row is refused by the hook. *)
Lemma hook_rejects_unknown (cfg : Config) (req : AuthRequest) (w : World) :
  find (fun t => String.eqb (t_Username t) (a_Username req)) (tenants (db w)) = None ->
  fst (Handlers_ExternalAuthHook cfg "POST" (Ok req) w)
  = HttpError EmptyString StatusForbidden.
Proof.
  intros Hf. rewrite ExternalAuthHook_run.
  destruct (DB_GetTenantByUsername_run (a_Username req) w) as [(e & _ & H) | (_ & H)];
    destruct (DB_GetTenantByUsername (a_Username req) w) as [[t|e'] w1];
    cbn in H; try reflexivity; try discriminate H.
  rewrite Hf in H. discriminate H.
Qed.

Lemma NoDup_fmap_In_inj {A B : Type} (f : A -> B) (l : list A) (x y : A) :
  NoDup (f <$> l) -> In x l -> In y l -> f x = f y -> x = y.
Proof.
  induction l as [|a l IH]; [intros _ []|].
  rewrite fmap_cons, NoDup_cons. intros [Ha Hl] [<-|Hx] [<-|Hy] E; auto.
  - elim Ha. rewrite E. apply list_elem_of_fmap. exists y.
    split; [reflexivity | now apply list_elem_of_In].
  - elim Ha. rewrite <- E. apply list_elem_of_fmap. exists x.
    split; [reflexivity | now apply list_elem_of_In].
Qed.

Lemma find_username_after_delete (id : Z) (t : Tenant) (l : list Tenant) :
  NoDup (t_Username <$> l) ->
  find (fun t => t_ID t =? id) l = Some t ->
  find (fun x => String.eqb (t_Username x) (t_Username t))
       (filter (fun x => t_ID x <> id) l) = None.
Proof.
  intros Hn Hf. apply find_some in Hf as [Hin Hid]. apply Z.eqb_eq in Hid.
  destruct (find _ (filter _ l)) as [x|] eqn:Ex; [|reflexivity].
  apply find_some in Ex as [Hx Hu]. apply String.eqb_eq in Hu.
  apply list_elem_of_In, list_elem_of_filter in Hx as [Hne Hx].
  apply list_elem_of_In in Hx.
  elim Hne. rewrite (NoDup_fmap_In_inj t_Username l x t Hn Hx Hin Hu). exact Hid.
Qed.

(** X10: a DELETE for an id no tenant has is answered 404, removes nothing and
    sends nothing to the external server. *)
Theorem DeleteTenant_unknown_id (path : string) (id : Z) (w : World) :
  parseID path "/api/tenants/" = Ok id ->
  (forall t, In t (tenants (db w)) -> t_ID t <> id) ->
  fst (Handlers_DeleteTenant "DELETE" path w)
    = HttpError (error_text "tenant not found") StatusNotFound
  /\ db (snd (Handlers_DeleteTenant "DELETE" path w)) = db w
  /\ sent (snd (Handlers_DeleteTenant "DELETE" path w)) = sent w.
Proof.
  intros Hp Hid. unfold Handlers_DeleteTenant. rewrite String.eqb_refl, Hp.
  cbn [negb]. unfold bind.
  pose proof (DB_DeleteTenant_run id w) as (_ & _ & Hs & _ & H).
  destruct (DB_DeleteTenant id w) as [[username|e] w1]; cbn [fst snd] in *.
  - destruct H as [(t & Hf & _) _]. rewrite (find_id_none id _ Hid) in Hf.
    discriminate Hf.
  - cbn. repeat split; assumption.
Qed.

(** X11: deleting a tenant never touches the records table, so the records
    ingested for the tenant stay behind; and the only change a DELETE can make
    to the tenants table is to drop the rows with the id of its path, which a
    200 answer guarantees has happened. *)
Theorem DeleteTenant_effect (method path : string) (w : World) :
  records (db (snd (Handlers_DeleteTenant method path w))) = records (db w)
  /\ (tenants (db (snd (Handlers_DeleteTenant method path w))) = tenants (db w)
      \/ exists id,
           method = "DELETE" /\ parseID path "/api/tenants/" = Ok id
           /\ tenants (db (snd (Handlers_DeleteTenant method path w)))
              = filter (fun t => t_ID t <> id) (tenants (db w)))
  /\ ((exists v, fst (Handlers_DeleteTenant method path w) = writeJSON StatusOK v) ->
      exists id,
        parseID path "/api/tenants/" = Ok id
        /\ find (fun t => t_ID t =? id)
                (tenants (db (snd (Handlers_DeleteTenant method path w)))) = None).
Proof.
  unfold Handlers_DeleteTenant.
  destruct (String.eqb method "DELETE") eqn:Em; cbn [negb];
    [|cbn; split; [reflexivity | split; [now left | intros [v H]; discriminate H]]].
  apply String.eqb_eq in Em.
  destruct (parseID path "/api/tenants/") as [id|e];
    [|cbn; split; [reflexivity | split; [now left | intros [v H]; discriminate H]]].
  unfold bind.
  pose proof (DB_DeleteTenant_run id w) as (Hr & _ & _ & _ & H).
  destruct (DB_DeleteTenant id w) as [[username|e] w1]; cbn [fst snd] in *.
  - destruct H as [_ Ht].
    pose proof (DeleteUser_db username w1) as Hu.
    destruct (SFTPGoClient_DeleteUser username w1) as [[err|] w2];
      unfold ret; cbn [fst snd] in *;
      rewrite Hu; (split; [exact Hr|]); (split; [right; now exists id|]).
    + intros [v H]. discriminate H.
    + intros _. exists id. split; [reflexivity|]. rewrite Ht. apply find_none_filter_id.
  - cbn. rewrite H. split; [reflexivity | split; [now left | intros [v Hv]; discriminate Hv]].
Qed.

(** X12: once the registry step of a DELETE has removed the tenant, whether
    the external delete then succeeds or not, the authentication hook rejects
    that username. *)
Theorem deleted_tenant_rejected
    (path : string) (id : Z) (username : string) (w w1 w2 : World)
    (cfg : Config) (req : AuthRequest) :
  tenants_unique (db w) ->
  parseID path "/api/tenants/" = Ok id ->
  DB_DeleteTenant id w = (Ok username, w1) ->
  db w2 = db (snd (Handlers_DeleteTenant "DELETE" path w)) ->
  a_Username req = username ->
  fst (Handlers_ExternalAuthHook cfg "POST" (Ok req) w2)
  = HttpError EmptyString StatusForbidden.
Proof.
  intros [Hu _] Hp Hd Hdb Hreq.
  pose proof (DB_DeleteTenant_run id w) as (_ & _ & _ & _ & H). rewrite Hd in H.
  cbn [fst snd] in H. destruct H as [(t & Hf & Hn) Ht].
  assert (db (snd (Handlers_DeleteTenant "DELETE" path w)) = db w1) as Hh.
  { unfold Handlers_DeleteTenant. rewrite String.eqb_refl, Hp. cbn [negb].
    unfold bind. rewrite Hd.
    pose proof (DeleteUser_db username w1) as Hx.
    now destruct (SFTPGoClient_DeleteUser username w1) as [[err|] w3]. }
  apply hook_rejects_unknown. rewrite Hdb, Hh, Ht, Hreq, <- Hn.
  now apply find_username_after_delete.
Qed.

End Deletion.

(** * Credentials, key rotation and lookup *)

Section Rotation.
Context `{RT : Runtime} `{UR : !UserRuntime}.

Lemma newCredentials_password (requested password tenantID : string) (w w1 : World) :
  newCredentials requested w = (Ok (password, tenantID), w1) ->
  password <> EmptyString.
Proof.
  unfold newCredentials, bind, ret.
  destruct (isEmpty requested) eqn:Er.
  - destruct (rand_Read 16 w) as [[b|e] w0] eqn:E1; [|discriminate].
    destruct (rand_Read 16 w0) as [[b2|e] w2] eqn:E2; [|discriminate].
    intros [= <- _ _]. apply rand_Read_length in E1.
    destruct (hex_EncodeToString_shape b) as [L _]. rewrite E1 in L.
    intros H. rewrite H in L. discriminate L.
  - destruct (rand_Read 16 w) as [[b|e] w0]; [|discriminate].
    intros [= <- _ _]. now apply isEmpty_false.
Qed.

(** X8: a tenant whose creation was answered 201 authenticates with the
    username of the request and the password of the answer, and with no other
    password. *)
Theorem created_tenant_authenticates
    (cfg : Config) (req : CreateTenantRequest) (w : World)
    (tenant : JSON) (password tenantID : string) :
  fst (Handlers_CreateTenant cfg "POST" (Ok req) w)
    = writeJSON StatusCreated
        (JObj [("tenant", tenant); ("password", JStr password);
               ("tenant_id", JStr tenantID)]) ->
  forall (cfg' : Config) (w2 : World) (protocol ip : string),
    db w2 = db (snd (Handlers_CreateTenant cfg "POST" (Ok req) w)) ->
    (forall e, head (faults w2) <> Some (Some e)) ->
    (exists row,
        fst (Handlers_ExternalAuthHook cfg' "POST"
               (Ok (mkAuthRequest (c_Username req) password EmptyString protocol ip)) w2)
          = writeJSON StatusOK (sftpgoUser cfg' row)
        /\ t_Username row = c_Username req /\ t_TenantID row = tenantID
        /\ t_HomeDir row = filepath_Join (DataDir cfg) tenantID)
    /\ forall other,
         other <> password ->
         fst (Handlers_ExternalAuthHook cfg' "POST"
                (Ok (mkAuthRequest (c_Username req) other EmptyString protocol ip)) w2)
         = HttpError EmptyString StatusForbidden.
Proof.
  intros Hresp cfg' w2 protocol ip Hdb Hf.
  destruct (isEmpty (c_Username req)) eqn:Eu.
  { revert Hresp. unfold Handlers_CreateTenant. rewrite String.eqb_refl, Eu.
    discriminate. }
  apply isEmpty_false in Eu.
  destruct (newCredentials (c_Password req) w) as [[[pw tid]|e] w1] eqn:Ec.
  2:{ revert Hresp. unfold Handlers_CreateTenant. rewrite String.eqb_refl.
      apply isEmpty_false in Eu. rewrite Eu. cbn [negb]. unfold bind at 1.
      rewrite Ec. discriminate. }
  pose proof (newCredentials_password _ _ _ _ _ Ec) as Hpw.
  rewrite (CreateTenant_run cfg req w w1 pw tid Eu Ec) in Hresp, Hdb. cbn zeta in *.
  destruct (SFTPGoClient_CreateUser _ _ _ _ _ _ w1) as [[err|] w3]; [discriminate Hresp|].
  destruct (DB_CreateTenant _ _ _ _ _ w3) as [[t|err] w4] eqn:Ed; [|discriminate Hresp].
  cbn [fst snd] in *. injection Hresp as _ <- <-.
  apply DB_CreateTenant_row in Ed. destruct Ed as (Hfresh & _ & Hrows).
  set (row := mkTenant (t_ID t) tid (c_Username req) pw (c_PublicKey req)
                (filepath_Join (DataDir cfg) tid) (CURRENT_TIMESTAMP w3)) in *.
  assert (fst (DB_GetTenantByUsername (c_Username req) w2) = Ok row) as Hget.
  { destruct (DB_GetTenantByUsername_run (c_Username req) w2) as [(e & He & _) | (_ & ->)];
      [now apply Hf in He|].
    rewrite Hdb, Hrows, find_snoc_fresh; [reflexivity| |cbn; apply String.eqb_refl].
    now apply existsb_false_In. }
  split.
  - exists row. rewrite ExternalAuthHook_run. cbn [a_Username].
    destruct (DB_GetTenantByUsername (c_Username req) w2) as [[r|e] w5];
      cbn in Hget; [|discriminate Hget]. injection Hget as ->.
    assert (password_check (mkAuthRequest (c_Username req) pw EmptyString protocol ip) row
            = true) as ->.
    { apply password_check_spec. unfold password_matches. cbn. auto. }
    rewrite orb_true_r. cbn. auto.
  - intros other Ho. rewrite ExternalAuthHook_run. cbn [a_Username].
    destruct (DB_GetTenantByUsername (c_Username req) w2) as [[r|e] w5];
      cbn in Hget; [|discriminate Hget]. injection Hget as ->.
    assert (password_check (mkAuthRequest (c_Username req) other EmptyString protocol ip)
              row = false) as ->.
    { apply not_true_is_false. rewrite password_check_spec. unfold password_matches.
      cbn. intros (_ & _ & H). now elim Ho. }
    assert (key_check (mkAuthRequest (c_Username req) other EmptyString protocol ip) row
            = false) as ->.
    { apply not_true_is_false. rewrite key_check_spec. unfold public_key_matches.
      cbn. intros (H & _). now elim H. }
    reflexivity.
Qed.

Lemma DB_UpdateTenantPublicKey_run (id : Z) (publicKey : string) (w : World) :
  sftpgo (snd (DB_UpdateTenantPublicKey id publicKey w)) = sftpgo w
  /\ sent (snd (DB_UpdateTenantPublicKey id publicKey w)) = sent w
  /\ replies (snd (DB_UpdateTenantPublicKey id publicKey w)) = replies w
  /\ now (snd (DB_UpdateTenantPublicKey id publicKey w)) = now w
  /\ records (db (snd (DB_UpdateTenantPublicKey id publicKey w))) = records (db w)
  /\ match fst (DB_UpdateTenantPublicKey id publicKey w) with
     | None =>
         (forall e, head (faults w) <> Some (Some e))
         /\ tenants (db (snd (DB_UpdateTenantPublicKey id publicKey w)))
            = map (fun t => if t_ID t =? id then with_public_key publicKey t else t)
                  (tenants (db w))
     | Some _ =>
         (exists e, head (faults w) = Some (Some e))
         /\ db (snd (DB_UpdateTenantPublicKey id publicKey w)) = db w
     end.
Proof.
  destruct (DB_UpdateTenantPublicKey id publicKey w) as [r w'] eqn:E. cbn [fst snd].
  revert E. unfold DB_UpdateTenantPublicKey, bind, ret.
  destruct (conn_Exec_result (sql_update_public_key id publicKey) w)
    as [(e & He & ->) | (Hf & ->)]; intros [= <- <-]; cbn.
  - repeat split; eauto.
  - repeat split; assumption.
Qed.

Lemma map_id_unknown (id : Z) (g : Tenant -> Tenant) (l : list Tenant) :
  (forall t, In t l -> t_ID t <> id) ->
  map (fun t => if t_ID t =? id then g t else t) l = l.
Proof.
  induction l as [|t l IH]; [reflexivity|]. intros H. cbn.
  destruct (Z.eqb_spec (t_ID t) id) as [E|_]; [now elim (H t (or_introl eq_refl))|].
  f_equal. apply IH. intros t' Ht'. apply H. now right.
Qed.

(** X13: [UpdateTenantPublicKey] for an id no tenant has reports success and
    changes nothing: the method does not look at the number of rows the
    [UPDATE] touched. *)
Theorem update_key_of_unknown_tenant (id : Z) (publicKey : string) (w : World) :
  (forall t, In t (tenants (db w)) -> t_ID t <> id) ->
  (forall e, head (faults w) <> Some (Some e)) ->
  fst (DB_UpdateTenantPublicKey id publicKey w) = None
  /\ db (snd (DB_UpdateTenantPublicKey id publicKey w)) = db w.
Proof.
  intros Hid Hf.
  pose proof (DB_UpdateTenantPublicKey_run id publicKey w) as (_ & _ & _ & _ & Hr & H).
  destruct (DB_UpdateTenantPublicKey id publicKey w) as [[err|] w1]; cbn [fst snd] in *.
  - destruct H as [(e & He) _]. now apply Hf in He.
  - split; [reflexivity|]. destruct H as [_ Ht].
    rewrite map_id_unknown in Ht by assumption.
    destruct (db w1), (db w). cbn in *. congruence.
Qed.

Lemma find_id_map_key (id : Z) (publicKey : string) (l : list Tenant) :
  find (fun t => t_ID t =? id)
       (map (fun t => if t_ID t =? id then with_public_key publicKey t else t) l)
  = with_public_key publicKey <$> find (fun t => t_ID t =? id) l.
Proof.
  induction l as [|t l IH]; [reflexivity|]. cbn.
  destruct (Z.eqb_spec (t_ID t) id) as [E|N]; cbn.
  - apply Z.eqb_eq in E. now rewrite E.
  - apply Z.eqb_neq in N. now rewrite N.
Qed.

Lemma find_username_map_key (id : Z) (publicKey username : string) (l : list Tenant) :
  find (fun t => String.eqb (t_Username t) username)
       (map (fun t => if t_ID t =? id then with_public_key publicKey t else t) l)
  = (fun t => if t_ID t =? id then with_public_key publicKey t else t)
      <$> find (fun t => String.eqb (t_Username t) username) l.
Proof.
  induction l as [|t l IH]; [reflexivity|]. cbn [map find].
  destruct (t_ID t =? id) eqn:E; unfold with_public_key at 1; cbn [t_Username];
    destruct (String.eqb (t_Username t) username); cbn; rewrite ?E; auto.
Qed.

(** X14: a public key that [UpdateTenantPublicKey] stored is the one
    [GetTenant] reads back; nothing else of the row, and no other row,
    changes. *)
Theorem updated_key_read_back
    (id : Z) (publicKey : string) (t : Tenant) (w w1 w2 : World) :
  find (fun t => t_ID t =? id) (tenants (db w)) = Some t ->
  DB_UpdateTenantPublicKey id publicKey w = (None, w1) ->
  db w2 = db w1 ->
  (forall e, head (faults w2) <> Some (Some e)) ->
  fst (DB_GetTenant id w2) = Ok (with_public_key publicKey t)
  /\ filter (fun x => t_ID x <> id) (tenants (db w1))
     = filter (fun x => t_ID x <> id) (tenants (db w))
  /\ records (db w1) = records (db w).
Proof.
  intros Hfind Hu Hdb Hf.
  pose proof (DB_UpdateTenantPublicKey_run id publicKey w) as (_ & _ & _ & _ & Hr & H).
  rewrite Hu in Hr, H. cbn [fst snd] in *. destruct H as [_ Ht].
  split; [|split; [|exact Hr]].
  - destruct (DB_GetTenant_run id w2) as [(e & He & _) | (_ & ->)];
      [now apply Hf in He|].
    now rewrite Hdb, Ht, find_id_map_key, Hfind.
  - rewrite Ht. clear. induction (tenants (db w)) as [|x l IH]; [reflexivity|].
    cbn [map]. rewrite !filter_cons.
    destruct (Z.eqb_spec (t_ID x) id) as [E|N].
    + cbn [with_public_key t_ID].
      destruct (decide (t_ID x <> id)) as [N|_]; [now elim N | exact IH].
    + destruct (decide (t_ID x <> id)) as [_|E]; [now rewrite IH | now elim E].
Qed.

Lemma UpdateUserPublicKeys_db (username : string) (keys : list string) (w : World) :
  db (snd (SFTPGoClient_UpdateUserPublicKeys username keys w)) = db w.
Proof.
  unfold SFTPGoClient_UpdateUserPublicKeys, bind, ret.
  destruct (http_NewRequest_error _ _); [reflexivity|].
  match goal with |- context [SFTPGoClient_doAuth ?r w] =>
    pose proof (doAuth_db r w) as H;
    destruct (SFTPGoClient_doAuth r w) as [[resp|err] w1] end; cbn in *; [|exact H].
  now destruct (negb _).
Qed.

(** [UpdateTenantKeys] for a request that passed validation. *)
Lemma UpdateTenantKeys_run (path : string) (id : Z) (req : UpdateKeysRequest)
    (w : World) :
  parseID (TrimSuffix path "/keys") "/api/tenants/" = Ok id ->
  u_PublicKey req <> EmptyString ->
  Handlers_UpdateTenantKeys "PUT" path (Ok req) w =
  match DB_GetTenant id w with
  | (Err _, w1) => (HttpError (error_text "tenant not found") StatusNotFound, w1)
  | (Ok tenant, w1) =>
      match DB_UpdateTenantPublicKey id (u_PublicKey req) w1 with
      | (Some err, w2) => (writeError StatusInternalServerError err, w2)
      | (None, w2) =>
          match SFTPGoClient_UpdateUserPublicKeys (t_Username tenant)
                  [u_PublicKey req] w2 with
          | (Some err, w3) =>
              (writeError StatusBadGateway (wrap "db updated but sftpgo failed" err), w3)
          | (None, w3) => (writeJSON StatusOK (JObj [("status", JStr "updated")]), w3)
          end
      end
  end.
Proof.
  intros Hp Hk. unfold Handlers_UpdateTenantKeys.
  rewrite String.eqb_refl. cbn [negb]. cbn zeta. rewrite Hp.
  apply isEmpty_false in Hk. rewrite Hk. unfold bind, ret.
  destruct (DB_GetTenant id w) as [[tenant|e] w1]; [|reflexivity].
  destruct (DB_UpdateTenantPublicKey _ _ w1) as [[err|] w2]; [reflexivity|].
  now destruct (SFTPGoClient_UpdateUserPublicKeys _ _ w2) as [[err|] w3].
Qed.

(** X15: key rotation has its own split state.  When the external update fails
    after the registry was updated, the handler answers 502 with the message
    [db updated but sftpgo failed: ...], and the registry keeps the new key
    for the tenant. *)
Theorem UpdateTenantKeys_split_state
    (path : string) (id : Z) (req : UpdateKeysRequest) (tenant : Tenant) (err : error)
    (w w1 w2 w3 : World) :
  parseID (TrimSuffix path "/keys") "/api/tenants/" = Ok id ->
  u_PublicKey req <> EmptyString ->
  DB_GetTenant id w = (Ok tenant, w1) ->
  DB_UpdateTenantPublicKey id (u_PublicKey req) w1 = (None, w2) ->
  SFTPGoClient_UpdateUserPublicKeys (t_Username tenant) [u_PublicKey req] w2
    = (Some err, w3) ->
  Handlers_UpdateTenantKeys "PUT" path (Ok req) w
    = (writeError StatusBadGateway (wrap "db updated but sftpgo failed" err), w3)
  /\ find (fun t => t_ID t =? id) (tenants (db w3))
     = Some (with_public_key (u_PublicKey req) tenant).
Proof.
  intros Hp Hk Hg Hu Hx. split.
  - rewrite (UpdateTenantKeys_run path id req w Hp Hk), Hg, Hu, Hx. reflexivity.
  - pose proof (UpdateUserPublicKeys_db (t_Username tenant) [u_PublicKey req] w2) as H3.
    rewrite Hx in H3. cbn in H3. rewrite H3.
    pose proof (DB_UpdateTenantPublicKey_run id (u_PublicKey req) w1)
      as (_ & _ & _ & _ & _ & H).
    rewrite Hu in H. cbn [fst snd] in H. destruct H as [_ ->].
    rewrite find_id_map_key.
    pose proof (DB_GetTenant_frame id w) as (Hd & _).
    destruct (DB_GetTenant_run id w) as [(e & _ & H) | (_ & H)];
      rewrite Hg in H, Hd; cbn in H, Hd; [discriminate H|].
    rewrite Hd. destruct (find _ (tenants (db w))); [|discriminate H].
    now injection H as ->.
Qed.

(** X16: after a rotation answered 200 the authentication hook accepts, for
    that tenant, every offered key whose second field is the second field of
    the new key. *)
Theorem rotated_key_authenticates
    (path : string) (id : Z) (req : UpdateKeysRequest) (tenant : Tenant) (w : World)
    (cfg : Config) (areq : AuthRequest) (w2 : World) (material : string) :
  tenants_unique (db w) ->
  parseID (TrimSuffix path "/keys") "/api/tenants/" = Ok id ->
  In tenant (tenants (db w)) ->
  t_ID tenant = id ->
  fst (Handlers_UpdateTenantKeys "PUT" path (Ok req) w)
    = writeJSON StatusOK (JObj [("status", JStr "updated")]) ->
  db w2 = db (snd (Handlers_UpdateTenantKeys "PUT" path (Ok req) w)) ->
  (forall e, head (faults w2) <> Some (Some e)) ->
  a_Username areq = t_Username tenant ->
  a_PublicKey areq <> EmptyString ->
  key_material (u_PublicKey req) = Some material ->
  key_material (a_PublicKey areq) = Some material ->
  fst (Handlers_ExternalAuthHook cfg "POST" (Ok areq) w2)
  = writeJSON StatusOK (sftpgoUser cfg (with_public_key (u_PublicKey req) tenant)).
Proof.
  intros [Hun _] Hp Hin Hid Hresp Hdb Hf Hname Hak Hm1 Hm2.
  destruct (isEmpty (u_PublicKey req)) eqn:Ek.
  { revert Hresp. unfold Handlers_UpdateTenantKeys. rewrite String.eqb_refl.
    cbn [negb]. cbn zeta. rewrite Hp, Ek. discriminate. }
  apply isEmpty_false in Ek.
  rewrite (UpdateTenantKeys_run path id req w Hp Ek) in Hresp, Hdb.
  pose proof (DB_GetTenant_frame id w) as (Hd1 & _).
  destruct (DB_GetTenant id w) as [[found|e] w1]; [|discriminate Hresp].
  pose proof (DB_UpdateTenantPublicKey_run id (u_PublicKey req) w1)
    as (_ & _ & _ & _ & _ & H).
  destruct (DB_UpdateTenantPublicKey _ _ w1) as [[err|] w3];
    [cbv [fst writeError writeJSON StatusOK StatusInternalServerError] in Hresp;
     discriminate Hresp|].
  pose proof (UpdateUserPublicKeys_db (t_Username found) [u_PublicKey req] w3) as Hd3.
  destruct (SFTPGoClient_UpdateUserPublicKeys _ _ w3) as [[err|] w4];
    [cbv [fst writeError writeJSON StatusOK StatusBadGateway] in Hresp;
     discriminate Hresp|].
  cbn [fst snd] in *. destruct H as [_ Ht].
  rewrite ExternalAuthHook_run, Hname.
  destruct (DB_GetTenantByUsername_run (t_Username tenant) w2)
    as [(e & He & _) | (_ & Hg)]; [now apply Hf in He|].
  rewrite Hdb, Hd3, Ht, find_username_map_key, Hd1 in Hg.
  assert (find (fun t => String.eqb (t_Username t) (t_Username tenant)) (tenants (db w))
          = Some tenant) as Hfu.
  { destruct (find _ (tenants (db w))) as [x|] eqn:Ex.
    - apply find_some in Ex as [Hx Hu]. apply String.eqb_eq in Hu.
      now rewrite (NoDup_fmap_In_inj t_Username _ x tenant Hun Hx Hin Hu).
    - apply (find_none _ _ Ex) in Hin. now rewrite String.eqb_refl in Hin. }
  rewrite Hfu in Hg. cbn in Hg. apply Z.eqb_eq in Hid as Hid'. rewrite Hid' in Hg.
  destruct (DB_GetTenantByUsername (t_Username tenant) w2) as [[r|e] w5];
    cbn in Hg; [|discriminate Hg]. injection Hg as ->.
  assert (key_check areq (with_public_key (u_PublicKey req) tenant) = true) as ->.
  { apply key_check_spec. unfold public_key_matches. cbn. eauto. }
  reflexivity.
Qed.

(** X17: [GET /api/tenants/{id}] answers 200 with the tenant exactly when the
    storage engine answers and a row has that id; a missing row and a failing
    storage engine alike are answered 404 [tenant not found].  The registry
    is not changed and nothing is sent. *)
Theorem GetTenant_answers (path : string) (id : Z) (w : World) :
  parseID path "/api/tenants/" = Ok id ->
  db (snd (Handlers_GetTenant "GET" path w)) = db w
  /\ sent (snd (Handlers_GetTenant "GET" path w)) = sent w
  /\ ((forall e, head (faults w) <> Some (Some e)) ->
      fst (Handlers_GetTenant "GET" path w)
      = match find (fun t => t_ID t =? id) (tenants (db w)) with
        | Some t => writeJSON StatusOK (Tenant_json t)
        | None => HttpError (error_text "tenant not found") StatusNotFound
        end)
  /\ ((exists e, head (faults w) = Some (Some e)) ->
      fst (Handlers_GetTenant "GET" path w)
      = HttpError (error_text "tenant not found") StatusNotFound).
Proof.
  intros Hp. unfold Handlers_GetTenant. rewrite String.eqb_refl, Hp. cbn [negb].
  unfold bind, ret.
  pose proof (DB_GetTenant_frame id w) as (Hd & _ & Hs & _).
  destruct (DB_GetTenant_run id w) as [(e & He & H) | (Hf & H)];
    destruct (DB_GetTenant id w) as [[t|e'] w1]; cbn [fst snd] in *;
    try discriminate H; (split; [exact Hd|]); (split; [exact Hs|]); split.
  - intros Hn. now apply Hn in He.
  - reflexivity.
  - intros _. destruct (find _ (tenants (db w))); now inversion H.
  - intros [e He]. now apply Hf in He.
  - intros _. destruct (find _ (tenants (db w))); [discriminate H | reflexivity].
  - reflexivity.
Qed.

End Rotation.

(** * Listing *)

Section Listing.
Context `{RT : Runtime} `{UR : !UserRuntime}.

Lemma insert_by_Permutation {A : Type} (key : A -> Z) (x : A) (l : list A) :
  Permutation (insert_by key x l) (x :: l).
Proof.
  induction l as [|y l IH]; [reflexivity|]. cbn.
  destruct (key x <=? key y); [reflexivity|].
  rewrite IH. apply perm_swap.
Qed.

Lemma ORDER_BY_Permutation {A : Type} (key : A -> Z) (l : list A) :
  Permutation (ORDER_BY key l) l.
Proof.
  induction l as [|x l IH]; [reflexivity|]. cbn.
  rewrite insert_by_Permutation. now constructor.
Qed.

Lemma insert_by_ascending {A : Type} (key : A -> Z) (x : A) (l : list A) :
  ascending key l -> ascending key (insert_by key x l).
Proof.
  unfold ascending. induction l as [|y l IH]; intros Hl; cbn.
  - constructor; constructor.
  - destruct (Z.leb_spec (key x) (key y)) as [Hxy|Hxy].
    + constructor; [exact Hl|]. constructor; [exact Hxy|].
      apply StronglySorted_inv in Hl as [_ Hy].
      eapply Forall_impl; [exact Hy|]. cbn. intros a Ha. lia.
    + apply StronglySorted_inv in Hl as [Hl Hy]. constructor; [now apply IH|].
      rewrite (insert_by_Permutation key x l). constructor; [lia | exact Hy].
Qed.

Lemma ORDER_BY_ascending {A : Type} (key : A -> Z) (l : list A) :
  ascending key (ORDER_BY key l).
Proof.
  induction l as [|x l IH]; [constructor|]. cbn. now apply insert_by_ascending.
Qed.

(** The loop of [append]s yields a non-nil slice exactly for a non-empty
    result. *)
Lemma collect_spec {A : Type} (rows : list A) :
  collect rows = match rows with [] => None | _ => Some rows end.
Proof.
  unfold collect.
  assert (forall (l acc : list A), fold_left slice_append l (Some acc) = Some (acc ++ l))
    as H.
  { induction l as [|x l IH]; intros acc; [cbn; now rewrite app_nil_r|].
    cbn [fold_left]. change (slice_append (Some acc) x) with (Some (acc ++ [x])).
    now rewrite IH, <- app_assoc. }
  destruct rows as [|x rows]; [reflexivity|].
  cbn [fold_left]. change (slice_append None x) with (Some [x]). apply H.
Qed.

Lemma storage_works_head (w : World) :
  storage_works w -> forall e, head (faults w) <> Some (Some e).
Proof.
  unfold storage_works. destruct (faults w) as [|f fs]; [discriminate|].
  intros H e. apply Forall_cons in H as [-> _]. discriminate.
Qed.

Lemma storage_works_conn_Exec {A : Type} (stmt : Z -> DB -> Result A * DB) (w : World) :
  storage_works w -> storage_works (snd (conn_Exec stmt w)).
Proof.
  unfold storage_works, conn_Exec. intros H.
  destruct (faults w) as [|[e|] rest] eqn:Ef.
  - destruct (stmt _ _). cbn. constructor.
  - apply Forall_cons in H as [H _]. discriminate H.
  - destruct (stmt _ _). cbn. now apply Forall_cons in H as [_ H].
Qed.

(** X18: [GET /api/tenants] answers, when the storage engine works, with a
    JSON array (never [null], also for an empty registry) that holds every
    tenant exactly once, in ascending order of id; the registry is not
    changed.  When the storage engine refuses the query the answer is 500. *)
Theorem ListTenants_answers (w : World) :
  db (snd (Handlers_ListTenants "GET" w)) = db w
  /\ (storage_works w ->
      exists l,
        fst (Handlers_ListTenants "GET" w) = writeJSON StatusOK (JArr (map Tenant_json l))
        /\ Permutation l (tenants (db w))
        /\ ascending t_ID l)
  /\ (forall e, head (faults w) = Some (Some e) ->
      fst (Handlers_ListTenants "GET" w)
      = writeError StatusInternalServerError (wrap "list tenants" e)).
Proof.
  unfold Handlers_ListTenants, DB_ListTenants, bind, ret.
  rewrite String.eqb_refl. cbn [negb].
  destruct (conn_Exec_result sql_select_tenants w) as [(e & He & ->) | (Hf & ->)];
    cbn [fst snd sql_select_tenants].
  - split; [reflexivity|]. split.
    + intros Hw. now apply (storage_works_head w Hw) in He.
    + intros e' He'. congruence.
  - split; [now destruct (db w)|]. split.
    + intros _. exists (ORDER_BY t_ID (tenants (db w))).
      split; [|split; [apply ORDER_BY_Permutation | apply ORDER_BY_ascending]].
      rewrite collect_spec. now destruct (ORDER_BY t_ID (tenants (db w))).
    + intros e He. now apply Hf in He.
Qed.

Lemma DB_GetTenant_storage (id : Z) (w : World) :
  storage_works w -> storage_works (snd (DB_GetTenant id w)).
Proof.
  intros H. unfold DB_GetTenant, bind, ret.
  pose proof (storage_works_conn_Exec (sql_select_tenant id) w H) as H1.
  now destruct (conn_Exec (sql_select_tenant id) w) as [[t|e] w1].
Qed.

Lemma ListTenantRecords_run (path : string) (id : Z) (w : World) :
  parseID (TrimSuffix path "/records") "/api/tenants/" = Ok id ->
  Handlers_ListTenantRecords "GET" path w =
  match DB_GetTenant id w with
  | (Err _, w1) =>
      (Answered (HttpError (error_text "tenant not found") StatusNotFound), w1)
  | (Ok tenant, w1) =>
      match DB_ListRecords (t_TenantID tenant) w1 with
      | (Err err, w2) => (Answered (writeError StatusInternalServerError err), w2)
      | (Ok records, w2) =>
          (Records StatusOK match records with None => Some [] | Some _ => records end,
           w2)
      end
  end.
Proof.
  intros Hp. unfold Handlers_ListTenantRecords.
  rewrite String.eqb_refl. cbn [negb]. cbn zeta. rewrite Hp. unfold bind, ret.
  destruct (DB_GetTenant id w) as [[tenant|e] w1]; [|reflexivity].
  now destruct (DB_ListRecords (t_TenantID tenant) w1) as [[records|err] w2].
Qed.

Lemma DB_ListRecords_run (tenantID : string) (w : World) :
  db (snd (DB_ListRecords tenantID w)) = db w
  /\ sent (snd (DB_ListRecords tenantID w)) = sent w
  /\ ((forall e, head (faults w) <> Some (Some e)) ->
      fst (DB_ListRecords tenantID w)
      = Ok (collect (ORDER_BY r_ID
                       (List.filter (fun r => String.eqb (r_TenantID r) tenantID)
                          (records (db w)))))).
Proof.
  unfold DB_ListRecords, bind, ret.
  destruct (conn_Exec_result (sql_select_records tenantID) w)
    as [(e & He & ->) | (_ & ->)]; cbn [fst snd sql_select_records].
  - split; [reflexivity|]. split; [reflexivity|]. intros Hf. now apply Hf in He.
  - split; [now destruct (db w)|]. split; reflexivity.
Qed.

(** X19: [GET /api/tenants/{id}/records] answers, for a tenant of the registry
    and a working storage engine, with a non-nil slice that holds exactly the
    records whose tenant token is that tenant's, in ascending order of id: no
    record of another tenant is ever listed.  The registry is not changed. *)
Theorem ListTenantRecords_answers (path : string) (id : Z) (tenant : Tenant) (w : World) :
  parseID (TrimSuffix path "/records") "/api/tenants/" = Ok id ->
  find (fun t => t_ID t =? id) (tenants (db w)) = Some tenant ->
  storage_works w ->
  db (snd (Handlers_ListTenantRecords "GET" path w)) = db w
  /\ exists l,
       fst (Handlers_ListTenantRecords "GET" path w) = Records StatusOK (Some l)
       /\ Permutation l (List.filter (fun r => String.eqb (r_TenantID r) (t_TenantID tenant))
                           (records (db w)))
       /\ ascending r_ID l
       /\ Forall (fun r => r_TenantID r = t_TenantID tenant) l.
Proof.
  intros Hp Hfind Hw. rewrite (ListTenantRecords_run path id w Hp).
  pose proof (DB_GetTenant_frame id w) as (Hd & _).
  pose proof (DB_GetTenant_storage id w Hw) as Hw1.
  destruct (DB_GetTenant_run id w) as [(e & He & _) | (_ & H)];
    [now apply (storage_works_head w Hw) in He|].
  rewrite Hfind in H.
  destruct (DB_GetTenant id w) as [[t|e] w1]; cbn [fst snd] in *; [|discriminate H].
  injection H as ->.
  pose proof (DB_ListRecords_run (t_TenantID tenant) w1) as (Hd2 & _ & Hl).
  specialize (Hl (storage_works_head w1 Hw1)). rewrite Hd in Hl.
  destruct (DB_ListRecords (t_TenantID tenant) w1) as [[records|err] w2];
    cbn [fst snd] in *; [|discriminate Hl].
  injection Hl as ->.
  set (rows := List.filter _ (records (db w))).
  split; [congruence|].
  exists (ORDER_BY r_ID rows). split; [|split; [|split]].
  - rewrite collect_spec. now destruct (ORDER_BY r_ID rows).
  - apply ORDER_BY_Permutation.
  - apply ORDER_BY_ascending.
  - rewrite (ORDER_BY_Permutation r_ID rows). apply List.Forall_forall.
    intros r Hr. apply filter_In in Hr as [_ Hr]. now apply String.eqb_eq.
Qed.

End Listing.

(** * Isolation of tenants *)

Section Isolation.
Context `{RT : Runtime} `{UR : !UserRuntime}.

Lemma sql_upsert_record_others (tenantID recordKey title description category : string)
    (value : float64) (ts : Z) (d : DB) (p : RecordRow -> bool) :
  (forall r, same_key tenantID recordKey r = true -> p r = false) ->
  List.filter p (records (snd (sql_upsert_record tenantID recordKey title description
                                 category value ts d)))
  = List.filter p (records d).
Proof.
  intros Hp. unfold sql_upsert_record.
  destruct (existsb _ (records d)); cbn [snd records].
  - induction (records d) as [|r l IH]; [reflexivity|]. cbn [map List.filter].
    destruct (same_key tenantID recordKey r) eqn:Er.
    + rewrite (Hp r Er), Hp; [exact IH|]. unfold same_key in *. exact Er.
    + now rewrite IH.
  - rewrite List.filter_app. cbn [List.filter]. rewrite Hp, app_nil_r; [reflexivity|].
    unfold same_key. cbn. now rewrite !String.eqb_refl.
Qed.

Lemma DB_UpsertRecord_frame (tenantID recordKey title description category : string)
    (value : float64) (w : World) (p : RecordRow -> bool) :
  (forall r, same_key tenantID recordKey r = true -> p r = false) ->
  tenants (db (snd (DB_UpsertRecord tenantID recordKey title description category
                      value w))) = tenants (db w)
  /\ sftpgo (snd (DB_UpsertRecord tenantID recordKey title description category
                    value w)) = sftpgo w
  /\ sent (snd (DB_UpsertRecord tenantID recordKey title description category
                  value w)) = sent w
  /\ List.filter p (records (db (snd (DB_UpsertRecord tenantID recordKey title
                                        description category value w))))
     = List.filter p (records (db w)).
Proof.
  intros Hp. unfold DB_UpsertRecord, bind, ret.
  pose proof (conn_Exec_frame
                (sql_upsert_record tenantID recordKey title description category value) w)
    as (F1 & _ & _ & _ & F5 & _).
  destruct (conn_Exec_result
              (sql_upsert_record tenantID recordKey title description category value) w)
    as [(e & _ & E) | (_ & E)]; rewrite E in *; cbn [fst snd] in *.
  - now cbn.
  - destruct (fst _); cbn [fst snd];
      (split; [cbn; apply upsert_tenants|]); (split; [exact F1|]);
      (split; [exact F5|]); cbn; now apply sql_upsert_record_others.
Qed.

(** X20: an upsert changes nothing but the record of its own (tenant token,
    record key): the tenants table, the records of every other tenant and
    every other record of the same tenant are as before. *)
Theorem upsert_touches_one_record
    (tenantID recordKey title description category : string) (value : float64)
    (w : World) :
  tenants (db (snd (DB_UpsertRecord tenantID recordKey title description category
                      value w))) = tenants (db w)
  /\ (forall other,
        other <> tenantID ->
        records_of other (db (snd (DB_UpsertRecord tenantID recordKey title description
                                     category value w)))
        = records_of other (db w))
  /\ (forall otherKey,
        otherKey <> recordKey ->
        List.filter (same_key tenantID otherKey)
          (records (db (snd (DB_UpsertRecord tenantID recordKey title description
                               category value w))))
        = List.filter (same_key tenantID otherKey) (records (db w))).
Proof.
  split; [|split].
  - apply (DB_UpsertRecord_frame _ _ _ _ _ _ w (fun _ => false)). reflexivity.
  - intros other Ho. unfold records_of.
    apply (DB_UpsertRecord_frame _ _ _ _ _ _ w
             (fun r => String.eqb (r_TenantID r) other)).
    intros r Hr. apply same_key_spec in Hr. injection Hr as -> _.
    now apply String.eqb_neq.
  - intros otherKey Ho.
    apply (DB_UpsertRecord_frame _ _ _ _ _ _ w (same_key tenantID otherKey)).
    intros r Hr. apply same_key_spec in Hr. injection Hr as Ht Hk.
    unfold same_key. rewrite Hk. apply andb_false_iff. right.
    apply String.eqb_neq. congruence.
Qed.

Lemma processRows_confined (colIndex : gmap string nat) (fieldsPerRecord : nat)
    (tenantID : string) (stream : list CsvRead) (count : Z) (w : World)
    (p : RecordRow -> bool) :
  (forall r, r_TenantID r = tenantID -> p r = false) ->
  tenants (db (snd (processRows colIndex fieldsPerRecord tenantID stream count w)))
  = tenants (db w)
  /\ sftpgo (snd (processRows colIndex fieldsPerRecord tenantID stream count w))
     = sftpgo w
  /\ sent (snd (processRows colIndex fieldsPerRecord tenantID stream count w)) = sent w
  /\ List.filter p
       (records (db (snd (processRows colIndex fieldsPerRecord tenantID stream count w))))
     = List.filter p (records (db w)).
Proof.
  intros Hp. revert count w.
  induction stream as [|rd rest IH]; intros count w; cbn; [auto|].
  destruct (csv_Read fieldsPerRecord rd) as [row|e]; [|cbn; auto].
  destruct (row_cells colIndex row)
    as [[[[[recordKey title] description] category] valueText]|]; [|cbn; auto].
  destruct (strconv_ParseFloat valueText) as [value|e]; [|apply IH].
  unfold bind.
  pose proof (DB_UpsertRecord_frame tenantID recordKey title description category
                value w p) as (F1 & F2 & F3 & F4).
  { intros r Hr. apply same_key_spec in Hr. injection Hr as Ht _. now apply Hp. }
  destruct (DB_UpsertRecord _ _ _ _ _ _ w) as [[e|] w1]; cbn [fst snd] in *.
  - destruct (IH count w1) as (I1 & I2 & I3 & I4).
    rewrite I1, I2, I3, I4. auto.
  - destruct (IH (count + 1) w1) as (I1 & I2 & I3 & I4).
    rewrite I1, I2, I3, I4. auto.
Qed.

(** X5: ingestion is confined to the uploading tenant.  Whatever the event and
    the object, [ProcessUploadEvent] leaves the tenants table, the client's
    token cache and the HTTP trace alone, and changes no record of a tenant
    token that does not belong to the event's username. *)
Theorem ProcessUploadEvent_confined
    (bucket : string) (event : gmap string JSON) (w : World) :
  tenants (db (snd (Worker_ProcessUploadEvent bucket event w))) = tenants (db w)
  /\ sftpgo (snd (Worker_ProcessUploadEvent bucket event w)) = sftpgo w
  /\ sent (snd (Worker_ProcessUploadEvent bucket event w)) = sent w
  /\ forall other,
       (forall t, In t (tenants (db w)) ->
                  t_Username t = event_string event "username" ->
                  t_TenantID t <> other) ->
       records_of other (db (snd (Worker_ProcessUploadEvent bucket event w)))
       = records_of other (db w).
Proof.
  assert (forall w' : World,
             db w' = db w -> sftpgo w' = sftpgo w -> sent w' = sent w ->
             tenants (db w') = tenants (db w) /\ sftpgo w' = sftpgo w
             /\ sent w' = sent w
             /\ forall other,
                  (forall t, In t (tenants (db w)) ->
                             t_Username t = event_string event "username" ->
                             t_TenantID t <> other) ->
                  records_of other (db w') = records_of other (db w)) as Hsame.
  { intros w' -> -> ->. auto. }
  unfold Worker_ProcessUploadEvent.
  destruct (isEmpty _ || isEmpty _); [now apply Hsame|].
  destruct (negb (HasSuffix _ _)); [now apply Hsame|].
  unfold bind.
  pose proof (GetTenantByUsername_frame (event_string event "username") w) as (Fd & _).
  pose proof (DB_GetTenantByUsername_run (event_string event "username") w) as Hrun.
  assert (sftpgo (snd (DB_GetTenantByUsername (event_string event "username") w))
          = sftpgo w
          /\ sent (snd (DB_GetTenantByUsername (event_string event "username") w))
             = sent w) as [F1 F5].
  { unfold DB_GetTenantByUsername, bind, ret.
    pose proof (conn_Exec_frame
                  (sql_select_tenant_by_username (event_string event "username")) w)
      as (F1 & _ & _ & _ & F5 & _).
    now destruct (conn_Exec _ w) as [[t|e] w1]. }
  destruct (DB_GetTenantByUsername (event_string event "username") w)
    as [[tenant|e'] w1]; cbn [fst snd] in *; [|now apply Hsame].
  assert (In tenant (tenants (db w))
          /\ t_Username tenant = event_string event "username") as [Hin Hname].
  { destruct Hrun as [(e & _ & H) | (_ & H)]; [discriminate H|].
    destruct (find _ (tenants (db w))) as [t|] eqn:Ef; [|discriminate H].
    injection H as ->. apply find_some in Ef as [Hin Hn].
    split; [exact Hin | now apply String.eqb_eq]. }
  unfold minio_GetObject.
  destruct (objects w1 !! _) as [[stream|e]|]; cbn [fst snd]; try now apply Hsame.
  destruct stream as [|[header|e] rows]; try now apply Hsame.
  destruct (negb (forallb _ required_columns)); [now apply Hsame|].
  destruct (processRows_confined (build_colIndex header 0 ∅) (length header)
              (t_TenantID tenant) rows 0 w1 (fun _ => false)) as (I1 & I2 & I3 & _);
    [reflexivity|].
  rewrite I1, I2, I3, Fd. repeat split; auto.
  intros other Ho. unfold records_of.
  destruct (processRows_confined (build_colIndex header 0 ∅) (length header)
              (t_TenantID tenant) rows 0 w1
              (fun r => String.eqb (r_TenantID r) other)) as (_ & _ & _ & I4).
  { intros r ->. apply String.eqb_neq. now apply Ho. }
  now rewrite I4, Fd.
Qed.

(** X30: an upload event is dropped before anything is read from the object
    store when it lacks the username or the path, when the path does not end
    in [.csv] (in any letter case), or when no tenant has the username: the
    worker returns and the registry is as it was. *)
Theorem upload_event_dropped (bucket : string) (event : gmap string JSON) (w : World) :
  event_string event "username" = EmptyString
  \/ event_string event "virtual_path" = EmptyString
  \/ HasSuffix (ToLower (event_string event "virtual_path")) ".csv" = false
  \/ find (fun t => String.eqb (t_Username t) (event_string event "username"))
          (tenants (db w)) = None ->
  fst (Worker_ProcessUploadEvent bucket event w) = Returned
  /\ db (snd (Worker_ProcessUploadEvent bucket event w)) = db w.
Proof.
  intros H. unfold Worker_ProcessUploadEvent.
  destruct (isEmpty (event_string event "username")) eqn:Eu; [now cbn|].
  destruct (isEmpty (event_string event "virtual_path")) eqn:Ev; [now cbn|].
  cbn [orb].
  destruct (HasSuffix _ ".csv") eqn:Ec; cbn [negb]; [|now cbn].
  apply isEmpty_false in Eu, Ev.
  destruct H as [H|[H|[H|H]]]; [now elim Eu | now elim Ev | discriminate H |].
  unfold bind.
  pose proof (GetTenantByUsername_frame (event_string event "username") w) as (Fd & _).
  destruct (DB_GetTenantByUsername_run (event_string event "username") w)
    as [(e & _ & Hr) | (_ & Hr)]; rewrite ?H in Hr;
    destruct (DB_GetTenantByUsername (event_string event "username") w) as [[t|e'] w1];
    cbn [fst snd] in *; try discriminate Hr; now split.
Qed.

End Isolation.

(** * API keys *)

Section APIKeys.
Context `{RT : Runtime} `{UR : !UserRuntime}.

Lemma conn_Exec_keys_result {A : Type}
    (stmt : Z -> list APIKey -> Result A * list APIKey) (keys : list APIKey) (w : World) :
  (exists e, head (faults w) = Some (Some e)
             /\ fst (conn_Exec_keys stmt keys w) = (Err e, keys))
  \/ ((forall e, head (faults w) <> Some (Some e))
      /\ fst (conn_Exec_keys stmt keys w) = stmt (CURRENT_TIMESTAMP w) keys).
Proof.
  unfold conn_Exec_keys.
  destruct (faults w) as [|[e|] rest]; cbn.
  - right. split; [discriminate | reflexivity].
  - left. eauto.
  - right. split; [discriminate | reflexivity].
Qed.

Lemma DB_ValidateAPIKey_run (key : string) (keys : list APIKey) (w : World) :
  (fst (DB_ValidateAPIKey key keys w) = None ->
   In key (map k_Key keys) /\ forall e, head (faults w) <> Some (Some e))
  /\ (In key (map k_Key keys) ->
      (forall e, head (faults w) <> Some (Some e)) ->
      fst (DB_ValidateAPIKey key keys w) = None).
Proof.
  unfold DB_ValidateAPIKey, bind, ret.
  destruct (conn_Exec_keys_result (sql_select_api_key key) keys w)
    as [(e & He & H) | (Hf & H)];
    destruct (conn_Exec_keys (sql_select_api_key key) keys w) as [[r keys'] w1];
    cbn [fst snd] in H; unfold sql_select_api_key in H.
  - injection H as -> ->. cbn. split; [discriminate|].
    intros _ Hn. now apply Hn in He.
  - destruct (find _ keys) as [k|] eqn:Ef; injection H as -> ->; cbn.
    + apply find_some in Ef as [Hin Hk]. apply String.eqb_eq in Hk.
      split; [|reflexivity]. intros _. split; [|exact Hf].
      apply in_map_iff. now exists k.
    + split; [discriminate|]. intros Hin _. apply in_map_iff in Hin as (k & Hk & Hin).
      apply (find_none _ _ Ef) in Hin. rewrite Hk, String.eqb_refl in Hin.
      discriminate Hin.
Qed.

(** X21: [ValidateAPIKey] accepts a key only if it is the key of a row of
    [api_keys], and accepts every such key when the storage engine answers;
    a storage failure is reported as an invalid key. *)
Theorem ValidateAPIKey_accepts_stored_keys (key : string) (keys : list APIKey) (w : World) :
  (fst (DB_ValidateAPIKey key keys w) = None -> In key (map k_Key keys))
  /\ ((forall e, head (faults w) <> Some (Some e)) ->
      (fst (DB_ValidateAPIKey key keys w) = None <-> In key (map k_Key keys)))
  /\ (forall e, head (faults w) = Some (Some e) ->
      fst (DB_ValidateAPIKey key keys w) = Some (wrap "invalid api key" e)).
Proof.
  destruct (DB_ValidateAPIKey_run key keys w) as [H1 H2].
  split; [intros H; now apply H1|]. split.
  - intros Hf. split; [intros H; now apply H1 | intros H; now apply H2].
  - intros e He. unfold DB_ValidateAPIKey, bind, ret, conn_Exec_keys.
    destruct (faults w) as [|[e'|] rest]; cbn in He; try discriminate He.
    now injection He as ->.
Qed.

(** X22: a key [POST /api/keys] answers with (201) is 64 characters of
    [0-9a-f], carries the label of the request, was not in [api_keys] before,
    is the one row added to it, and is accepted by [ValidateAPIKey] from then
    on. *)
Theorem created_key_validates
    (Label : string) (keys : list APIKey) (w : World) (v : JSON) :
  fst (fst (Handlers_CreateAPIKey "POST" Label keys w)) = writeJSON StatusCreated v ->
  exists k stored,
    v = APIKey_json k
    /\ snd (fst (Handlers_CreateAPIKey "POST" Label keys w))
       = keys ++ [mkAPIKey (k_ID k) (k_Key k) (k_Label k) stored]
    /\ String.length (k_Key k) = 64%nat /\ allHex (k_Key k) = true
    /\ k_Label k = Label
    /\ ~ In (k_Key k) (map k_Key keys)
    /\ forall w2,
         (forall e, head (faults w2) <> Some (Some e)) ->
         fst (DB_ValidateAPIKey (k_Key k)
                (snd (fst (Handlers_CreateAPIKey "POST" Label keys w))) w2) = None.
Proof.
  destruct (Handlers_CreateAPIKey "POST" Label keys w) as [[resp keys'] w'] eqn:E.
  cbn [fst snd]. intros ->. revert E.
  unfold Handlers_CreateAPIKey. rewrite String.eqb_refl. cbn [negb].
  unfold DB_CreateAPIKey, bind, ret, time_Now.
  destruct (rand_Read 32 w) as [[b|e] w1] eqn:Er;
    [|cbv [writeError writeJSON StatusCreated StatusInternalServerError]; discriminate].
  apply rand_Read_length in Er.
  destruct (hex_EncodeToString_shape b) as [Hlen Hhex]. rewrite Er in Hlen.
  destruct (conn_Exec_keys_result (sql_insert_api_key (hex_EncodeToString b) Label)
              keys w1) as [(e & _ & H) | (_ & H)];
    destruct (conn_Exec_keys _ keys w1) as [[r keys2] w2]; cbn [fst snd] in H.
  - injection H as -> ->.
    cbv [writeError writeJSON StatusCreated StatusInternalServerError]. discriminate.
  - unfold sql_insert_api_key in H.
    destruct (existsb _ keys) eqn:Ex; injection H as -> ->.
    + cbv [writeError writeJSON StatusCreated StatusInternalServerError]. discriminate.
    + intros [= <- <- _].
      exists (mkAPIKey (next_rowid k_ID keys) (hex_EncodeToString b) Label (now w2)),
             (CURRENT_TIMESTAMP w1).
      cbn [k_ID k_Key k_Label].
      split; [reflexivity|]. split; [reflexivity|]. split; [exact Hlen|].
      split; [exact Hhex|]. split; [reflexivity|]. split.
      * intros Hin. apply in_map_iff in Hin as (k & Hk & Hin).
        apply (existsb_false_In _ _ Ex) in Hin. rewrite Hk, String.eqb_refl in Hin.
        discriminate Hin.
      * intros w3 Hf. apply DB_ValidateAPIKey_run; [|exact Hf].
        rewrite map_app. apply in_or_app. right. now left.
Qed.

End APIKeys.

(** * Paths and ids *)

Section Paths.
Context `{RT : Runtime} `{UR : !UserRuntime}.

Lemma decimal_of_uint_acc (d : Decimal.uint) (acc : positive) :
  decimal (NilEmpty.string_of_uint d) (Z.pos acc)
  = Some (Z.pos (Pos.of_uint_acc d acc)).
Proof.
  revert acc. induction d; intros acc; cbn [NilEmpty.string_of_uint Pos.of_uint_acc];
    [reflexivity| | | | | | | | | |];
    cbn [decimal]; cbv [byte N_of_ascii N_of_digits]; cbn [Z.of_N andb Z.leb Z.compare
      Pos.compare Pos.compare_cont]; cbv iota beta;
    rewrite <- IHd; f_equal; lia.
Qed.

Lemma decimal_of_uint (d : Decimal.uint) :
  decimal (NilEmpty.string_of_uint d) 0 = Some (Z.of_N (Pos.of_uint d)).
Proof.
  induction d; cbn [NilEmpty.string_of_uint Pos.of_uint]; [reflexivity|exact IHd| | | | | | | | |];
    cbn [decimal]; cbv [byte N_of_ascii N_of_digits]; cbn [Z.of_N andb Z.leb Z.compare
      Pos.compare Pos.compare_cont]; cbv iota beta;
    cbn [Z.mul Z.add Z.sub Z.opp Z.pos_sub Pos.pred_double Pos.succ Pos.add Z.double
         Z.succ_double Z.pred_double];
    apply decimal_of_uint_acc.
Qed.

(** The text of a non-empty numeral: decimal digits only. *)
Lemma string_of_uint_digits (d : Decimal.uint) :
  d <> Decimal.Nil ->
  isEmpty (NilEmpty.string_of_uint d) = false
  /\ free_of "/" (NilEmpty.string_of_uint d) = true
  /\ match NilEmpty.string_of_uint d with
     | String c _ => (byte c =? 43) || (byte c =? 45) = false
     | EmptyString => True
     end.
Proof.
  intros Hd.
  assert (free_of "/" (NilEmpty.string_of_uint d) = true) as Hfree.
  { clear Hd. induction d; cbn [NilEmpty.string_of_uint free_of]; [reflexivity|..];
      rewrite IHd; reflexivity. }
  split; [|split; [exact Hfree|]]; destruct d; try reflexivity; try exact I; now elim Hd.
Qed.

Lemma fmt_d_free_of_slash (z : Z) : free_of "/" (fmt_d z) = true.
Proof.
  unfold fmt_d.
  destruct z as [|p|p]; [reflexivity| |];
    cbn [Z.to_int NilZero.string_of_int];
    pose proof (Unsigned.to_uint_nonnil p) as Hn;
    destruct (string_of_uint_digits (Pos.to_uint p) Hn) as (_ & Hf & _);
    unfold NilZero.string_of_uint;
    destruct (Pos.to_uint p) eqn:E; try (now elim Hn); try exact Hf.
  all: cbn [free_of]; rewrite Hf; reflexivity.
Qed.

(** [strconv.ParseInt] reads back what [%d] wrote, for every [int64]. *)
Lemma ParseInt_fmt_d (z : Z) :
  - 2 ^ 63 <= z <= 2 ^ 63 - 1 -> strconv_ParseInt (fmt_d z) = Ok z.
Proof.
  intros Hz. unfold fmt_d.
  destruct z as [|p|p]; [reflexivity| |]; cbn [Z.to_int NilZero.string_of_int];
    pose proof (Unsigned.to_uint_nonnil p) as Hn;
    destruct (string_of_uint_digits (Pos.to_uint p) Hn) as (He & _ & Hsign);
    pose proof (decimal_of_uint (Pos.to_uint p)) as Hdec;
    rewrite DecimalPos.Unsigned.of_to in Hdec; cbn [Z.of_N] in Hdec;
    assert (NilZero.string_of_uint (Pos.to_uint p)
            = NilEmpty.string_of_uint (Pos.to_uint p)) as ->
      by (unfold NilZero.string_of_uint; destruct (Pos.to_uint p); [now elim Hn|..];
          reflexivity).
  - unfold strconv_ParseInt.
    destruct (NilEmpty.string_of_uint (Pos.to_uint p)) as [|c s'] eqn:Es;
      [discriminate He|].
    apply orb_false_iff in Hsign as [H43 H45]. rewrite H43, H45. cbn [orb].
    rewrite He, Hdec.
    destruct (Z.leb_spec (- 2 ^ 63) (Z.pos p)); [|lia].
    destruct (Z.leb_spec (Z.pos p) (2 ^ 63 - 1)); [reflexivity | lia].
  - unfold strconv_ParseInt.
    change (byte "-" =? 45) with true. rewrite orb_true_r.
    rewrite He, Hdec.
    destruct (Z.leb_spec (- 2 ^ 63) (- Z.pos p)); [|lia].
    destruct (Z.leb_spec (- Z.pos p) (2 ^ 63 - 1)); [reflexivity | lia].
Qed.

Lemma HasPrefix_append (prefix s : string) : HasPrefix (prefix +:+ s) prefix = true.
Proof.
  induction prefix as [|c p IH]; [rewrite append_nil_l; now destruct s|].
  rewrite append_cons. cbn. now rewrite Z.eqb_refl, IH.
Qed.

Lemma TrimPrefix_append (prefix s : string) : TrimPrefix (prefix +:+ s) prefix = s.
Proof.
  unfold TrimPrefix.
  rewrite HasPrefix_append.
  induction prefix as [|c p IH]; [reflexivity|]. rewrite append_cons. exact IH.
Qed.

Lemma Split_first_append (s rest : string) :
  free_of "/" s = true ->
  rest = EmptyString \/ HasPrefix rest "/" = true ->
  Split_first (s +:+ rest) "/" = s.
Proof.
  intros Hs Hrest. induction s as [|c s IH].
  - rewrite append_nil_l. destruct Hrest as [->|H]; [reflexivity|].
    destruct rest as [|c r]; [reflexivity|]. cbn [HasPrefix Split_first] in *.
    apply andb_true_iff in H as [H _]. rewrite Z.eqb_sym in H. now rewrite H.
  - cbn [free_of] in Hs. apply andb_true_iff in Hs as [Hc Hs].
    rewrite append_cons. cbn [Split_first].
    apply negb_true_iff in Hc. rewrite Hc. f_equal. now apply IH.
Qed.

Lemma length_append (a b : string) :
  String.length (a +:+ b) = (String.length a + String.length b)%nat.
Proof.
  induction a as [|c a IH]; [reflexivity|]. rewrite append_cons. cbn. now rewrite IH.
Qed.

Lemma TrimSuffix_append (s suffix : string) : TrimSuffix (s +:+ suffix) suffix = s.
Proof.
  unfold TrimSuffix, HasSuffix. rewrite strrev_append, HasPrefix_append, length_append.
  replace (String.length s + String.length suffix - String.length suffix)%nat
    with (String.length s) by lia.
  induction s as [|c s IH]; [now destruct suffix|].
  rewrite append_cons. cbn. now rewrite IH.
Qed.

(** X23: the id written in decimal into a tenant path is the id the handlers
    read back, for every [int64] and whatever further path segments follow;
    the suffixes [/records], [/validate] and [/keys] are cut off first, so the
    three sub-resources address the same tenant. *)
Theorem parseID_round_trip (id : Z) (rest suffix : string) :
  - 2 ^ 63 <= id <= 2 ^ 63 - 1 ->
  rest = EmptyString \/ HasPrefix rest "/" = true ->
  parseID ("/api/tenants/" +:+ fmt_d id +:+ rest) "/api/tenants/" = Ok id
  /\ parseID (TrimSuffix ("/api/tenants/" +:+ fmt_d id +:+ rest +:+ suffix) suffix)
             "/api/tenants/" = Ok id.
Proof.
  intros Hid Hrest.
  assert (parseID ("/api/tenants/" +:+ fmt_d id +:+ rest) "/api/tenants/" = Ok id) as H.
  { unfold parseID. rewrite TrimPrefix_append.
    rewrite Split_first_append; [now apply ParseInt_fmt_d | apply fmt_d_free_of_slash
                                | exact Hrest]. }
  split; [exact H|].
  replace ("/api/tenants/" +:+ fmt_d id +:+ rest +:+ suffix)
    with (("/api/tenants/" +:+ fmt_d id +:+ rest) +:+ suffix)
    by (now rewrite !append_assoc).
  now rewrite TrimSuffix_append.
Qed.

End Paths.

(** * Configuration and the client's requests *)

Section Config.

Lemma os_Getenv_empty (env : gmap string string) (key k : string) :
  os_Getenv (<[key := EmptyString]> env) k = os_Getenv (delete key env) k.
Proof.
  unfold os_Getenv. destruct (decide (key = k)) as [->|Hne].
  - now rewrite lookup_insert_eq, lookup_delete_eq.
  - now rewrite lookup_insert_ne, lookup_delete_ne.
Qed.

Lemma envOr_nonempty (env : gmap string string) (key fallback : string) :
  fallback <> EmptyString -> envOr env key fallback <> EmptyString.
Proof.
  intros Hf. unfold envOr.
  destruct (isEmpty (os_Getenv env key)) eqn:E; cbn [negb]; [exact Hf|].
  now destruct (os_Getenv env key).
Qed.

(** X24: for the configuration a variable set to the empty string is the same
    as a variable that is not set; and whatever the environment, the external
    server's URL, the administrator's name and password, the listen address,
    the data directory, the bucket and the region are never empty. *)
Theorem LoadConfig_defaults (env : gmap string string) :
  (forall key, LoadConfig (<[key := EmptyString]> env) = LoadConfig (delete key env))
  /\ SFTPGoURL (LoadConfig env) <> EmptyString
  /\ AdminUser (LoadConfig env) <> EmptyString
  /\ AdminPass (LoadConfig env) <> EmptyString
  /\ ListenAddr (LoadConfig env) <> EmptyString
  /\ DataDir (LoadConfig env) <> EmptyString
  /\ S3Bucket (LoadConfig env) <> EmptyString
  /\ S3Region (LoadConfig env) <> EmptyString.
Proof.
  split.
  - intros key. unfold LoadConfig, envOr. now rewrite !os_Getenv_empty.
  - unfold LoadConfig. cbn. repeat split; now apply envOr_nonempty.
Qed.

End Config.

Section ClientCalls.
Context `{RT : Runtime} `{UR : !UserRuntime}.

Lemma doAuth_cached (req : HttpRequest) (w : World) :
  token_cached w ->
  SFTPGoClient_doAuth req w = http_Do (authorized (token (sftpgo w)) req) w.
Proof.
  intros H. unfold SFTPGoClient_doAuth, bind. now rewrite (getToken_cached w H).
Qed.

Lemma doAuth_failed (req : HttpRequest) (e : error) (w : World) :
  fst (SFTPGoClient_getToken w) = Err e ->
  SFTPGoClient_doAuth req w = (Err e, snd (SFTPGoClient_getToken w)).
Proof.
  intros H. unfold SFTPGoClient_doAuth, bind, ret.
  destruct (SFTPGoClient_getToken w) as [[tok|e'] w1]; cbn in *; congruence.
Qed.

Lemma http_Do_sent (req : HttpRequest) (w : World) :
  sent (snd (http_Do req w)) = sent w ++ [req]
  /\ sftpgo (snd (http_Do req w)) = sftpgo w
  /\ db (snd (http_Do req w)) = db w.
Proof. unfold http_Do. now destruct (replies w). Qed.

(** X25: with a token in the cache each call of the client sends exactly one
    request, to the user's URL with the call's method, carrying the cached
    token as bearer token; no token request is made and the cache is kept. *)
Theorem cached_token_one_request
    (username password homeDir : string) (publicKeys : list string)
    (s3 : option S3Config) (tenantID : string) (w : World) :
  token_cached w ->
  (forall method url, http_NewRequest_error method url = None) ->
  (exists body,
      sent (snd (SFTPGoClient_CreateUser username password homeDir publicKeys s3
                   tenantID w))
      = sent w ++ [authorized (token (sftpgo w))
                     (mkRequest "POST" (baseURL (sftpgo w) +:+ "/api/v2/users")
                                None [] (Some body))])
  /\ sent (snd (SFTPGoClient_DeleteUser username w))
     = sent w ++ [authorized (token (sftpgo w))
                    (mkRequest "DELETE"
                       (baseURL (sftpgo w) +:+ "/api/v2/users/" +:+ username)
                       None [] None)]
  /\ sent (snd (SFTPGoClient_UpdateUserPublicKeys username publicKeys w))
     = sent w ++ [authorized (token (sftpgo w))
                    (mkRequest "PUT"
                       (baseURL (sftpgo w) +:+ "/api/v2/users/" +:+ username)
                       None [] (Some (JObj [("public_keys", JStrs publicKeys)])))]
  /\ sent (snd (SFTPGoClient_GetUser username w))
     = sent w ++ [authorized (token (sftpgo w))
                    (mkRequest "GET"
                       (baseURL (sftpgo w) +:+ "/api/v2/users/" +:+ username)
                       None [] None)]
  /\ sftpgo (snd (SFTPGoClient_CreateUser username password homeDir publicKeys s3
                    tenantID w)) = sftpgo w
  /\ sftpgo (snd (SFTPGoClient_DeleteUser username w)) = sftpgo w
  /\ sftpgo (snd (SFTPGoClient_UpdateUserPublicKeys username publicKeys w)) = sftpgo w
  /\ sftpgo (snd (SFTPGoClient_GetUser username w)) = sftpgo w.
Proof.
  intros Hc Hurl.
  unfold SFTPGoClient_CreateUser, SFTPGoClient_DeleteUser,
         SFTPGoClient_UpdateUserPublicKeys, SFTPGoClient_GetUser, bind, ret.
  rewrite !Hurl, !(doAuth_cached _ w Hc).
  assert (forall (A : Type) (req : HttpRequest)
                 (k : Result HttpResponse -> World -> A * World),
             (forall r w', snd (k r w') = w') ->
             sent (snd (let (a, w') := http_Do req w in k a w')) = sent w ++ [req]
             /\ sftpgo (snd (let (a, w') := http_Do req w in k a w')) = sftpgo w) as Hk.
  { intros A req k Hkw. pose proof (http_Do_sent req w) as (H1 & H2 & _).
    destruct (http_Do req w) as [r w1]. cbn [fst snd] in *. now rewrite Hkw. }
  assert (forall A : Type, forall a : A, forall w' : World, snd (a, w') = w') as Hsnd
    by reflexivity.
  split; [eexists|]; repeat split;
    (apply Hk; intros [resp|err] w'; [|reflexivity];
     repeat match goal with
            | |- context [if ?b then _ else _] => destruct b
            | |- context [match ?x with Ok _ => _ | Err _ => _ end] => destruct x
            end; reflexivity).
Qed.

End ClientCalls.

(** * The tenant routes *)

Section Routes.
Context `{RT : Runtime} `{UR : !UserRuntime}.

(** X26: without a token nothing is asked of the external server.  When the
    token cannot be had, each call of the client returns the token error and
    stops where [getToken] stopped: the request for the user is not sent. *)
Theorem failed_token_blocks_call
    (username password homeDir : string) (publicKeys : list string)
    (s3 : option S3Config) (tenantID : string) (e : error) (w : World) :
  fst (SFTPGoClient_getToken w) = Err e ->
  (forall method url, http_NewRequest_error method url = None) ->
  SFTPGoClient_CreateUser username password homeDir publicKeys s3 tenantID w
    = (Some e, snd (SFTPGoClient_getToken w))
  /\ SFTPGoClient_DeleteUser username w = (Some e, snd (SFTPGoClient_getToken w))
  /\ SFTPGoClient_UpdateUserPublicKeys username publicKeys w
     = (Some e, snd (SFTPGoClient_getToken w))
  /\ SFTPGoClient_GetUser username w = (Err e, snd (SFTPGoClient_getToken w))
  /\ (sent (snd (SFTPGoClient_getToken w)) = sent w
      \/ sent (snd (SFTPGoClient_getToken w)) = sent w ++ [token_request (sftpgo w)]).
Proof.
  intros He Hurl.
  unfold SFTPGoClient_CreateUser, SFTPGoClient_DeleteUser,
         SFTPGoClient_UpdateUserPublicKeys, SFTPGoClient_GetUser, bind, ret.
  rewrite !Hurl, !(doAuth_failed _ e w He).
  repeat (split; [reflexivity|]).
  clear He. unfold SFTPGoClient_getToken, bind, ret, http_Do.
  destruct (negb _ && _); [now left|]. rewrite Hurl.
  destruct (replies w) as [|[resp|err] rest]; cbn; try (now right).
  destruct (negb (StatusCode resp =? StatusOK)); [now right|].
  destruct (json_Decode_token (Body resp)) as [[tok exp]|err]; now right.
Qed.

Lemma GetUser_db (username : string) (w : World) :
  db (snd (SFTPGoClient_GetUser username w)) = db w.
Proof.
  unfold SFTPGoClient_GetUser, bind, ret.
  destruct (http_NewRequest_error _ _); [reflexivity|].
  match goal with |- context [SFTPGoClient_doAuth ?r w] =>
    pose proof (doAuth_db r w) as H;
    destruct (SFTPGoClient_doAuth r w) as [[resp|err] w1] end; cbn in *; [|exact H].
  destruct (StatusCode resp =? StatusNotFound); [exact H|].
  destruct (negb _); [exact H|]. now destruct (json_Decode_map (Body resp)).
Qed.

Lemma ValidateTenant_db (method path : string) (w : World) :
  db (snd (Handlers_ValidateTenant method path w)) = db w.
Proof.
  unfold Handlers_ValidateTenant, bind, ret.
  destruct (negb _); [reflexivity|]. cbn zeta.
  destruct (parseID _ _) as [id|e]; [|reflexivity].
  pose proof (DB_GetTenant_frame id w) as (Hd & _).
  destruct (DB_GetTenant id w) as [[tenant|e] w1]; cbn [fst snd] in *; [|exact Hd].
  pose proof (GetUser_db (t_Username tenant) w1) as Hu.
  destruct (SFTPGoClient_GetUser (t_Username tenant) w1) as [[user|err] w2];
    cbn [fst snd] in *; congruence.
Qed.

(** X27: validation never fails for a tenant of the registry and never writes.
    Once the tenant is found the answer is 200 whatever the external server
    does: an error of the external call is reported as [valid: false] with
    the error as the reason, and a 404 of the external server as the reason
    [user not found in sftpgo].  The registry is never changed. *)
Theorem ValidateTenant_answers (path : string) (id : Z) (tenant : Tenant) (w w1 : World) :
  parseID (TrimSuffix path "/validate") "/api/tenants/" = Ok id ->
  DB_GetTenant id w = (Ok tenant, w1) ->
  db (snd (Handlers_ValidateTenant "POST" path w)) = db w
  /\ (exists v, fst (Handlers_ValidateTenant "POST" path w) = writeJSON StatusOK v)
  /\ (forall err,
        fst (SFTPGoClient_GetUser (t_Username tenant) w1) = Err err ->
        fst (Handlers_ValidateTenant "POST" path w)
        = writeJSON StatusOK (JObj [("valid", JBool false); ("reason", JStr err)]))
  /\ (token_cached w1 ->
      (forall method url, http_NewRequest_error method url = None) ->
      forall body rest,
        replies w1 = Ok (mkResponse StatusNotFound body) :: rest ->
        fst (Handlers_ValidateTenant "POST" path w)
        = writeJSON StatusOK
            (JObj [("valid", JBool false); ("reason", JStr "user not found in sftpgo")])).
Proof.
  intros Hp Hg. split; [apply ValidateTenant_db|].
  assert (Handlers_ValidateTenant "POST" path w
          = match SFTPGoClient_GetUser (t_Username tenant) w1 with
            | (Err err, w2) =>
                (writeJSON StatusOK (JObj [("valid", JBool false); ("reason", JStr err)]),
                 w2)
            | (Ok sftpgoUser, w2) =>
                (writeJSON StatusOK
                   (JObj [("valid",
                           JBool (float64_eqb
                                    match sftpgoUser !! "status" with
                                    | Some (AnyFloat f) => f
                                    | _ => float64_of_Z 0
                                    end (float64_of_Z 1)));
                          ("username", JStr (t_Username tenant))]), w2)
            end) as Hrun.
  { unfold Handlers_ValidateTenant. rewrite String.eqb_refl. cbn [negb]. cbn zeta.
    rewrite Hp. unfold bind, ret. rewrite Hg.
    now destruct (SFTPGoClient_GetUser (t_Username tenant) w1) as [[user|err] w2]. }
  rewrite Hrun. split; [|split].
  - destruct (SFTPGoClient_GetUser (t_Username tenant) w1) as [[user|err] w2]; eauto.
  - intros err He.
    destruct (SFTPGoClient_GetUser (t_Username tenant) w1) as [[user|err'] w2];
      cbn in He; [discriminate He|]. now injection He as ->.
  - intros Hc Hurl body rest Hr.
    assert (fst (SFTPGoClient_GetUser (t_Username tenant) w1)
            = Err "user not found in sftpgo") as He.
    { unfold SFTPGoClient_GetUser, bind, ret.
      rewrite Hurl, (doAuth_cached _ w1 Hc). unfold http_Do. rewrite Hr. reflexivity. }
    destruct (SFTPGoClient_GetUser (t_Username tenant) w1) as [[user|err'] w2];
      cbn in He; [discriminate He|]. now injection He as ->.
Qed.


Lemma ListTenants_frame (method : string) (w : World) :
  db (snd (Handlers_ListTenants method w)) = db w
  /\ sent (snd (Handlers_ListTenants method w)) = sent w.
Proof.
  unfold Handlers_ListTenants, DB_ListTenants, bind, ret.
  destruct (negb _); [now split|].
  pose proof (conn_Exec_frame sql_select_tenants w) as (_ & _ & _ & _ & F5 & _).
  pose proof (conn_Exec_query sql_select_tenants w (fun _ _ => eq_refl)) as Fd.
  now destruct (conn_Exec sql_select_tenants w) as [[rows|e] w1].
Qed.

Lemma ListTenantRecords_frame (method path : string) (w : World) :
  db (snd (Handlers_ListTenantRecords method path w)) = db w
  /\ sent (snd (Handlers_ListTenantRecords method path w)) = sent w.
Proof.
  unfold Handlers_ListTenantRecords, bind, ret.
  destruct (negb _); [now split|]. cbn zeta.
  destruct (parseID _ _) as [id|e]; [|now split].
  pose proof (DB_GetTenant_frame id w) as (Hd & _ & Hs & _).
  destruct (DB_GetTenant id w) as [[tenant|e] w1]; cbn [fst snd] in *; [|now split].
  pose proof (DB_ListRecords_run (t_TenantID tenant) w1) as (Hd2 & Hs2 & _).
  destruct (DB_ListRecords (t_TenantID tenant) w1) as [[records|err] w2];
    cbn [fst snd] in *; split; congruence.
Qed.

Lemma GetTenant_frame (method path : string) (w : World) :
  db (snd (Handlers_GetTenant method path w)) = db w
  /\ sent (snd (Handlers_GetTenant method path w)) = sent w.
Proof.
  unfold Handlers_GetTenant, bind, ret.
  destruct (negb _); [now split|].
  destruct (parseID _ _) as [id|e]; [|now split].
  pose proof (DB_GetTenant_frame id w) as (Hd & _ & Hs & _).
  now destruct (DB_GetTenant id w) as [[tenant|e] w1].
Qed.

Lemma CreateTenant_records (cfg : Config) (method : string)
    (body : Result CreateTenantRequest) (w : World) :
  records (db (snd (Handlers_CreateTenant cfg method body w))) = records (db w).
Proof.
  unfold Handlers_CreateTenant.
  destruct (negb _); [reflexivity|].
  destruct body as [req|e]; [|reflexivity].
  destruct (isEmpty (c_Username req)); [reflexivity|].
  unfold bind at 1.
  pose proof (newCredentials_db (c_Password req) w) as Hc.
  destruct (newCredentials (c_Password req) w) as [[[password tenantID]|e] w1];
    cbn [fst snd] in *; [|cbn; congruence].
  unfold bind at 1.
  match goal with |- context [SFTPGoClient_CreateUser ?a ?b ?c ?d ?e ?f w1] =>
    pose proof (CreateUser_db a b c d e f w1) as Hu;
    destruct (SFTPGoClient_CreateUser a b c d e f w1) as [[err|] w2] end;
    cbn [fst snd] in *; [cbn; congruence|].
  unfold bind, ret.
  match goal with |- context [DB_CreateTenant ?a ?b ?c ?d ?e w2] =>
    destruct (DB_CreateTenant a b c d e w2) as [[tenant|err] w3] eqn:Ed end;
    cbn [fst snd].
  - apply DB_CreateTenant_done in Ed as [_ ->]. cbn. congruence.
  - apply DB_CreateTenant_failed in Ed as [-> _]. congruence.
Qed.

Lemma UpdateTenantKeys_records (method path : string) (body : Result UpdateKeysRequest)
    (w : World) :
  records (db (snd (Handlers_UpdateTenantKeys method path body w))) = records (db w).
Proof.
  unfold Handlers_UpdateTenantKeys.
  destruct (negb _); [reflexivity|]. cbn zeta.
  destruct (parseID _ _) as [id|e]; [|reflexivity].
  destruct body as [req|e]; [|reflexivity].
  destruct (isEmpty (u_PublicKey req)); [reflexivity|].
  unfold bind, ret.
  pose proof (DB_GetTenant_frame id w) as (Hd & _).
  destruct (DB_GetTenant id w) as [[tenant|e] w1]; cbn [fst snd] in *;
    [|now rewrite Hd].
  pose proof (DB_UpdateTenantPublicKey_run id (u_PublicKey req) w1)
    as (_ & _ & _ & _ & Hr & _).
  destruct (DB_UpdateTenantPublicKey id (u_PublicKey req) w1) as [[err|] w2];
    cbn [fst snd] in *; [congruence|].
  pose proof (UpdateUserPublicKeys_db (t_Username tenant) [u_PublicKey req] w2) as Hu.
  destruct (SFTPGoClient_UpdateUserPublicKeys _ _ w2) as [[err|] w3];
    cbn [fst snd] in *; congruence.
Qed.

Lemma DeleteTenant_records (method path : string) (w : World) :
  records (db (snd (Handlers_DeleteTenant method path w))) = records (db w).
Proof.
  unfold Handlers_DeleteTenant, bind, ret.
  destruct (negb _); [reflexivity|].
  destruct (parseID _ _) as [id|e]; [|reflexivity].
  pose proof (DB_DeleteTenant_run id w) as (Hr & _).
  destruct (DB_DeleteTenant id w) as [[username|e] w1]; cbn [fst snd] in *;
    [|exact Hr].
  pose proof (DeleteUser_db username w1) as Hu.
  destruct (SFTPGoClient_DeleteUser username w1) as [[err|] w2];
    cbn [fst snd] in *; congruence.
Qed.

(** X28: the records table belongs to ingestion.  No request to the tenant
    routes, whatever its method, path and body, changes a record: creating,
    rotating and deleting a tenant leave the records as they are. *)
Theorem tenant_routes_keep_records (cfg : Config) (r : Request) (w : World) :
  records (db (snd (serve_tenants cfg r w))) = records (db w)
  /\ records (db (snd (serve_tenant r w))) = records (db w).
Proof.
  unfold serve_tenants, serve_tenant, bind, ret. split.
  - destruct (String.eqb (in_Method r) "POST").
    + pose proof (CreateTenant_records cfg (in_Method r) (in_CreateTenant r) w) as H.
      now destruct (Handlers_CreateTenant _ _ _ w).
    + pose proof (ListTenants_frame (in_Method r) w) as [H _].
      destruct (Handlers_ListTenants _ w). cbn in *. congruence.
  - destruct (HasSuffix (in_Path r) "/records").
    { pose proof (ListTenantRecords_frame (in_Method r) (in_Path r) w) as [H _].
      congruence. }
    destruct (HasSuffix (in_Path r) "/validate").
    { pose proof (ValidateTenant_db (in_Method r) (in_Path r) w) as H.
      destruct (Handlers_ValidateTenant _ _ w). cbn in *. congruence. }
    destruct (HasSuffix (in_Path r) "/keys").
    { pose proof (UpdateTenantKeys_records (in_Method r) (in_Path r) (in_UpdateKeys r) w)
        as H.
      now destruct (Handlers_UpdateTenantKeys _ _ _ w). }
    destruct (String.eqb (in_Method r) "GET").
    { pose proof (GetTenant_frame (in_Method r) (in_Path r) w) as [H _].
      destruct (Handlers_GetTenant _ _ w). cbn in *. congruence. }
    destruct (String.eqb (in_Method r) "DELETE"); [|reflexivity].
    pose proof (DeleteTenant_records (in_Method r) (in_Path r) w) as H.
    now destruct (Handlers_DeleteTenant _ _ w).
Qed.

(** X29: only writes change the registry.  On [/api/tenants] every method but
    POST, and on [/api/tenants/...] every method but PUT and DELETE, leaves the
    tables as they are; and apart from POST, PUT and DELETE no request makes
    the service call the external server. *)
Theorem only_writes_change_registry (cfg : Config) (r : Request) (w : World) :
  (in_Method r <> "POST" ->
   db (snd (serve_tenants cfg r w)) = db w
   /\ sent (snd (serve_tenants cfg r w)) = sent w)
  /\ (in_Method r <> "PUT" -> in_Method r <> "DELETE" ->
      db (snd (serve_tenant r w)) = db w)
  /\ (in_Method r <> "PUT" -> in_Method r <> "DELETE" -> in_Method r <> "POST" ->
      sent (snd (serve_tenant r w)) = sent w).
Proof.
  unfold serve_tenants, serve_tenant, bind, ret. split; [|split].
  - intros Hm. apply String.eqb_neq in Hm. rewrite Hm.
    pose proof (ListTenants_frame (in_Method r) w) as H.
    now destruct (Handlers_ListTenants _ w).
  - intros Hput Hdel. apply String.eqb_neq in Hput, Hdel.
    destruct (HasSuffix (in_Path r) "/records");
      [apply ListTenantRecords_frame|].
    destruct (HasSuffix (in_Path r) "/validate").
    { pose proof (ValidateTenant_db (in_Method r) (in_Path r) w) as H.
      now destruct (Handlers_ValidateTenant _ _ w). }
    destruct (HasSuffix (in_Path r) "/keys").
    { unfold Handlers_UpdateTenantKeys. now rewrite Hput. }
    destruct (String.eqb (in_Method r) "GET").
    { pose proof (GetTenant_frame (in_Method r) (in_Path r) w) as [H _].
      now destruct (Handlers_GetTenant _ _ w). }
    now rewrite Hdel.
  - intros Hput Hdel Hpost. apply String.eqb_neq in Hput, Hdel, Hpost.
    destruct (HasSuffix (in_Path r) "/records");
      [apply ListTenantRecords_frame|].
    destruct (HasSuffix (in_Path r) "/validate").
    { unfold Handlers_ValidateTenant. now rewrite Hpost. }
    destruct (HasSuffix (in_Path r) "/keys").
    { unfold Handlers_UpdateTenantKeys. now rewrite Hput. }
    destruct (String.eqb (in_Method r) "GET").
    { pose proof (GetTenant_frame (in_Method r) (in_Path r) w) as [_ H].
      now destruct (Handlers_GetTenant _ _ w). }
    now rewrite Hdel.
Qed.

End Routes.

(** * Ingestion of a whole file *)

Section WholeFile.
Context `{RT : Runtime} `{UR : !UserRuntime}.








End WholeFile.

(** ** Concrete runs *)

Lemma C9_witness :
  fst (SFTPGoClient_getToken token_world) = Ok "cached-token"
  /\ sent (snd (SFTPGoClient_getToken token_world)) = [token_request sample_client]
  /\ tokenExp (sftpgo (snd (SFTPGoClient_getToken token_world)))
     = 4070908800 * Second - 30 * Second
  /\ SFTPGoClient_getToken (snd (SFTPGoClient_getToken token_world))
     = (Ok "cached-token", snd (SFTPGoClient_getToken token_world)).
Proof.
  destruct (C9_token_cache token_world) as [_ Hfresh].
  destruct Hfresh as [Hsent Hreply];
    [intros [Hne _]; apply Hne; reflexivity | reflexivity |].
  destruct (Hreply sample_token_body "cached-token" (4070908800 * Second) []
              eq_refl eq_refl) as (Htok & _ & Hexp & Hlater).
  split; [exact Htok|]. split; [exact Hsent|]. split; [exact Hexp|].
  destruct (C9_token_cache (snd (SFTPGoClient_getToken token_world))) as [Hcached _].
  apply Hcached. apply (Hlater _ eq_refl); [discriminate | reflexivity].
Defined.

Lemma C2_witness :
  fst (Handlers_CreateTenant sample_config "POST" (Ok acme_request) refused_world)
    = writeError StatusBadGateway "token request failed (401): unauthorized"
  /\ db (snd (Handlers_CreateTenant sample_config "POST" (Ok acme_request)
                refused_world)) = db refused_world.
Proof.
  edestruct (C2_no_row_without_external_user sample_config acme_request refused_world)
    as [Hresp Hdb]; [discriminate | reflexivity | reflexivity |].
  rewrite Hresp. split; [reflexivity | exact Hdb].
Defined.

Lemma C8_counterexample :
  ~ (forall (RT : Runtime) (cfg : Config) (req : CreateTenantRequest)
            (password tenantID : string) (err : error) (w w1 w2 w3 : World),
        c_Username req <> EmptyString ->
        newCredentials (c_Password req) w = (Ok (password, tenantID), w1) ->
        SFTPGoClient_CreateUser (c_Username req) password
          (filepath_Join (DataDir cfg) tenantID) (pubKeys_of (c_PublicKey req))
          (s3Cfg_of cfg) tenantID w1 = (None, w2) ->
        DB_CreateTenant tenantID (c_Username req) password (c_PublicKey req)
          (filepath_Join (DataDir cfg) tenantID) w2 = (Err err, w3) ->
        exists msg,
          fst (Handlers_CreateTenant cfg "POST" (Ok req) w)
            = writeError StatusBadGateway msg).
Proof.
  intros H.
  edestruct H with (RT := sample_runtime) (cfg := sample_config)
                   (req := acme_request) (w := orphan_world)
    as [msg Hmsg]; [discriminate | reflexivity | reflexivity | reflexivity |].
  discriminate Hmsg.
Qed.

Lemma C8_witness :
  fst (Handlers_DeleteTenant "DELETE" "/api/tenants/1" stuck_world)
    = writeError StatusBadGateway
        "deleted from db but sftpgo failed: sftpgo delete user (500): boom"
  /\ fst (Handlers_CreateTenant sample_config "POST" (Ok acme_request) orphan_world)
     = writeError StatusInternalServerError
         "insert tenant: constraint failed: UNIQUE constraint failed: tenants.username".
Proof.
  destruct C8_split_state_answers as [Hdelete Hcreate]. split.
  - edestruct Hdelete with (path := "/api/tenants/1") (w := stuck_world)
      as [Hresp _];
      [reflexivity | reflexivity | reflexivity |].
    rewrite Hresp. reflexivity.
  - edestruct Hcreate with (cfg := sample_config) (req := acme_request)
                           (w := orphan_world) as [Hresp _];
      [discriminate | reflexivity | reflexivity | reflexivity |].
    rewrite Hresp. reflexivity.
Defined.

Lemma C6_witness :
  fst (Worker_ProcessUploadEvent "sftpgo" (upload_event "/missing.csv") upload_world)
    = Returned
  /\ db (snd (Worker_ProcessUploadEvent "sftpgo" (upload_event "/missing.csv")
                upload_world)) = db upload_world.
Proof.
  apply (C6_missing_column_no_records "sftpgo" (upload_event "/missing.csv")
           upload_world upload_world acme ["key"; "title"]
           [CsvRecord ["REC-001"; "First"]]).
  - reflexivity.
  - reflexivity.
  - exists "value". split.
    + apply list_elem_of_In. cbn. auto.
    + intros H. apply list_elem_of_In in H. cbn in H.
      destruct H as [H|[H|[]]]; discriminate H.
Defined.


(** A file with the five columns in mixed case and three rows, the
    second with a value that is not a number: the first and third rows are
    upserted, trimmed, in file order, and the count is 2. *)
Example ingest_data_csv :
  let run := Worker_ProcessUploadEvent "sftpgo" (upload_event "/data.csv") upload_world in
  fst run = Processed 2
  /\ records (db (snd run))
     = [mkRecord 1 "tid1" "REC-001" "First" "d1" "c1" 10 0;
        mkRecord 2 "tid1" "REC-003" "Third" "d3" "c3" 30 0].
Proof. vm_compute. split; reflexivity. Qed.

Lemma Fields_TrimSpace_witness :
  isASCII padded_key = true
  /\ Fields (TrimSpace padded_key) = Fields padded_key.
Proof.
  split; [reflexivity|]. apply (Fields_TrimSpace (RT := sample_runtime)). reflexivity.
Defined.

Lemma created_tenant_found_witness :
  exists row,
    fst (DB_GetTenantByUsername "acme" (world_with [acme])) = Ok row
    /\ fst (DB_GetTenant 1 (world_with [acme])) = Ok row
    /\ t_TenantID row = "tid1" /\ t_HomeDir row = "/data/tid1".
Proof.
  edestruct (created_tenant_found (RT := sample_runtime)
               "tid1" "acme" "secret123" EmptyString "/data/tid1"
               acme empty_world
               (snd (DB_CreateTenant "tid1" "acme" "secret123" EmptyString "/data/tid1"
                       empty_world))
               (world_with [acme]))
    as (row & H1 & H2 & _ & H3 & _ & _ & _ & H4 & _);
    [reflexivity | reflexivity | intros e H; discriminate H |].
  exists row. repeat split; assumption.
Defined.

Lemma generated_credentials_witness :
  exists password tenantID w1,
    newCredentials EmptyString fresh_world = (Ok (password, tenantID), w1)
    /\ String.length tenantID = 32%nat /\ allHex tenantID = true
    /\ String.length password = 32%nat /\ allHex password = true.
Proof.
  eexists _, _, _. split; [reflexivity|].
  edestruct (generated_credentials (RT := sample_runtime) EmptyString
               (hex_EncodeToString sixteen) (hex_EncodeToString sixteen) fresh_world
               (snd (newCredentials EmptyString fresh_world)) eq_refl)
    as (H1 & H2 & H3 & _).
  destruct (H3 eq_refl) as [H4 H5]. repeat split; assumption.
Defined.

(** The scenario [{"username":"acme"}] on an empty registry: 201, a generated
    password and tenant token, and one row; the row's [created_at] is
    SQLite's second, the answer's is [time.Now()]. *)
Example create_acme :
  let run := Handlers_CreateTenant sample_config "POST" (Ok acme_only) fresh_world in
  fst run
    = writeJSON StatusCreated
        (JObj [("tenant",
                Tenant_json
                  (mkTenant 1 "000102030405060708090a0b0c0d0e0f" "acme"
                     "000102030405060708090a0b0c0d0e0f" EmptyString
                     "/srv/sftpgo/data/000102030405060708090a0b0c0d0e0f"
                     (5 * Second + 7)));
               ("password", JStr "000102030405060708090a0b0c0d0e0f");
               ("tenant_id", JStr "000102030405060708090a0b0c0d0e0f")])
  /\ tenants (db (snd run))
     = [mkTenant 1 "000102030405060708090a0b0c0d0e0f" "acme"
          "000102030405060708090a0b0c0d0e0f" EmptyString
          "/srv/sftpgo/data/000102030405060708090a0b0c0d0e0f" (5 * Second)].
Proof. vm_compute. split; reflexivity. Qed.

Lemma DeleteTenant_unknown_id_witness :
  fst (Handlers_DeleteTenant "DELETE" "/api/tenants/7" stuck_world)
    = HttpError (error_text "tenant not found") StatusNotFound
  /\ sent (snd (Handlers_DeleteTenant "DELETE" "/api/tenants/7" stuck_world)) = [].
Proof.
  destruct (DeleteTenant_unknown_id (RT := sample_runtime) "/api/tenants/7" 7 stuck_world)
    as (H1 & _ & H2); [reflexivity | |].
  - intros t [<-|[]]. discriminate.
  - split; assumption.
Defined.

Lemma deleted_tenant_rejected_witness :
  fst (Handlers_ExternalAuthHook sample_config "POST" (Ok acme_login)
         (snd (Handlers_DeleteTenant "DELETE" "/api/tenants/1" stuck_world)))
  = HttpError EmptyString StatusForbidden.
Proof.
  apply (deleted_tenant_rejected (RT := sample_runtime) "/api/tenants/1" 1 "acme"
           stuck_world (snd (DB_DeleteTenant 1 stuck_world))).
  - split; apply NoDup_singleton.
  - reflexivity.
  - reflexivity.
  - reflexivity.
  - reflexivity.
Defined.

Lemma created_tenant_authenticates_witness :
  exists row,
    fst (Handlers_ExternalAuthHook sample_config "POST"
           (Ok (mkAuthRequest "acme" "000102030405060708090a0b0c0d0e0f" EmptyString
                  "SSH" "127.0.0.1"))
           (snd (Handlers_CreateTenant sample_config "POST" (Ok acme_only) fresh_world)))
      = writeJSON StatusOK (sftpgoUser sample_config row)
    /\ t_TenantID row = "000102030405060708090a0b0c0d0e0f".
Proof.
  edestruct (created_tenant_authenticates (RT := sample_runtime)
               sample_config acme_only fresh_world
               (Tenant_json
                  (mkTenant 1 "000102030405060708090a0b0c0d0e0f" "acme"
                     "000102030405060708090a0b0c0d0e0f" EmptyString
                     "/srv/sftpgo/data/000102030405060708090a0b0c0d0e0f"
                     (5 * Second + 7)))
               "000102030405060708090a0b0c0d0e0f" "000102030405060708090a0b0c0d0e0f"
               eq_refl sample_config
               (snd (Handlers_CreateTenant sample_config "POST" (Ok acme_only) fresh_world))
               "SSH" "127.0.0.1" eq_refl) as [(row & H1 & _ & H2 & _) _].
  - intros e H. discriminate H.
  - exists row. split; assumption.
Defined.

Lemma update_key_of_unknown_tenant_witness :
  fst (DB_UpdateTenantPublicKey 7 "ssh-ed25519 AAAA" stuck_world) = None
  /\ db (snd (DB_UpdateTenantPublicKey 7 "ssh-ed25519 AAAA" stuck_world)) = db stuck_world.
Proof.
  apply (update_key_of_unknown_tenant (RT := sample_runtime)).
  - intros t [<-|[]]. discriminate.
  - intros e H. discriminate H.
Defined.

Lemma updated_key_read_back_witness :
  fst (DB_GetTenant 1 (snd (DB_UpdateTenantPublicKey 1 "ssh-ed25519 AAAA" stuck_world)))
  = Ok (with_public_key "ssh-ed25519 AAAA" acme).
Proof.
  edestruct (updated_key_read_back (RT := sample_runtime) 1 "ssh-ed25519 AAAA" acme
               stuck_world (snd (DB_UpdateTenantPublicKey 1 "ssh-ed25519 AAAA" stuck_world))
               (snd (DB_UpdateTenantPublicKey 1 "ssh-ed25519 AAAA" stuck_world)))
    as [H _]; [reflexivity | reflexivity | reflexivity | |exact H].
  intros e H. discriminate H.
Defined.

Lemma UpdateTenantKeys_split_state_witness :
  fst (Handlers_UpdateTenantKeys "PUT" "/api/tenants/1/keys" (Ok new_key) stuck_world)
    = writeError StatusBadGateway
        "db updated but sftpgo failed: sftpgo update user keys (500): boom"
  /\ t_PublicKey
       <$> find (fun t => t_ID t =? 1)
             (tenants (db (snd (Handlers_UpdateTenantKeys "PUT" "/api/tenants/1/keys"
                                  (Ok new_key) stuck_world))))
     = Some (u_PublicKey new_key).
Proof.
  pose (w1 := snd (DB_GetTenant 1 stuck_world)).
  pose (w2 := snd (DB_UpdateTenantPublicKey 1 (u_PublicKey new_key) w1)).
  pose (w3 := snd (SFTPGoClient_UpdateUserPublicKeys "acme" [u_PublicKey new_key] w2)).
  destruct (UpdateTenantKeys_split_state (RT := sample_runtime)
              "/api/tenants/1/keys" 1 new_key acme
              "sftpgo update user keys (500): boom" stuck_world w1 w2 w3) as [H1 H2];
    [reflexivity | discriminate | reflexivity | reflexivity | reflexivity |].
  rewrite H1. cbn [fst snd]. rewrite H2. split; reflexivity.
Defined.

Lemma rotated_key_authenticates_witness :
  fst (Handlers_ExternalAuthHook sample_config "POST"
         (Ok (mkAuthRequest "acme" EmptyString "ssh-rsa AAAAC3NzNEW" "SSH" "10.0.0.1"))
         (snd (Handlers_UpdateTenantKeys "PUT" "/api/tenants/1/keys" (Ok new_key)
                 rotate_world)))
  = writeJSON StatusOK
      (sftpgoUser sample_config (with_public_key (u_PublicKey new_key) acme)).
Proof.
  apply (rotated_key_authenticates (RT := sample_runtime) "/api/tenants/1/keys" 1 new_key
           acme rotate_world sample_config _ _ "AAAAC3NzNEW").
  - split; apply NoDup_singleton.
  - reflexivity.
  - now left.
  - reflexivity.
  - reflexivity.
  - reflexivity.
  - intros e H. discriminate H.
  - reflexivity.
  - discriminate.
  - reflexivity.
  - reflexivity.
Defined.

Lemma GetTenant_answers_witness :
  fst (Handlers_GetTenant "GET" "/api/tenants/2" shared_world)
  = writeJSON StatusOK (Tenant_json globex).
Proof.
  destruct (GetTenant_answers (RT := sample_runtime) "/api/tenants/2" 2 shared_world
              eq_refl) as (_ & _ & H & _).
  rewrite H; [reflexivity|]. intros e He. discriminate He.
Defined.

Lemma ListTenantRecords_answers_witness :
  exists l,
    fst (Handlers_ListTenantRecords "GET" "/api/tenants/1/records" shared_world)
      = Records StatusOK (Some l)
    /\ Forall (fun r => r_TenantID r = "tid1") l.
Proof.
  destruct (ListTenantRecords_answers (RT := sample_runtime) "/api/tenants/1/records" 1
              acme shared_world) as (_ & l & H1 & _ & _ & H2);
    [reflexivity | reflexivity | constructor |].
  exists l. split; assumption.
Defined.

Lemma created_key_validates_witness :
  exists k,
    fst (fst (Handlers_CreateAPIKey "POST" "ci" [] fresh_world))
      = writeJSON StatusCreated (APIKey_json k)
    /\ String.length (k_Key k) = 64%nat.
Proof.
  edestruct (created_key_validates (RT := sample_runtime) "ci" [] fresh_world)
    as (k & stored & Hv & _ & Hlen & _); [reflexivity|].
  exists k. split; [|exact Hlen]. rewrite <- Hv. reflexivity.
Defined.

Lemma parseID_round_trip_witness :
  parseID "/api/tenants/42/records" "/api/tenants/" = Ok 42
  /\ parseID (TrimSuffix "/api/tenants/42/records/keys" "/keys") "/api/tenants/" = Ok 42.
Proof.
  apply (parseID_round_trip (RT := sample_runtime) 42 "/records" "/keys").
  - lia.
  - right. reflexivity.
Defined.

Lemma cached_token_one_request_witness :
  sent (snd (SFTPGoClient_DeleteUser "acme" cached_world))
  = [authorized "cached-token"
       (mkRequest "DELETE" "http://localhost:8080/api/v2/users/acme" None [] None)].
Proof.
  destruct (cached_token_one_request (RT := sample_runtime) "acme" "secret123"
              "/data/tid1" [] None "tid1" cached_world) as (_ & H & _).
  - split; [discriminate | reflexivity].
  - reflexivity.
  - exact H.
Defined.

Lemma failed_token_blocks_call_witness :
  SFTPGoClient_DeleteUser "acme" refused_world
  = (Some "token request failed (401): unauthorized",
     snd (SFTPGoClient_getToken refused_world)).
Proof.
  destruct (failed_token_blocks_call (RT := sample_runtime) "acme" "secret123"
              "/data/tid1" [] None "tid1" "token request failed (401): unauthorized"
              refused_world) as (_ & H & _).
  - reflexivity.
  - reflexivity.
  - exact H.
Defined.

Lemma ValidateTenant_answers_witness :
  fst (Handlers_ValidateTenant "POST" "/api/tenants/1/validate" cached_world)
  = writeJSON StatusOK
      (JObj [("valid", JBool false); ("reason", JStr "user not found in sftpgo")]).
Proof.
  destruct (ValidateTenant_answers (RT := sample_runtime) "/api/tenants/1/validate" 1
              acme cached_world (snd (DB_GetTenant 1 cached_world)) eq_refl eq_refl)
    as (_ & _ & _ & H).
  apply (H ltac:(split; [discriminate | reflexivity]) ltac:(reflexivity)
           EmptyString []).
  reflexivity.
Defined.


Lemma upload_event_dropped_witness :
  fst (Worker_ProcessUploadEvent "sftpgo" (upload_event "/notes.TXT") upload_world)
    = Returned
  /\ db (snd (Worker_ProcessUploadEvent "sftpgo" (upload_event "/notes.TXT")
                upload_world)) = db upload_world.
Proof.
  apply (upload_event_dropped (RT := sample_runtime)).
  right. right. left. reflexivity.
Defined.
